(** * claude-code-notify: configuration validation, script generation and
      hook installation, embedded from the TypeScript sources

    The sources are [src/types.ts] (the data model and [DEFAULT_CONFIG]),
    [src/services/HookService.ts], [src/services/ConfigService.ts] and
    [src/services/SoundService.ts].

    JavaScript values are embedded as they are at run time: a string is its
    sequence of UTF-16 code units, a number is an IEEE 754 binary64, an
    object is a finite map from property names to values, and a property
    read on [undefined] or [null] throws.  Code that can throw lives in an
    error monad; code that touches the file system threads a [World]. *)

From Stdlib Require Import ZArith List Floats String Ascii Bool Lia.
From stdpp Require Import gmap list option.

Local Open Scope Z_scope.

(** ** Strings *)

(** A JavaScript string: its UTF-16 code units. *)
Notation jsstring := (list N).

(** An ASCII literal of the source. *)
Definition lit (s : string) : jsstring :=
  List.map N_of_ascii (list_ascii_of_string s).

(** The code unit of the double quote, which a literal below spells [@]
    (no template of the source contains an at sign). *)
Definition dquote : N := 34%N.

(** A literal of a shell template: [lit], with every [@] read as a double
    quote. *)
Definition sh (s : string) : jsstring :=
  List.map (fun c => if N.eqb c 64 then dquote else c) (lit s).

(** [needle] occurs in [hay] as a contiguous run. *)
Definition occurs_in (needle hay : jsstring) : Prop :=
  exists pre post, hay = pre ++ needle ++ post.

(** ** Values *)

Inductive JsVal :=
| JUndefined
| JNull
| JBool (b : bool)
| JNum (x : float)
| JStr (s : jsstring)
| JArr (l : list JsVal)
| JObj (m : gmap jsstring JsVal).

(** The results of [typeof] on these values ([typeof null] is
    ['object'], and so is [typeof] of an array). *)
Inductive JsType := TUndefined | TObject | TBoolean | TNumber | TString.

Definition typeof (v : JsVal) : JsType :=
  match v with
  | JUndefined => TUndefined
  | JNull => TObject
  | JBool _ => TBoolean
  | JNum _ => TNumber
  | JStr _ => TString
  | JArr _ => TObject
  | JObj _ => TObject
  end.

Global Instance JsType_eq_dec : EqDecision JsType.
Proof. solve_decision. Defined.

(** ToBoolean: what [!v], [v || w], [v && w] and [if (v)] test. *)
Definition truthy (v : JsVal) : bool :=
  match v with
  | JUndefined | JNull => false
  | JBool b => b
  | JNum x => negb (PrimFloat.is_zero x || PrimFloat.is_nan x)
  | JStr s => match s with [] => false | _ => true end
  | JArr _ | JObj _ => true
  end.

(** What [v ?? w] and [v?.p] test. *)
Definition nullish (v : JsVal) : bool :=
  match v with
  | JUndefined | JNull => true
  | _ => false
  end.

(** [v || w] and [v ?? w]. *)
Definition js_or (v w : JsVal) : JsVal := if truthy v then v else w.
Definition js_coalesce (v w : JsVal) : JsVal := if nullish v then w else v.

(** [v === s] for a string [s]. *)
Definition is_string (s : jsstring) (v : JsVal) : bool :=
  match v with
  | JStr t => bool_decide (t = s)
  | _ => false
  end.

(** [v === true]. *)
Definition is_true (v : JsVal) : bool :=
  match v with
  | JBool true => true
  | _ => false
  end.

(** An object literal [{ k1: v1, ..., kn: vn }] with distinct keys. *)
Definition obj (kvs : list (jsstring * JsVal)) : JsVal := JObj (list_to_map kvs).

(** ** Errors *)

Inductive Error :=
| TypeError            (* a property read on undefined or null, a call of
                          something that is no function, a strict-mode
                          assignment on a primitive *)
| SyntaxError          (* JSON.parse *)
| NoSuchFile           (* ENOENT *)
| LockTimeout          (* 'Timeout waiting for settings.json lock. ...' *)
| SettingsCorrupted    (* 'Claude Code settings.json is corrupted ...' *)
| SettingsSaveFailed.  (* 'Failed to save Claude settings: ...' *)

Inductive Result (A : Type) :=
| Ok (a : A)
| Throw (e : Error).
Arguments Ok {A} a.
Arguments Throw {A} e.

Global Instance Result_ret : MRet Result := fun A a => Ok a.
Global Instance Result_bind : MBind Result := fun A B f r =>
  match r with
  | Ok a => f a
  | Throw e => Throw e
  end.

(** [v.k] (and [v[k]] for a constant [k]), at the property names this
    program reads: [enabled], [volume], [cooldown], [notifications], the
    four notification kinds, [mode], [voice], [text], [sound], [hooks],
    [command], [Notification], [Stop], [PermissionRequest], [profiles],
    [currentProfile].  None of them is a built-in property of a string, an
    array, a number, a boolean or [Object.prototype], so the read finds an
    own property of an object or nothing. *)
Definition get (v : JsVal) (k : jsstring) : Result JsVal :=
  match v with
  | JUndefined | JNull => Throw TypeError
  | JObj m => Ok (default JUndefined (m !! k))
  | _ => Ok JUndefined
  end.

(** [v?.k]. *)
Definition opt_get (v : JsVal) (k : jsstring) : Result JsVal :=
  if nullish v then Ok JUndefined else get v k.

(** ** src/types.ts *)

Definition DEFAULT_CONFIG : JsVal :=
  obj [
    (lit "enabled", JBool true);
    (lit "volume", JNum 70);
    (lit "cooldown", JNum 3);
    (lit "notifications", obj [
      (lit "permission_prompt", obj [
        (lit "enabled", JBool true);
        (lit "mode", JStr (lit "talk"));
        (lit "voice", JStr (lit "Ava (Premium)"));
        (lit "text", JStr (lit "Permission required"))]);
      (lit "idle_prompt", obj [
        (lit "enabled", JBool true);
        (lit "mode", JStr (lit "talk"));
        (lit "voice", JStr (lit "Ava (Premium)"));
        (lit "text", JStr (lit "Done"))]);
      (lit "elicitation_dialog", obj [
        (lit "enabled", JBool true);
        (lit "mode", JStr (lit "talk"));
        (lit "voice", JStr (lit "Ava (Premium)"));
        (lit "text", JStr (lit "Input needed"))]);
      (lit "response_complete", obj [
        (lit "enabled", JBool true);
        (lit "mode", JStr (lit "talk"));
        (lit "voice", JStr (lit "Ava (Premium)"));
        (lit "text", JStr (lit "Response ready"))])])].

(** ** HookService: the pure helpers *)

(** [escapeForBash]: every match of the character class (the dollar sign,
    the backtick, the backslash, the exclamation mark and the double
    quote) is replaced by a backslash followed by the match. *)
Definition bash_special (c : N) : bool :=
  (N.eqb c 36 || N.eqb c 96 || N.eqb c 92 || N.eqb c 33 || N.eqb c 34)%bool.

Definition escapeForBash (str : jsstring) : jsstring :=
  flat_map (fun c => if bash_special c then [92%N; c] else [c]) str.

(** The class [\s] of a regular expression without the [u] flag: white
    space and line terminators. *)
Definition regex_space (c : N) : bool :=
  ((N.leb 9 c && N.leb c 13) || N.eqb c 32 || N.eqb c 160 || N.eqb c 5760
   || (N.leb 8192 c && N.leb c 8202) || N.eqb c 8232 || N.eqb c 8233
   || N.eqb c 8239 || N.eqb c 8287 || N.eqb c 12288 || N.eqb c 65279)%bool.

Definition ascii_alnum (c : N) : bool :=
  ((N.leb 97 c && N.leb c 122) || (N.leb 65 c && N.leb c 90)
   || (N.leb 48 c && N.leb c 57))%bool.

(** The complement of [[^a-zA-Z0-9\s\-_]]. *)
Definition sound_char_kept (c : N) : bool :=
  (ascii_alnum c || regex_space c || N.eqb c 45 || N.eqb c 95)%bool.

(** [name.replace(/[^a-zA-Z0-9\s\-_]/g, '') || 'Glass']. *)
Definition sanitizeSoundName (name : jsstring) : jsstring :=
  let sanitized := List.filter sound_char_kept name in
  match sanitized with
  | [] => lit "Glass"
  | _ => sanitized
  end.

(** [validateConfig]. *)
Definition notificationTypes : list jsstring :=
  [lit "permission_prompt"; lit "idle_prompt"; lit "elicitation_dialog";
   lit "response_complete"].

(** The conditional [typeof setting?.k === T ? setting.k : defaultSetting.k],
    which the source writes once per field. *)
Definition typed_or_default (T : JsType) (setting defaultSetting : JsVal)
    (k : jsstring) : Result JsVal :=
  s_k ← opt_get setting k;
  if decide (typeof s_k = T) then get setting k else get defaultSetting k.

(** The object literal assigned to [validatedNotifications[type]]. *)
Definition validatedSetting (setting defaultSetting : JsVal) : Result JsVal :=
  enabled ← typed_or_default TBoolean setting defaultSetting (lit "enabled");
  s_mode ← opt_get setting (lit "mode");
  mode ← (if (is_string (lit "talk") s_mode || is_string (lit "sound") s_mode)%bool
          then get setting (lit "mode")
          else get defaultSetting (lit "mode"));
  voice ← typed_or_default TString setting defaultSetting (lit "voice");
  text ← typed_or_default TString setting defaultSetting (lit "text");
  sound ← typed_or_default TString setting defaultSetting (lit "sound");
  Ok (obj [(lit "enabled", enabled); (lit "mode", mode); (lit "voice", voice);
           (lit "text", text); (lit "sound", sound)]).

(** One turn of [for (const type of notificationTypes)]. *)
Definition validateConfig_step (notifications : JsVal)
    (validatedNotifications : gmap jsstring JsVal) (type : jsstring)
    : Result (gmap jsstring JsVal) :=
  setting ← get notifications type;
  default_notifications ← get DEFAULT_CONFIG (lit "notifications");
  defaultSetting ← get default_notifications type;
  validated ← validatedSetting setting defaultSetting;
  Ok (<[type := validated]> validatedNotifications).

Fixpoint foldM {A B : Type} (f : B -> A -> Result B) (b : B) (l : list A)
    : Result B :=
  match l with
  | [] => Ok b
  | a :: l' => b' ← f b a; foldM f b' l'
  end.

Definition validateConfig (config : JsVal) : Result JsVal :=
  if (negb (truthy config) || negb (bool_decide (typeof config = TObject)))%bool
  then Ok DEFAULT_CONFIG
  else
    cfg_notifications ← get config (lit "notifications");
    let notifications := js_or cfg_notifications (JObj ∅) in
    validatedNotifications ← foldM (validateConfig_step notifications) ∅
                               notificationTypes;
    enabled ← typed_or_default TBoolean config DEFAULT_CONFIG (lit "enabled");
    volume ← typed_or_default TNumber config DEFAULT_CONFIG (lit "volume");
    cooldown ← typed_or_default TNumber config DEFAULT_CONFIG (lit "cooldown");
    Ok (obj [(lit "enabled", enabled); (lit "volume", volume);
             (lit "cooldown", cooldown);
             (lit "notifications", JObj validatedNotifications)]).


(** *** What [validateConfig] returns *)

(** An own property of an object. *)
Definition field (v : JsVal) (k : jsstring) : option JsVal :=
  match v with
  | JObj m => m !! k
  | _ => None
  end.

(** The property is present and [typeof] gives [T] on it. *)
Definition has_type (T : JsType) (o : option JsVal) : Prop :=
  exists v, o = Some v /\ typeof v = T.

(** [mode] is exactly ['talk'] or ['sound']. *)
Definition is_mode (o : option JsVal) : Prop :=
  o = Some (JStr (lit "talk")) \/ o = Some (JStr (lit "sound")).

(** A string, or [undefined] (an absent property reads as [undefined]). *)
Definition optional_string (o : option JsVal) : Prop :=
  o = None \/ o = Some JUndefined \/ has_type TString o.


(** As [setting_fully_typed], with [sound] a string or [undefined]. *)
Definition setting_typed (s : JsVal) : Prop :=
  has_type TBoolean (field s (lit "enabled")) /\
  is_mode (field s (lit "mode")) /\
  has_type TString (field s (lit "voice")) /\
  has_type TString (field s (lit "text")) /\
  optional_string (field s (lit "sound")).

(** The shape of a configuration, given the shape of its settings. *)
Definition config_shape (setting_ok : JsVal -> Prop) (c : JsVal) : Prop :=
  has_type TBoolean (field c (lit "enabled")) /\
  has_type TNumber (field c (lit "volume")) /\
  has_type TNumber (field c (lit "cooldown")) /\
  exists n, field c (lit "notifications") = Some n /\
    forall type, In type notificationTypes ->
      exists s, field n type = Some s /\ setting_ok s.

(** A default setting of [DEFAULT_CONFIG]: all of [enabled], [mode], [voice]
    and [text], and no [sound]. *)
Definition default_setting_shape (md : gmap jsstring JsVal) : Prop :=
  has_type TBoolean (md !! lit "enabled") /\
  is_mode (md !! lit "mode") /\
  has_type TString (md !! lit "voice") /\
  has_type TString (md !! lit "text") /\
  md !! lit "sound" = None.

(** ** Numbers *)

(** The built-in operations of the language that are left as parameters:
    no claim depends on what they return. *)
Class Builtins := {
  (** [Number(v)] for a string, an array or an object (string parsing, and
      conversion to a primitive, which can throw). *)
  ToNumber_other : JsVal -> Result float;
  (** The decimal that [String(x)] gives a finite number which is not an
      integer of magnitude below 2^53. *)
  Number_toString_other : float -> jsstring;
  (** [o[k]] for a computed key [k] and a truthy [o] (conversion of [k] to a
      property key, which can throw, and lookup through the prototypes). *)
  computed_member : JsVal -> JsVal -> Result JsVal
}.

(** [Number(v)]. *)
Definition Number_ `{Builtins} (v : JsVal) : Result float :=
  match v with
  | JNum x => Ok x
  | JUndefined => Ok nan
  | JNull => Ok 0%float
  | JBool b => Ok (if b then 1%float else 0%float)
  | _ => ToNumber_other v
  end.

(** [Math.min] and [Math.max] of two numbers: [NaN] if either is, and of
    the two zeros the negative one is the smaller. *)
Definition Math_min (a b : float) : float :=
  if (PrimFloat.is_nan a || PrimFloat.is_nan b)%bool then nan
  else if PrimFloat.ltb a b then a
  else if PrimFloat.ltb b a then b
  else if PrimFloat.get_sign a then a else b.

Definition Math_max (a b : float) : float :=
  if (PrimFloat.is_nan a || PrimFloat.is_nan b)%bool then nan
  else if PrimFloat.ltb a b then b
  else if PrimFloat.ltb b a then a
  else if PrimFloat.get_sign a then b else a.

Definition clampNumber `{Builtins} (value : JsVal) (min max defaultValue : float)
    : Result float :=
  num ← Number_ value;
  if PrimFloat.is_nan num then Ok defaultValue
  else Ok (Math_max min (Math_min max num)).

(** The decimal digits of a natural number. *)
Fixpoint uint_codes (d : Decimal.uint) : jsstring :=
  match d with
  | Decimal.Nil => []
  | Decimal.D0 d => 48%N :: uint_codes d
  | Decimal.D1 d => 49%N :: uint_codes d
  | Decimal.D2 d => 50%N :: uint_codes d
  | Decimal.D3 d => 51%N :: uint_codes d
  | Decimal.D4 d => 52%N :: uint_codes d
  | Decimal.D5 d => 53%N :: uint_codes d
  | Decimal.D6 d => 54%N :: uint_codes d
  | Decimal.D7 d => 55%N :: uint_codes d
  | Decimal.D8 d => 56%N :: uint_codes d
  | Decimal.D9 d => 57%N :: uint_codes d
  end.

Definition decimal (n : N) : jsstring := uint_codes (N.to_uint n).

(** [String(x)], the conversion a template literal applies to a number.  A
    number [m * 2^e] with [e <= 0] and [2^(-e)] dividing [m] is an integer
    below 2^53, which prints as its decimal digits. *)
Definition Number_toString `{Builtins} (x : float) : jsstring :=
  match Prim2SF x with
  | S754_nan => lit "NaN"
  | S754_zero _ => lit "0"
  | S754_infinity s => if s then lit "-Infinity" else lit "Infinity"
  | S754_finite s m e =>
      if ((e <=? 0) && (Z.pos m mod 2 ^ (- e) =? 0))%bool
      then (if s then lit "-" else []) ++ decimal (Z.to_N (Z.pos m / 2 ^ (- e)))
      else Number_toString_other x
  end.

(** [String(b)]. *)
Definition Boolean_toString (b : bool) : jsstring :=
  if b then lit "true" else lit "false".

(** ** HookService: the script generators *)

(** A method of [String.prototype] called on [v]: a value that is not a
    string has no such method, and the call throws. *)
Definition on_string (f : jsstring -> jsstring) (v : JsVal) : Result jsstring :=
  match v with
  | JStr s => Ok (f s)
  | _ => Throw TypeError
  end.

(** [type.replace(/_/g, ' ')]. *)
Definition underscores_to_spaces (s : jsstring) : jsstring :=
  List.map (fun c => if N.eqb c 95 then 32%N else c) s.

(** The body of [for (const type of types)] in [generateScript]. *)
Definition generateScript_case (config : JsVal) (script : jsstring)
    (type : jsstring) : Result jsstring :=
  notifications ← get config (lit "notifications");
  setting ← get notifications type;
  s_enabled ← get setting (lit "enabled");
  if negb (truthy s_enabled) then
    Ok (script ++ (sh "    " ++ type ++ sh ")
        # Disabled
        ;;
"))
  else
    s_mode ← get setting (lit "mode");
    if is_string (lit "talk") s_mode then
      s_voice ← get setting (lit "voice");
      voice ← on_string escapeForBash (js_or s_voice (JStr (lit "Ava")));
      s_text ← get setting (lit "text");
      text ← on_string escapeForBash
               (js_or s_text (JStr (underscores_to_spaces type)));
      Ok (script ++ (sh "    " ++ type ++ sh ")
        (
            TMPFILE=@/tmp/claude-notify-$$.aiff@
            say -v @" ++ voice ++ sh "@ -o @$TMPFILE@ @" ++ text ++ sh "@
            afplay -v $VOLUME @$TMPFILE@
            rm -f @$TMPFILE@ 2>/dev/null
        ) &
        ;;
"))
    else
      s_sound ← get setting (lit "sound");
      sound ← on_string sanitizeSoundName (js_or s_sound (JStr (lit "Glass")));
      Ok (script ++ (sh "    " ++ type ++ sh ")
        afplay -v $VOLUME @/System/Library/Sounds/" ++ sound ++ sh ".aiff@ &
        ;;
")).

Definition generateScript `{Builtins} (config : JsVal) : Result jsstring :=
  c_volume ← get config (lit "volume");
  volume ← clampNumber c_volume 0 100 70;
  let volumeDecimal := (volume / 100)%float in
  c_cooldown ← get config (lit "cooldown");
  cooldown ← clampNumber c_cooldown 0 30 3;
  c_enabled ← get config (lit "enabled");
  let script := (sh "#!/bin/bash
# Claude Code Notify - Auto-generated script
# Do not edit manually, changes will be overwritten

# ============ CONFIG ============
ENABLED=@" ++ Boolean_toString (is_true c_enabled) ++ sh "@
VOLUME=@" ++ Number_toString volumeDecimal ++ sh "@
COOLDOWN=@" ++ Number_toString cooldown ++ sh "@
# ================================

# Exit if disabled
if [[ @$ENABLED@ != @true@ ]]; then
    exit 0
fi

# Cooldown check
LOCKFILE=@/tmp/claude-notify.lock@
if [[ -f @$LOCKFILE@ && @$COOLDOWN@ -gt 0 ]]; then
    LAST=$(cat @$LOCKFILE@ 2>/dev/null || echo 0)
    NOW=$(date +%s)
    if (( NOW - LAST < COOLDOWN )); then
        exit 0
    fi
fi
echo $(date +%s) > @$LOCKFILE@

# Read notification type from stdin
INPUT=$(cat)
TYPE=$(echo @$INPUT@ | grep -o '@notification_type@[[:space:]]*:[[:space:]]*@[^@]*@' | sed 's/.*: *@//' | sed 's/@//')

# Play notification based on type
case @$TYPE@ in
") in
  let types := [lit "permission_prompt"; lit "idle_prompt";
                lit "elicitation_dialog"] in
  script ← foldM (generateScript_case config) script types;
  Ok (script ++ (sh "    *)
        # Unknown notification type, ignore
        ;;
esac

exit 0
")).

Definition generatePermissionScript `{Builtins} (config : JsVal) : Result jsstring :=
  c_volume ← get config (lit "volume");
  volume ← clampNumber c_volume 0 100 70;
  let volumeDecimal := (volume / 100)%float in
  c_cooldown ← get config (lit "cooldown");
  cooldown ← clampNumber c_cooldown 0 30 3;
  notifications ← get config (lit "notifications");
  setting ← get notifications (lit "permission_prompt");
  c_enabled ← get config (lit "enabled");
  s_enabled ← get setting (lit "enabled");
  let script := (sh "#!/bin/bash
# Claude Code Notify - PermissionRequest Hook Script (Auto-generated)
# Do not edit manually, changes will be overwritten
# This script runs when Claude needs permission in VSCode IDE

# ============ CONFIG ============
ENABLED=@" ++ Boolean_toString (is_true c_enabled) ++ sh "@
PERMISSION_PROMPT_ENABLED=@" ++ Boolean_toString (is_true s_enabled) ++ sh "@
VOLUME=@" ++ Number_toString volumeDecimal ++ sh "@
COOLDOWN=@" ++ Number_toString cooldown ++ sh "@
# ================================

# Exit if disabled globally or permission_prompt is disabled
if [[ @$ENABLED@ != @true@ || @$PERMISSION_PROMPT_ENABLED@ != @true@ ]]; then
    exit 0
fi

# Cooldown check (use separate lockfile to not interfere with other hooks)
LOCKFILE=@/tmp/claude-notify-permission.lock@
if [[ -f @$LOCKFILE@ && @$COOLDOWN@ -gt 0 ]]; then
    LAST=$(cat @$LOCKFILE@ 2>/dev/null || echo 0)
    NOW=$(date +%s)
    if (( NOW - LAST < COOLDOWN )); then
        exit 0
    fi
fi
echo $(date +%s) > @$LOCKFILE@

# Play notification
") in
  s_mode ← get setting (lit "mode");
  script ← (if is_string (lit "talk") s_mode then
              s_voice ← get setting (lit "voice");
              voice ← on_string escapeForBash (js_or s_voice (JStr (lit "Ava")));
              s_text ← get setting (lit "text");
              text ← on_string escapeForBash
                       (js_or s_text (JStr (lit "Permission required")));
              Ok (script ++ (sh "(
    TMPFILE=@/tmp/claude-notify-permission-$$.aiff@
    say -v @" ++ voice ++ sh "@ -o @$TMPFILE@ @" ++ text ++ sh "@
    afplay -v $VOLUME @$TMPFILE@
    rm -f @$TMPFILE@ 2>/dev/null
) &
"))
            else
              s_sound ← get setting (lit "sound");
              sound ← on_string sanitizeSoundName
                        (js_or s_sound (JStr (lit "Glass")));
              Ok (script ++ (sh "afplay -v $VOLUME @/System/Library/Sounds/" ++ sound ++ sh ".aiff@ &
")));
  Ok (script ++ (sh "
exit 0
")).

Definition generateStopScript `{Builtins} (config : JsVal) : Result jsstring :=
  c_volume ← get config (lit "volume");
  volume ← clampNumber c_volume 0 100 70;
  let volumeDecimal := (volume / 100)%float in
  c_cooldown ← get config (lit "cooldown");
  cooldown ← clampNumber c_cooldown 0 30 3;
  notifications ← get config (lit "notifications");
  setting ← get notifications (lit "response_complete");
  c_enabled ← get config (lit "enabled");
  s_enabled ← get setting (lit "enabled");
  let script := (sh "#!/bin/bash
# Claude Code Notify - Stop Hook Script (Auto-generated)
# Do not edit manually, changes will be overwritten
# This script runs when Claude finishes a response

# ============ CONFIG ============
ENABLED=@" ++ Boolean_toString (is_true c_enabled) ++ sh "@
RESPONSE_COMPLETE_ENABLED=@" ++ Boolean_toString (is_true s_enabled) ++ sh "@
VOLUME=@" ++ Number_toString volumeDecimal ++ sh "@
COOLDOWN=@" ++ Number_toString cooldown ++ sh "@
# ================================

# Exit if disabled globally or response_complete is disabled
if [[ @$ENABLED@ != @true@ || @$RESPONSE_COMPLETE_ENABLED@ != @true@ ]]; then
    exit 0
fi

# Cooldown check (use separate lockfile to not interfere with notification hook)
LOCKFILE=@/tmp/claude-notify-stop.lock@
if [[ -f @$LOCKFILE@ && @$COOLDOWN@ -gt 0 ]]; then
    LAST=$(cat @$LOCKFILE@ 2>/dev/null || echo 0)
    NOW=$(date +%s)
    if (( NOW - LAST < COOLDOWN )); then
        exit 0
    fi
fi
echo $(date +%s) > @$LOCKFILE@

# Play notification
") in
  s_mode ← get setting (lit "mode");
  script ← (if is_string (lit "talk") s_mode then
              s_voice ← get setting (lit "voice");
              voice ← on_string escapeForBash (js_or s_voice (JStr (lit "Ava")));
              s_text ← get setting (lit "text");
              text ← on_string escapeForBash
                       (js_or s_text (JStr (lit "Response ready")));
              Ok (script ++ (sh "(
    TMPFILE=@/tmp/claude-notify-stop-$$.aiff@
    say -v @" ++ voice ++ sh "@ -o @$TMPFILE@ @" ++ text ++ sh "@
    afplay -v $VOLUME @$TMPFILE@
    rm -f @$TMPFILE@ 2>/dev/null
) &
"))
            else
              s_sound ← get setting (lit "sound");
              sound ← on_string sanitizeSoundName
                        (js_or s_sound (JStr (lit "Glass")));
              Ok (script ++ (sh "afplay -v $VOLUME @/System/Library/Sounds/" ++ sound ++ sh ".aiff@ &
")));
  Ok (script ++ (sh "
exit 0
")).

(** ** JSON *)

(** What [JSON.parse(JSON.stringify(v))] gives, with [None] where
    [JSON.stringify] gives [undefined]: a property whose value is
    [undefined] is left out, [undefined] in an array becomes [null], a
    number that is not finite becomes [null], and negative zero is written
    [0]. *)
Fixpoint toJSON (v : JsVal) : option JsVal :=
  match v with
  | JUndefined => None
  | JNull => Some JNull
  | JBool b => Some (JBool b)
  | JNum x =>
      if (PrimFloat.is_nan x || PrimFloat.is_infinity x)%bool then Some JNull
      else if PrimFloat.is_zero x then Some (JNum 0)
      else Some (JNum x)
  | JStr s => Some (JStr s)
  | JArr l => Some (JArr (List.map (fun x => default JNull (toJSON x)) l))
  | JObj m => Some (JObj (omap toJSON m))
  end.

(** A value that [JSON.stringify] writes and [JSON.parse] reads back as
    it is. *)
Definition json_exact (v : JsVal) : Prop := toJSON v = Some v.

(** ** The file system *)

(** What a JSON file holds: nothing (reading it fails with ENOENT), a text
    that [JSON.parse] rejects, or a text that [JSON.parse] reads as [d]. *)
Inductive File :=
| Absent
| Unparseable
| Json (d : JsVal).

(** The files this program touches, and the clock.  File operations succeed
    unless the world says otherwise: a file can be absent, a JSON file can be
    unparseable, the lock file can exist, and [unlink] on the lock file can
    be refused. *)
Record World := {
  now : Z;                              (* Date.now(), in ms *)
  settings_json : File;                 (* ~/.claude/settings.json *)
  settings_lock : option Z;             (* mtime of settings.json.lock *)
  lock_unlinkable : bool;               (* unlink(settings.json.lock) works *)
  notify_config_json : File;            (* ~/.claude/notify-config.json *)
  notify_sh : option jsstring;          (* hooks/notify.sh *)
  notify_sh_backup : option jsstring;   (* hooks/notify.sh.backup *)
  stop_notify_sh : option jsstring;     (* hooks/stop-notify.sh *)
  permission_notify_sh : option jsstring (* hooks/permission-notify.sh *)
}.

Definition set_now (t : Z) (w : World) : World :=
  {| now := t; settings_json := settings_json w;
     settings_lock := settings_lock w; lock_unlinkable := lock_unlinkable w;
     notify_config_json := notify_config_json w; notify_sh := notify_sh w;
     notify_sh_backup := notify_sh_backup w; stop_notify_sh := stop_notify_sh w;
     permission_notify_sh := permission_notify_sh w |}.

Definition set_settings_json (f : File) (w : World) : World :=
  {| now := now w; settings_json := f;
     settings_lock := settings_lock w; lock_unlinkable := lock_unlinkable w;
     notify_config_json := notify_config_json w; notify_sh := notify_sh w;
     notify_sh_backup := notify_sh_backup w; stop_notify_sh := stop_notify_sh w;
     permission_notify_sh := permission_notify_sh w |}.

Definition set_settings_lock (l : option Z) (w : World) : World :=
  {| now := now w; settings_json := settings_json w;
     settings_lock := l; lock_unlinkable := lock_unlinkable w;
     notify_config_json := notify_config_json w; notify_sh := notify_sh w;
     notify_sh_backup := notify_sh_backup w; stop_notify_sh := stop_notify_sh w;
     permission_notify_sh := permission_notify_sh w |}.

Definition set_notify_config_json (f : File) (w : World) : World :=
  {| now := now w; settings_json := settings_json w;
     settings_lock := settings_lock w; lock_unlinkable := lock_unlinkable w;
     notify_config_json := f; notify_sh := notify_sh w;
     notify_sh_backup := notify_sh_backup w; stop_notify_sh := stop_notify_sh w;
     permission_notify_sh := permission_notify_sh w |}.

Definition set_notify_sh (f : option jsstring) (w : World) : World :=
  {| now := now w; settings_json := settings_json w;
     settings_lock := settings_lock w; lock_unlinkable := lock_unlinkable w;
     notify_config_json := notify_config_json w; notify_sh := f;
     notify_sh_backup := notify_sh_backup w; stop_notify_sh := stop_notify_sh w;
     permission_notify_sh := permission_notify_sh w |}.

Definition set_notify_sh_backup (f : option jsstring) (w : World) : World :=
  {| now := now w; settings_json := settings_json w;
     settings_lock := settings_lock w; lock_unlinkable := lock_unlinkable w;
     notify_config_json := notify_config_json w; notify_sh := notify_sh w;
     notify_sh_backup := f; stop_notify_sh := stop_notify_sh w;
     permission_notify_sh := permission_notify_sh w |}.

Definition set_stop_notify_sh (f : option jsstring) (w : World) : World :=
  {| now := now w; settings_json := settings_json w;
     settings_lock := settings_lock w; lock_unlinkable := lock_unlinkable w;
     notify_config_json := notify_config_json w; notify_sh := notify_sh w;
     notify_sh_backup := notify_sh_backup w; stop_notify_sh := f;
     permission_notify_sh := permission_notify_sh w |}.

Definition set_permission_notify_sh (f : option jsstring) (w : World) : World :=
  {| now := now w; settings_json := settings_json w;
     settings_lock := settings_lock w; lock_unlinkable := lock_unlinkable w;
     notify_config_json := notify_config_json w; notify_sh := notify_sh w;
     notify_sh_backup := notify_sh_backup w; stop_notify_sh := stop_notify_sh w;
     permission_notify_sh := f |}.

(** An asynchronous method: from a world, either it never settles ([None],
    which in this model is a loop out of fuel), or it settles, resolved or
    rejected, in a new world. *)
Definition IO (A : Type) : Type := World -> option (Result A * World).

Definition io_ret {A} (a : A) : IO A := fun w => Some (Ok a, w).
Definition io_throw {A} (e : Error) : IO A := fun w => Some (Throw e, w).
Definition io_lift {A} (r : Result A) : IO A := fun w => Some (r, w).
Definition io_bind {A B} (m : IO A) (f : A -> IO B) : IO B := fun w =>
  match m w with
  | None => None
  | Some (Ok a, w') => f a w'
  | Some (Throw e, w') => Some (Throw e, w')
  end.
(** A write: it resolves with nothing. *)
Definition io_write (f : World -> World) : IO unit := fun w => Some (Ok tt, f w).

(** [try { body } finally { cleanup }], for a cleanup that cannot throw. *)
Definition try_finally {A} (body : IO A) (cleanup : World -> World) : IO A :=
  fun w =>
    match body w with
    | None => None
    | Some (r, w') => Some (r, cleanup w')
    end.

(** [try { body } catch { return a }]. *)
Definition try_catch {A} (body : IO A) (a : A) : IO A := fun w =>
  match body w with
  | None => None
  | Some (Ok x, w') => Some (Ok x, w')
  | Some (Throw _, w') => Some (Ok a, w')
  end.

Global Instance IO_ret : MRet IO := @io_ret.
Global Instance IO_bind : MBind IO := fun A B f m => io_bind m f.

(** ** HookService: the settings document *)

(** The fields of a [HookService] that the methods compare against.  (The
    constructor computes them with [path.join] from [os.homedir()]; the
    other paths of the class name the files of [World].) *)
Record HookService := {
  scriptPath : jsstring;            (* ~/.claude/hooks/notify.sh *)
  stopScriptPath : jsstring;        (* ~/.claude/hooks/stop-notify.sh *)
  permissionScriptPath : jsstring   (* ~/.claude/hooks/permission-notify.sh *)
}.

(** [l.some(f)]: it stops at the first element on which [f] is true. *)
Fixpoint someM (f : JsVal -> Result bool) (l : list JsVal) : Result bool :=
  match l with
  | [] => Ok false
  | x :: l' => b ← f x; if b : bool then Ok true else someM f l'
  end.

(** [l.filter(h => !f(h))]. *)
Fixpoint filter_notM (f : JsVal -> Result bool) (l : list JsVal)
    : Result (list JsVal) :=
  match l with
  | [] => Ok []
  | x :: l' =>
      b ← f x;
      rest ← filter_notM f l';
      Ok (if b : bool then rest else x :: rest)
  end.

(** [hook.hooks?.some((hk) => hk.command === path) ?? false], the body of
    [isOurNotificationHook], [isOurStopHook] and [isOurPermissionHook].  A
    value that is neither [undefined], [null] nor an array has no [some]
    to call. *)
Definition isOurHook (path : jsstring) (hook : JsVal) : Result bool :=
  hooks ← get hook (lit "hooks");
  match hooks with
  | JUndefined | JNull => Ok false
  | JArr l => someM (fun hk => command ← get hk (lit "command");
                               Ok (is_string path command)) l
  | _ => Throw TypeError
  end.

Definition isOurNotificationHook (self : HookService) : JsVal -> Result bool :=
  isOurHook (scriptPath self).
Definition isOurStopHook (self : HookService) : JsVal -> Result bool :=
  isOurHook (stopScriptPath self).
Definition isOurPermissionHook (self : HookService) : JsVal -> Result bool :=
  isOurHook (permissionScriptPath self).

(** [v.filter((h) => !isOur(h))]: only an array has [filter]. *)
Definition filter_ours (isOur : JsVal -> Result bool) (v : JsVal)
    : Result (list JsVal) :=
  match v with
  | JArr l => filter_notM isOur l
  | _ => Throw TypeError
  end.

(** The matcher [install] adds for a script. *)
Definition hookMatcher (matcher command : jsstring) : JsVal :=
  obj [(lit "matcher", JStr matcher);
       (lit "hooks", JArr [obj [(lit "type", JStr (lit "command"));
                                (lit "command", JStr command)]])].

Definition notifyHook (self : HookService) : JsVal :=
  hookMatcher (lit "permission_prompt|idle_prompt|elicitation_dialog")
              (scriptPath self).
Definition permissionHook (self : HookService) : JsVal :=
  hookMatcher (lit "*") (permissionScriptPath self).
Definition stopHook (self : HookService) : JsVal :=
  hookMatcher (lit "*") (stopScriptPath self).

(** [if (hooks.K) { hooks.K = hooks.K.filter((h) => !isOur(h)); }] *)
Definition install_filter (isOur : JsVal -> Result bool) (K : jsstring)
    (hooks : gmap jsstring JsVal) : Result (gmap jsstring JsVal) :=
  let v := default JUndefined (hooks !! K) in
  if truthy v then
    l ← filter_ours isOur v;
    Ok (<[K := JArr l]> hooks)
  else Ok hooks.

(** [hooks.K = hooks.K || []; hooks.K.push(hook);] *)
Definition install_push (K : jsstring) (hook : JsVal)
    (hooks : gmap jsstring JsVal) : Result (gmap jsstring JsVal) :=
  match js_or (default JUndefined (hooks !! K)) (JArr []) with
  | JArr l => Ok (<[K := JArr (l ++ [hook])]> hooks)
  | _ => Throw TypeError
  end.

(** What [install] does to the settings document between [loadSettings]
    and [saveSettings].  The method mutates the document in place; here the
    document is a value and each assignment gives a new one.  A property
    cannot be assigned on a primitive (the code of a class is strict), and
    a property assigned on an array is not an element of it, so
    [JSON.stringify] leaves it out. *)
Definition install_settings (self : HookService) (settings : JsVal)
    : Result JsVal :=
  hooks0 ← get settings (lit "hooks");
  match settings with
  | JObj m =>
      match js_or hooks0 (JObj ∅) with
      | JObj hooks =>
          hooks ← install_filter (isOurNotificationHook self)
                    (lit "Notification") hooks;
          hooks ← install_filter (isOurStopHook self) (lit "Stop") hooks;
          hooks ← install_filter (isOurPermissionHook self)
                    (lit "PermissionRequest") hooks;
          hooks ← install_push (lit "Notification") (notifyHook self) hooks;
          hooks ← install_push (lit "PermissionRequest") (permissionHook self)
                    hooks;
          hooks ← install_push (lit "Stop") (stopHook self) hooks;
          Ok (JObj (<[lit "hooks" := JObj hooks]> m))
      | JArr _ => Ok settings
      | _ => Throw TypeError
      end
  | JArr _ => Ok settings
  | _ => Throw TypeError
  end.

(** [if (hooks?.K) { hooks.K = hooks.K.filter(...);
                     if (hooks.K.length === 0) { delete hooks.K; } }] *)
Definition remove_filter (isOur : JsVal -> Result bool) (K : jsstring)
    (hooks : gmap jsstring JsVal) : Result (gmap jsstring JsVal) :=
  let v := default JUndefined (hooks !! K) in
  if truthy v then
    l ← filter_ours isOur v;
    Ok (match l with
        | [] => delete K hooks
        | _ => <[K := JArr l]> hooks
        end)
  else Ok hooks.

(** [Object.keys(v).length] for a truthy [v]: the own enumerable string
    keys of an object, the indices of an array or of a string, and none for
    a number or a boolean. *)
Definition Object_keys_length (v : JsVal) : nat :=
  match v with
  | JObj m => size m
  | JArr l => length l
  | JStr s => length s
  | _ => 0%nat
  end.

(** What [remove] does to the settings document between [loadSettings] and
    [saveSettings]. *)
Definition remove_settings (self : HookService) (settings : JsVal)
    : Result JsVal :=
  hooks0 ← get settings (lit "hooks");
  match settings with
  | JObj m =>
      match hooks0 with
      | JObj hooks =>
          hooks ← remove_filter (isOurNotificationHook self)
                    (lit "Notification") hooks;
          hooks ← remove_filter (isOurStopHook self) (lit "Stop") hooks;
          hooks ← remove_filter (isOurPermissionHook self)
                    (lit "PermissionRequest") hooks;
          Ok (JObj (if decide (size hooks = 0%nat)
                    then delete (lit "hooks") m
                    else <[lit "hooks" := JObj hooks]> m))
      | _ =>
          Ok (if (truthy hooks0 && bool_decide (Object_keys_length hooks0 = 0%nat))%bool
              then JObj (delete (lit "hooks") m)
              else settings)
      end
  | _ => Ok settings
  end.

(** ** HookService: the methods *)

(** [content.includes(needle)]. *)
Fixpoint starts_with (needle hay : jsstring) : bool :=
  match needle, hay with
  | [], _ => true
  | c :: needle', d :: hay' => (N.eqb c d && starts_with needle' hay')%bool
  | _ :: _, [] => false
  end.

Fixpoint includes (needle hay : jsstring) : bool :=
  (starts_with needle hay ||
   match hay with
   | [] => false
   | _ :: hay' => includes needle hay'
   end)%bool.

Definition backupExistingScript : IO unit := fun w =>
  match notify_sh w with
  | Some content =>
      if includes (lit "# Claude Code Notify - Auto-generated script") content
      then Some (Ok tt, w)
      else Some (Ok tt, set_notify_sh_backup (Some content) w)
  | None => Some (Ok tt, w)
  end.

(** One turn of [while (true)] per unit of fuel.  [writeFile] with the flag
    [wx] creates the lock file, or fails with EEXIST when it exists; the
    inner [catch] takes a failing [unlink] as it takes a failing [stat]. *)
Fixpoint acquireSettingsLock_loop (fuel : nat) (timeoutMs startTime : Z)
    : IO unit := fun w =>
  match fuel with
  | O => None
  | S fuel' =>
      match settings_lock w with
      | None => Some (Ok tt, set_settings_lock (Some (now w)) w)
      | Some mtimeMs =>
          let lockAge := now w - mtimeMs in
          if lockAge >? 30000 then
            if lock_unlinkable w
            then acquireSettingsLock_loop fuel' timeoutMs startTime
                   (set_settings_lock None w)
            else acquireSettingsLock_loop fuel' timeoutMs startTime w
          else if now w - startTime >? timeoutMs then Some (Throw LockTimeout, w)
          else acquireSettingsLock_loop fuel' timeoutMs startTime
                 (set_now (now w + 100) w)
      end
  end.

Definition acquireSettingsLock (fuel : nat) (timeoutMs : Z) : IO unit := fun w =>
  acquireSettingsLock_loop fuel timeoutMs (now w) w.

Definition default_timeoutMs : Z := 5000.

(** [unlink] of the lock file, errors ignored. *)
Definition releaseSettingsLock (w : World) : World :=
  if lock_unlinkable w then set_settings_lock None w else w.

Definition loadSettings : IO JsVal := fun w =>
  match settings_json w with
  | Absent => Some (Ok (JObj ∅), w)
  | Unparseable => Some (Throw SettingsCorrupted, w)
  | Json d => Some (Ok d, w)
  end.

(** The temporary file is written and renamed over [settings.json]. *)
Definition saveSettings (settings : JsVal) : IO unit := fun w =>
  match toJSON settings with
  | Some d => Some (Ok tt, set_settings_json (Json d) w)
  | None => Some (Throw SettingsSaveFailed, w)
  end.

Definition isInstalled (self : HookService) : IO bool :=
  try_catch
    (fun w =>
       match notify_sh w with
       | None => Some (Throw NoSuchFile, w)
       | Some _ =>
           (settings ← loadSettings;
            io_lift (s_hooks ← opt_get settings (lit "hooks");
                     hooks ← opt_get s_hooks (lit "Notification");
                     match hooks with
                     | JArr l => someM (isOurNotificationHook self) l
                     | _ => Ok false
                     end)) w
       end)
    false.

Definition writeScripts `{Builtins} (config : JsVal) : IO unit :=
  validatedConfig ← io_lift (validateConfig config);
  script ← io_lift (generateScript validatedConfig);
  io_write (set_notify_sh (Some script));;
  stopScript ← io_lift (generateStopScript validatedConfig);
  io_write (set_stop_notify_sh (Some stopScript));;
  permissionScript ← io_lift (generatePermissionScript validatedConfig);
  io_write (set_permission_notify_sh (Some permissionScript)).

Definition install `{Builtins} (self : HookService) (fuel : nat)
    (config : JsVal) : IO unit :=
  backupExistingScript;;
  writeScripts config;;
  acquireSettingsLock fuel default_timeoutMs;;
  try_finally
    (settings ← loadSettings;
     settings ← io_lift (install_settings self settings);
     saveSettings settings)
    releaseSettingsLock.

Definition remove (self : HookService) (fuel : nat) : IO unit :=
  acquireSettingsLock fuel default_timeoutMs;;
  try_finally
    (settings ← loadSettings;
     settings ← io_lift (remove_settings self settings);
     saveSettings settings)
    releaseSettingsLock;;
  io_write (set_notify_sh None);;
  io_write (set_stop_notify_sh None);;
  io_write (set_permission_notify_sh None).


(** ** ConfigService *)

(** The own enumerable properties that a spread [...v] copies: those of an
    object, the elements of an array and the code units of a string under
    their indices, and nothing for any other value. *)
Definition indexed {A} (f : A -> JsVal) (l : list A) : gmap jsstring JsVal :=
  list_to_map (imap (fun i x => (decimal (N.of_nat i), f x)) l).

Definition spread (v : JsVal) : gmap jsstring JsVal :=
  match v with
  | JObj m => m
  | JArr l => indexed id l
  | JStr s => indexed (fun c => JStr [c]) s
  | _ => ∅
  end.

(** [{ ...DEFAULT_CONFIG.notifications[kind],
       ...partial.notifications?.[kind] }] *)
Definition mergeWithDefaults_setting (partial : JsVal) (kind : jsstring)
    : Result JsVal :=
  default_notifications ← get DEFAULT_CONFIG (lit "notifications");
  default_setting ← get default_notifications kind;
  p_notifications ← get partial (lit "notifications");
  p_setting ← opt_get p_notifications kind;
  Ok (JObj (spread p_setting ∪ spread default_setting)).

Definition mergeWithDefaults (partial : JsVal) : Result JsVal :=
  p_enabled ← get partial (lit "enabled");
  d_enabled ← get DEFAULT_CONFIG (lit "enabled");
  p_volume ← get partial (lit "volume");
  d_volume ← get DEFAULT_CONFIG (lit "volume");
  p_cooldown ← get partial (lit "cooldown");
  d_cooldown ← get DEFAULT_CONFIG (lit "cooldown");
  permission_prompt ← mergeWithDefaults_setting partial (lit "permission_prompt");
  idle_prompt ← mergeWithDefaults_setting partial (lit "idle_prompt");
  elicitation_dialog ← mergeWithDefaults_setting partial (lit "elicitation_dialog");
  response_complete ← mergeWithDefaults_setting partial (lit "response_complete");
  Ok (obj [
    (lit "enabled", js_coalesce p_enabled d_enabled);
    (lit "volume", js_coalesce p_volume d_volume);
    (lit "cooldown", js_coalesce p_cooldown d_cooldown);
    (lit "notifications", obj [
      (lit "permission_prompt", permission_prompt);
      (lit "idle_prompt", idle_prompt);
      (lit "elicitation_dialog", elicitation_dialog);
      (lit "response_complete", response_complete)])]).

(** [writeFile(configPath, JSON.stringify(config, null, 2))]; [writeFile]
    throws when [JSON.stringify] gives [undefined]. *)
Definition save (config : JsVal) : IO unit := fun w =>
  match toJSON config with
  | Some d => Some (Ok tt, set_notify_config_json (Json d) w)
  | None => Some (Throw TypeError, w)
  end.

(** [JSON.parse(await readFile(configPath, 'utf8'))] *)
Definition read_config : IO JsVal := fun w =>
  match notify_config_json w with
  | Absent => Some (Throw NoSuchFile, w)
  | Unparseable => Some (Throw SyntaxError, w)
  | Json d => Some (Ok d, w)
  end.

Definition load `{Builtins} : IO JsVal :=
  try_catch
    (parsed ← read_config;
     profiles ← io_lift (get parsed (lit "profiles"));
     currentProfile ← io_lift (if truthy profiles
                               then get parsed (lit "currentProfile")
                               else Ok profiles);
     if (truthy profiles && truthy currentProfile)%bool then
       member ← io_lift (computed_member profiles currentProfile);
       let config := js_or member DEFAULT_CONFIG in
       merged ← io_lift (mergeWithDefaults config);
       save merged;;
       io_lift (mergeWithDefaults config)
     else
       io_lift (mergeWithDefaults parsed))
    DEFAULT_CONFIG.

(** ** SoundService *)

Module SoundService.

(** [name.replace(/[^a-zA-Z0-9\s\-_]/g, '') || 'Glass'], as in [HookService]. *)
Definition sanitizeSoundName (name : jsstring) : jsstring :=
  let sanitized := List.filter sound_char_kept name in
  match sanitized with
  | [] => lit "Glass"
  | _ => sanitized
  end.

End SoundService.

(** ** SidebarProvider: the messages that reach the services *)






(** * The properties, stated *)

(** ** Sound names *)

(** The set the specification names: letters, digits, the space, the hyphen
    and the underscore. *)
Definition named_sound_char (c : N) : bool :=
  (ascii_alnum c || N.eqb c 32 || N.eqb c 45 || N.eqb c 95)%bool.

(** ** Escaping *)

(** The five characters, as the specification lists them. *)
Definition five_characters : jsstring := lit "$`\!" ++ [dquote].

(** [t] is [s] with a backslash put before each of the five characters, and
    nothing else changed. *)
Inductive escaped_as : jsstring -> jsstring -> Prop :=
| escaped_nil : escaped_as [] []
| escaped_special c s t :
    In c five_characters -> escaped_as s t ->
    escaped_as (c :: s) (92%N :: c :: t)
| escaped_plain c s t :
    ~ In c five_characters -> escaped_as s t ->
    escaped_as (c :: s) (c :: t).

(** The shell reading the inside of a double-quoted word, from just after
    the opening quote: a backslash takes the next character with it, a
    dollar sign or a backtick that no backslash precedes starts an
    expansion, and the first double quote that no backslash precedes closes
    the word.  The result is what follows the closing quote, when the word
    closes and holds no expansion. *)
Fixpoint dq_close (s : jsstring) : option jsstring :=
  match s with
  | [] => None
  | c :: s' =>
      if N.eqb c dquote then Some s'
      else if N.eqb c 92 then
        match s' with
        | [] => None
        | _ :: s'' => dq_close s''
        end
      else if (N.eqb c 36 || N.eqb c 96)%bool then None
      else dq_close s'
  end.

(** The line of a generated script that speaks [text] with [voice]. *)
Definition say_line (voice text : jsstring) : jsstring :=
  sh "say -v @" ++ voice ++ sh "@ -o @$TMPFILE@ @" ++ text ++ sh "@".

(** ** The cooldown gate *)

(** The cooldown check every generated script contains,
    [if [[ -f $LOCKFILE && $COOLDOWN -gt 0 ]]; then ...
       if (( NOW - LAST < COOLDOWN )); then exit 0], as a function of
    whether the lock file exists and of the three integers: does the script
    exit before playing? *)
Definition cooldown_gate_exits (lockfile_exists : bool) (COOLDOWN LAST NOW : Z)
    : bool :=
  (lockfile_exists && (COOLDOWN >? 0) && (NOW - LAST <? COOLDOWN))%bool.

(** [s || fallback] for strings: the empty string is falsy. *)
Definition or_fallback (s fallback : jsstring) : jsstring :=
  match s with
  | [] => fallback
  | _ => s
  end.

(** [config.notifications[type]], as own properties. *)
Definition setting_of (config : JsVal) (type : jsstring) : option JsVal :=
  n ← field config (lit "notifications"); field n type.

(** The two lines of a generated script that hold the volume and the
    cooldown. *)
Definition config_lines (volumeDecimal cooldown : jsstring) : jsstring :=
  sh "VOLUME=@" ++ volumeDecimal ++ sh "@
COOLDOWN=@" ++ cooldown ++ sh "@
".

(** ** Worlds for examples *)

(** A choice of the parameters of [Builtins], to run the model on examples. *)
Definition example_builtins : Builtins :=
  {| ToNumber_other := fun _ => Ok nan;
     Number_toString_other := fun _ => lit "0.5";
     computed_member := fun o k =>
       match k with
       | JStr s => get o s
       | _ => Ok JUndefined
       end |}.

Definition example_service : HookService :=
  {| scriptPath := lit "/Users/me/.claude/hooks/notify.sh";
     stopScriptPath := lit "/Users/me/.claude/hooks/stop-notify.sh";
     permissionScriptPath := lit "/Users/me/.claude/hooks/permission-notify.sh" |}.

(** A home directory with nothing of this program in it, at time 0. *)
Definition empty_world : World :=
  {| now := 0; settings_json := Absent; settings_lock := None;
     lock_unlinkable := true; notify_config_json := Absent;
     notify_sh := None; notify_sh_backup := None; stop_notify_sh := None;
     permission_notify_sh := None |}.

(** A lock file left 31 seconds ago that [unlink] refuses to remove. *)
Definition stuck_lock_world : World :=
  {| now := 31000; settings_json := Absent; settings_lock := Some 0;
     lock_unlinkable := false; notify_config_json := Absent;
     notify_sh := None; notify_sh_backup := None; stop_notify_sh := None;
     permission_notify_sh := None |}.

(** ** The settings document *)

(** The document [loadSettings] gives when it gives one. *)
Definition settings_document (w : World) : JsVal :=
  match settings_json w with
  | Json d => d
  | _ => JObj ∅
  end.

(** What a settings document holds under a hook event. *)
Definition hook_event (settings : JsVal) (K : jsstring) : option JsVal :=
  hooks ← field settings (lit "hooks"); field hooks K.

(** The three hook events of this system, each with the path of its script
    and the matcher [install] adds. *)
Definition our_events (self : HookService) : list (jsstring * jsstring * JsVal) :=
  [(lit "Notification", scriptPath self, notifyHook self);
   (lit "Stop", stopScriptPath self, stopHook self);
   (lit "PermissionRequest", permissionScriptPath self, permissionHook self)].

Definition our_event_names : list jsstring :=
  [lit "Notification"; lit "Stop"; lit "PermissionRequest"].

(** The matcher is this system's for the script at [path]: one of its
    entries has exactly that command. *)
Definition owned (path : jsstring) (h : JsVal) : bool :=
  match isOurHook path h with
  | Ok true => true
  | _ => false
  end.

(** No entry of the matcher has the command of one of the three scripts. *)
Definition third_party (self : HookService) (h : JsVal) : Prop :=
  isOurNotificationHook self h = Ok false /\
  isOurStopHook self h = Ok false /\
  isOurPermissionHook self h = Ok false.

(** The matchers of [l] that are not this system's for [path], in order. *)
Definition without_owned (path : jsstring) (l : list JsVal) : list JsVal :=
  List.filter (fun h => negb (owned path h)) l.

Definition count_owned (path : jsstring) (l : list JsVal) : nat :=
  length (List.filter (owned path) l).

(** The list an event has before the push, given what it had at first. *)
Definition list_before_push (path : jsstring) (o : option JsVal) : list JsVal :=
  match o with
  | Some (JArr l) => without_owned path l
  | _ => []
  end.

(** What the event holds after [remove], given what it held. *)
Definition after_remove (path : jsstring) (o : option JsVal) : option JsVal :=
  match o with
  | Some (JArr l) =>
      match without_owned path l with
      | [] => None
      | l' => Some (JArr l')
      end
  | _ => o
  end.

(** What [install] leaves of a document [d] in the document [d'] it
    writes. *)
Definition install_frame (self : HookService) (d d' : JsVal) : Prop :=
  (forall k, k <> lit "hooks" -> field d' k = field d k) /\
  (forall K, ~ In K our_event_names -> hook_event d' K = hook_event d K) /\
  (forall K path hook l,
     In (K, path, hook) (our_events self) ->
     hook_event d K = Some (JArr l) ->
     hook_event d' K = Some (JArr (without_owned path l ++ [hook])) /\
     forall h, In h l -> third_party self h -> In h (without_owned path l)).

(** What [remove] leaves of a document [d] in the document [d'] it
    writes. *)
Definition remove_frame (self : HookService) (d d' : JsVal) : Prop :=
  (forall k, k <> lit "hooks" -> field d' k = field d k) /\
  (forall K, ~ In K our_event_names -> hook_event d' K = hook_event d K) /\
  (forall K path hook l,
     In (K, path, hook) (our_events self) ->
     hook_event d K = Some (JArr l) ->
     hook_event d' K = match without_owned path l with
                       | [] => None
                       | l' => Some (JArr l')
                       end /\
     forall h, In h l -> third_party self h -> In h (without_owned path l)).

(** The outcome of a method that rewrites the settings document, from a
    world [w] to a world [w']: when it resolves, the new document is related
    to the old one by [frame]; when it rejects, the file is as it was. *)
Definition settings_outcome (frame : JsVal -> JsVal -> Prop)
    (w : World) (r : Result unit) (w' : World) : Prop :=
  match r with
  | Ok _ => settings_json w' = Json (settings_document w') /\
            frame (settings_document w) (settings_document w')
  | Throw _ => settings_json w' = settings_json w
  end.

(** The matcher of another tool in the scenario of the specification. *)
Definition other_tool_matcher : JsVal :=
  hookMatcher (lit "x") (lit "/other/tool.sh").

(** The settings document of the scenario, and a world that holds it. *)
Definition scenario_settings : JsVal :=
  obj [(lit "hooks", obj [(lit "Notification", JArr [other_tool_matcher])])].

Definition scenario_world : World :=
  set_settings_json (Json scenario_settings) empty_world.

(** The interfaces [ClaudeHookEntry], [ClaudeHookMatcher] and
    [ClaudeSettings] of [types.ts], as far as the code reads them: an entry
    has a string [command], a matcher has an array [hooks] of entries, and a
    settings document is an object whose [hooks], when present, is an
    object of arrays of matchers.  Other properties are free. *)
Definition is_ClaudeHookEntry (e : JsVal) : Prop :=
  exists c, field e (lit "command") = Some (JStr c).

Definition is_ClaudeHookMatcher (h : JsVal) : Prop :=
  exists es, field h (lit "hooks") = Some (JArr es) /\
             Forall is_ClaudeHookEntry es.

Definition is_ClaudeSettings (d : JsVal) : Prop :=
  exists m, d = JObj m /\
    forall hooks, m !! lit "hooks" = Some hooks ->
      exists h, hooks = JObj h /\
        forall K v, h !! K = Some v ->
          exists l, v = JArr l /\ Forall is_ClaudeHookMatcher l.

(** The condition under which the filtering steps go through: what each of
    the three events holds is falsy, or a list on which the ownership test
    returns. *)
Definition events_testable (self : HookService) (h : gmap jsstring JsVal) : Prop :=
  forall K path hook, In (K, path, hook) (our_events self) ->
    truthy (default JUndefined (h !! K)) = false \/
    exists l, h !! K = Some (JArr l) /\
              Forall (fun x => exists b, isOurHook path x = Ok b) l.

(** The parts of a world that writing the scripts leaves alone. *)
Definition same_settings (w w' : World) : Prop :=
  now w' = now w /\ settings_json w' = settings_json w /\
  settings_lock w' = settings_lock w /\ lock_unlinkable w' = lock_unlinkable w /\
  notify_config_json w' = notify_config_json w.

(** ** The configuration file *)

(** The test of [load] for the old profile format,
    [parsed.profiles && parsed.currentProfile], on own properties. *)
Definition legacy_format (parsed : JsVal) : bool :=
  (truthy (default JUndefined (field parsed (lit "profiles"))) &&
   truthy (default JUndefined (field parsed (lit "currentProfile"))))%bool.

Definition top_level_keys : list jsstring :=
  [lit "enabled"; lit "volume"; lit "cooldown"].

(** The value of [partial] under [k] as it is, whatever its type, and the
    default only when it is absent, [null] or [undefined]. *)
Definition verbatim_or_default (partial : JsVal) (k : jsstring) : option JsVal :=
  match field partial k with
  | Some v => if nullish v then field DEFAULT_CONFIG k else Some v
  | None => field DEFAULT_CONFIG k
  end.

(** The property [k] of the setting of [kind]: what [partial] has under that
    key when the key is there, even with the value [undefined], and what
    the default setting has otherwise. *)
Definition spread_over_default (partial : JsVal) (kind k : jsstring)
    : option JsVal :=
  match spread (default JUndefined (setting_of partial kind)) !! k with
  | Some v => Some v
  | None => s ← setting_of DEFAULT_CONFIG kind; field s k
  end.

(** [r] is [partial] merged over the defaults with no look at any type. *)
Definition merged_untyped (partial r : JsVal) : Prop :=
  (forall k, In k top_level_keys -> field r k = verbatim_or_default partial k) /\
  (forall kind k, In kind notificationTypes ->
     (s ← setting_of r kind; field s k) = spread_over_default partial kind k).

(** [DEFAULT_CONFIG] with the volume [Infinity]. *)
Definition infinite_volume_config : JsVal :=
  match DEFAULT_CONFIG with
  | JObj m => JObj (<[lit "volume" := JNum infinity]> m)
  | v => v
  end.

(** A document in the old profile format with a top-level volume. *)
Definition legacy_document : JsVal :=
  obj [(lit "profiles", obj [(lit "p", obj [])]);
       (lit "currentProfile", JStr (lit "p"));
       (lit "volume", JStr (lit "loud"))].

(** A world whose configuration file holds [d]. *)
Definition config_world (d : JsVal) : World :=
  set_notify_config_json (Json d) empty_world.
(** ** Worlds with a lock file *)

(** A lock file left 31 s ago that can be removed. *)
Definition stale_lock_world : World :=
  {| now := 31001; settings_json := Absent; settings_lock := Some 0;
     lock_unlinkable := true; notify_config_json := Absent;
     notify_sh := None; notify_sh_backup := None; stop_notify_sh := None;
     permission_notify_sh := None |}.


(** The line by which [backupExistingScript] knows a script of its own. *)
Definition script_signature : jsstring :=
  lit "# Claude Code Notify - Auto-generated script".

(** A script of another tool at [hooks/notify.sh]. *)
Definition foreign_script_world : World :=
  set_notify_sh (Some (lit "#!/bin/sh
echo other")) empty_world.
(** ** What the shell reads *)

(** The shell removing the quoting inside a double-quoted word that holds
    no expansion: a backslash before a dollar sign, a backtick, a double
    quote or a backslash is dropped, a backslash with the newline after it
    is dropped with the newline, and any other backslash stays (also the
    one before an exclamation mark: a script is not interactive, and has no
    history expansion). *)
Fixpoint dq_read (s : jsstring) : jsstring :=
  match s with
  | [] => []
  | c :: s' =>
      if N.eqb c 92 then
        match s' with
        | [] => [c]
        | d :: s'' =>
            if (N.eqb d 36 || N.eqb d 96 || N.eqb d 34 || N.eqb d 92)%bool
            then d :: dq_read s''
            else if N.eqb d 10 then dq_read s''
            else c :: d :: dq_read s''
        end
      else c :: dq_read s'
  end.

(** A text with a backslash put before each exclamation mark. *)
Definition backslash_bangs (s : jsstring) : jsstring :=
  flat_map (fun c => if N.eqb c 33 then [92%N; c] else [c]) s.

(** The line of a generated script that plays the system sound [sound]. *)
Definition sound_line (sound : jsstring) : jsstring :=
  sh "afplay -v $VOLUME @/System/Library/Sounds/" ++ sound ++ sh ".aiff@ &".
(** The sound a setting names: [setting.sound || 'Glass']. *)
Definition chosen_sound (s : JsVal) : jsstring :=
  match field s (lit "sound") with
  | Some (JStr x) => or_fallback x (lit "Glass")
  | _ => lit "Glass"
  end.
(** A settings file whose [Notification] entry is a string. *)
Definition bad_event_settings : JsVal :=
  obj [(lit "hooks", obj [(lit "Notification", JStr (lit "x"))])].
(** ** Ownership and the written document, stated on the data *)

(** Some entry of the matcher [h] has exactly the command [path]: the
    property [hooks] of [h] is a list, and an element of it has the string
    [path] under [command]. *)
Definition has_command (path : jsstring) (h : JsVal) : bool :=
  match field h (lit "hooks") with
  | Some (JArr es) =>
      existsb (fun e => match field e (lit "command") with
                        | Some (JStr c) => bool_decide (c = path)
                        | _ => false
                        end) es
  | _ => false
  end.

(** The matchers of [l] none of whose entries has the command [path], in
    order. *)
Definition without_command (path : jsstring) (l : list JsVal) : list JsVal :=
  List.filter (fun h => negb (has_command path h)) l.

Definition count_command (path : jsstring) (l : list JsVal) : nat :=
  length (List.filter (has_command path) l).

(** An element of an array as [JSON.stringify] writes it and [JSON.parse]
    reads it back: [undefined] gives [null]. *)
Definition as_written (v : JsVal) : JsVal := default JNull (toJSON v).

(** The number of constructors of a value. *)
Fixpoint jsize (v : JsVal) : nat :=
  match v with
  | JArr l => S (foldr (fun x n => (jsize x + n)%nat) 0%nat l)
  | JObj m => S (map_fold (fun _ x n => (jsize x + n)%nat) 0%nat m)
  | _ => 1%nat
  end.

(** What [install] leaves of a document [d] in the document [d'] that is
    in the file afterwards: every top-level key other than [hooks] and
    every other hook event holds what [JSON.stringify] writes of what it
    held, and each of the three events that held a list holds what is
    written of the matchers without the command of its script, in order,
    followed by the matcher of this system. *)
Definition install_writes (self : HookService) (d d' : JsVal) : Prop :=
  (forall k, k <> lit "hooks" -> field d' k = field d k ≫= toJSON) /\
  (forall K, ~ In K our_event_names ->
             hook_event d' K = hook_event d K ≫= toJSON) /\
  (forall K path hook l,
     In (K, path, hook) (our_events self) ->
     hook_event d K = Some (JArr l) ->
     hook_event d' K
       = Some (JArr (List.map as_written (without_command path l) ++ [hook]))).

(** The same for [remove]: each of the three events that held a list holds
    what is written of the matchers without the command of its script, and
    is gone when there is none. *)
Definition remove_writes (self : HookService) (d d' : JsVal) : Prop :=
  (forall k, k <> lit "hooks" -> field d' k = field d k ≫= toJSON) /\
  (forall K, ~ In K our_event_names ->
             hook_event d' K = hook_event d K ≫= toJSON) /\
  (forall K path hook l,
     In (K, path, hook) (our_events self) ->
     hook_event d K = Some (JArr l) ->
     hook_event d' K = match without_command path l with
                       | [] => None
                       | l' => Some (JArr (List.map as_written l'))
                       end).

(** What [remove] makes of a document [d] that is written as it is: the
    document [d'], with the same top-level keys apart from [hooks], the
    same other hook events, and under each of the three events the list
    without the matchers that have the command of its script, the event
    being gone when no matcher is left. *)
Definition remove_strips (self : HookService) (d d' : JsVal) : Prop :=
  (forall k, k <> lit "hooks" -> field d' k = field d k) /\
  (forall K, ~ In K our_event_names -> hook_event d' K = hook_event d K) /\
  (forall K path hook l,
     In (K, path, hook) (our_events self) ->
     hook_event d K = Some (JArr l) ->
     hook_event d' K = match without_command path l with
                       | [] => None
                       | l' => Some (JArr l')
                       end).

(** What [install] makes of a document [d] that is written as it is: the
    same top-level keys apart from [hooks], the same other hook events,
    and under each of the three events that held a list the matchers
    without the command of its script, in order, followed by the matcher of
    this system. *)
Definition install_keeps (self : HookService) (d d' : JsVal) : Prop :=
  (forall k, k <> lit "hooks" -> field d' k = field d k) /\
  (forall K, ~ In K our_event_names -> hook_event d' K = hook_event d K) /\
  (forall K path hook l,
     In (K, path, hook) (our_events self) ->
     hook_event d K = Some (JArr l) ->
     hook_event d' K = Some (JArr (without_command path l ++ [hook]))).

(** The document is an object whose [hooks] is an object, or falsy, or not
    there: the shape on which [install] adds its matchers. *)
Definition hooks_object (d : JsVal) : Prop :=
  exists m h, d = JObj m /\
    js_or (default JUndefined (m !! lit "hooks")) (JObj ∅) = JObj h.

(** A settings file with a number beyond the range of a double under a key
    of another tool: [JSON.parse] reads it as [Infinity]. *)
Definition overflow_settings : JsVal :=
  obj [(lit "fontSize", JNum infinity)].

(** A settings file whose [hooks] holds an empty array. *)
Definition array_hooks_settings : JsVal := obj [(lit "hooks", JArr [])].

(** A settings file with a matcher under [Stop] whose list of entries holds
    a number beyond the range of a double. *)
Definition overflow_entry_settings : JsVal :=
  obj [(lit "hooks",
        obj [(lit "Stop", JArr [obj [(lit "hooks", JArr [JNum infinity])]])])].

Definition settings_world (d : JsVal) : World :=
  set_settings_json (Json d) empty_world.

(** ** The sound of a validated setting *)



(** ** The round trip of a configuration through the file *)

(** Each of [enabled], [volume] and [cooldown] that [cfg] has is [null] or
    [undefined], for which the merge takes the default, or a value that
    [JSON.stringify] writes and [JSON.parse] reads back as it is. *)
Definition top_level_kept (cfg : JsVal) : Prop :=
  forall k v, In k top_level_keys -> field cfg k = Some v ->
              nullish v = true \/ json_exact v.

(** A setting that is an object or an array is written and read back as it
    is.  (A string is, always; any other value has nothing to spread,
    before and after.) *)
Definition setting_kept (p : JsVal) : Prop :=
  match p with
  | JObj _ | JArr _ => json_exact p
  | _ => True
  end.

(** As [setting_kept], but a property of an object may also be
    [undefined] when [lacking] holds of its key. *)
Definition setting_kept_as_read (lacking : jsstring -> Prop) (p : JsVal)
    : Prop :=
  match p with
  | JObj m => forall k v, m !! k = Some v ->
                          json_exact v \/ (v = JUndefined /\ lacking k)
  | JArr _ => json_exact p
  | _ => True
  end.

(** The settings of the four kinds in [cfg] are written and read back as
    they are. *)
Definition settings_kept (cfg : JsVal) : Prop :=
  forall kind, In kind notificationTypes ->
    setting_kept (default JUndefined (setting_of cfg kind)).

(** The same, but for properties that are [undefined] under a key the
    default setting of the kind does not have. *)
Definition settings_kept_as_read (cfg : JsVal) : Prop :=
  forall kind, In kind notificationTypes ->
    setting_kept_as_read
      (fun k => (s ← setting_of DEFAULT_CONFIG kind; field s k) = None)
      (default JUndefined (setting_of cfg kind)).

(** Two configurations read the same: [enabled], [volume] and [cooldown]
    are equal, and every property of the setting of each kind reads the
    same, a property that is not there reading as [undefined]. *)
Definition same_reads (r r' : JsVal) : Prop :=
  (forall k, In k top_level_keys -> field r k = field r' k) /\
  (forall kind k, In kind notificationTypes ->
     default JUndefined (s ← setting_of r kind; field s k)
     = default JUndefined (s ← setting_of r' kind; field s k)).

(** A configuration that is not written as it is: [enabled] is
    [undefined], and the setting of [idle_prompt] names a sound. *)
Definition partial_config : JsVal :=
  obj [(lit "enabled", JUndefined);
       (lit "volume", JNum 25);
       (lit "notifications",
        obj [(lit "idle_prompt",
              obj [(lit "mode", JStr (lit "sound"));
                   (lit "sound", JStr (lit "Ping"))])])].

(** The profile and the key that [load] reads from a document in the old
    profile format. *)
Definition legacy_profiles (parsed : JsVal) : JsVal :=
  default JUndefined (field parsed (lit "profiles")).
Definition legacy_current (parsed : JsVal) : JsVal :=
  default JUndefined (field parsed (lit "currentProfile")).
(** * Properties *)

Example validateConfig_undefined : validateConfig JUndefined = Ok DEFAULT_CONFIG.
Proof. reflexivity. Qed.


Lemma occurs_in_refl (s : jsstring) : occurs_in s s.
Proof. exists [], []. by rewrite app_nil_r. Qed.

Lemma occurs_in_app_l (a s t : jsstring) : occurs_in a s -> occurs_in a (s ++ t).
Proof.
  intros (pre & post & ->). exists pre, (post ++ t).
  by rewrite <- !app_assoc.
Qed.

Lemma occurs_in_app_r (a s t : jsstring) : occurs_in a t -> occurs_in a (s ++ t).
Proof.
  intros (pre & post & ->). exists (s ++ pre), post.
  by rewrite <- !app_assoc.
Qed.

Lemma occurs_in_cons (c : N) (a s : jsstring) :
  occurs_in a s -> occurs_in a (c :: s).
Proof. apply (occurs_in_app_r a [c] s). Qed.

Lemma occurs_in_prefix (a s : jsstring) : a `prefix_of` s -> occurs_in a s.
Proof. intros [post ->]. by exists [], post. Qed.

(** Search for a run in a text, both made of literals and of variables
    joined by [++]: the literals are computed, and the run is tried at each
    position of the text. *)
Ltac prefix_here :=
  repeat match goal with
         | |- [] `prefix_of` _ => apply prefix_nil
         | |- (_ :: _) `prefix_of` (_ :: _) => apply prefix_cons
         | |- (_ ++ _) `prefix_of` (_ ++ _) => apply prefix_app
         end.

Ltac search_occurrence :=
  first [ solve [apply occurs_in_prefix; prefix_here]
        | apply occurs_in_cons; search_occurrence
        | apply occurs_in_app_r; search_occurrence ].

Ltac find_occurrence :=
  unfold say_line, config_lines;
  repeat match goal with
         | |- context [sh ?x] =>
             let v := eval vm_compute in (sh x) in change (sh x) with v
         end;
  cbn [app];
  search_occurrence.

Lemma bind_Ok {A B} (r : Result A) (f : A -> Result B) (b : B) :
  r ≫= f = Ok b <-> exists a, r = Ok a /\ f a = Ok b.
Proof.
  destruct r as [a|e]; simpl; split.
  - intros H. by exists a.
  - by intros (a' & [= ->] & H).
  - discriminate.
  - by intros (a' & [=] & _).
Qed.

(** *** validateConfig *)

Lemma get_object (m : gmap jsstring JsVal) (k : jsstring) :
  get (JObj m) k = Ok (default JUndefined (m !! k)).
Proof. reflexivity. Qed.

Lemma get_not_nullish (v : JsVal) (k : jsstring) :
  nullish v = false -> exists x, get v k = Ok x.
Proof. destruct v; simpl; intros; try discriminate; eauto. Qed.

Lemma truthy_not_nullish (v : JsVal) : truthy v = true -> nullish v = false.
Proof. by destruct v. Qed.

Lemma get_field (v : JsVal) (k : jsstring) :
  nullish v = false -> get v k = Ok (default JUndefined (field v k)).
Proof. by destruct v. Qed.

Lemma get_nullish (v : JsVal) (k : jsstring) :
  nullish v = true -> get v k = Throw TypeError.
Proof. by destruct v. Qed.

(** The conditional returns the setting's own value when that has the
    wanted type, and the default's otherwise. *)
Lemma typed_or_default_spec (T : JsType) (setting : JsVal)
    (md : gmap jsstring JsVal) (k : jsstring) :
  T <> TUndefined ->
  exists v, typed_or_default T setting (JObj md) k = Ok v /\
    ((typeof v = T /\ opt_get setting k = Ok v) \/
     (v = default JUndefined (md !! k) /\
      forall x, opt_get setting k = Ok x -> typeof x <> T)).
Proof.
  intros HT. unfold typed_or_default, opt_get.
  destruct (nullish setting) eqn:Hn; simpl.
  - destruct (decide (TUndefined = T)) as [<-|Hne]; [done|].
    eexists; split; [done|]. right. split; [done|]. by intros x [= <-].
  - destruct (get_not_nullish setting k Hn) as [x Hx]. rewrite Hx. simpl.
    destruct (decide (typeof x = T)) as [Hty|Hne].
    + exists x. split; [done|]. by left.
    + eexists; split; [done|]. right. split; [done|]. by intros ? [= <-].
Qed.

Lemma validatedSetting_mode (setting : JsVal) (md : gmap jsstring JsVal) :
  is_mode (md !! lit "mode") ->
  exists x, opt_get setting (lit "mode") = Ok x /\
  exists v, (if (is_string (lit "talk") x || is_string (lit "sound") x)%bool
             then get setting (lit "mode")
             else get (JObj md) (lit "mode")) = Ok v /\ is_mode (Some v).
Proof.
  intros Hd. unfold opt_get.
  destruct (nullish setting) eqn:Hn.
  - eexists; split; [done|]. simpl.
    eexists; split; [done|]. destruct Hd as [-> | ->]; [by left | by right].
  - destruct (get_not_nullish setting (lit "mode") Hn) as [x Hx].
    rewrite Hx. exists x. split; [done|].
    destruct (is_string (lit "talk") x) eqn:Ht; simpl.
    + exists x. split; [done|]. left. destruct x; try done.
      simpl in Ht. by apply bool_decide_eq_true in Ht as ->.
    + destruct (is_string (lit "sound") x) eqn:Hs.
      * exists x. split; [done|]. right. destruct x; try done.
        simpl in Hs. by apply bool_decide_eq_true in Hs as ->.
      * eexists; split; [done|]. destruct Hd as [-> | ->]; [by left | by right].
Qed.

Lemma validatedSetting_typed (setting : JsVal) (md : gmap jsstring JsVal) :
  default_setting_shape md ->
  exists s, validatedSetting setting (JObj md) = Ok s /\ setting_typed s.
Proof.
  intros (He & Hm & Hv & Ht & Hs). unfold validatedSetting.
  destruct (typed_or_default_spec TBoolean setting md (lit "enabled"))
    as (e & -> & Hes); [done|].
  destruct (validatedSetting_mode setting md Hm) as (sm & Hsm & mo & Hmo & Hmos).
  destruct (typed_or_default_spec TString setting md (lit "voice"))
    as (vo & -> & Hvs); [done|].
  destruct (typed_or_default_spec TString setting md (lit "text"))
    as (te & -> & Hts); [done|].
  destruct (typed_or_default_spec TString setting md (lit "sound"))
    as (so & -> & Hss); [done|].
  rewrite Hsm. cbn [mbind Result_bind]. rewrite Hmo. cbn [mbind Result_bind].
  eexists; split; [done|]. unfold setting_typed, obj, field.
  repeat split.
  - exists e. split; [reflexivity|].
    destruct Hes as [[? _] | [-> _]]; [done|].
    by destruct He as (x & -> & ?).
  - change (is_mode (Some mo)). done.
  - exists vo. split; [reflexivity|].
    destruct Hvs as [[? _] | [-> _]]; [done|].
    by destruct Hv as (x & -> & ?).
  - exists te. split; [reflexivity|].
    destruct Hts as [[? _] | [-> _]]; [done|].
    by destruct Ht as (x & -> & ?).
  - change (optional_string (Some so)).
    destruct Hss as [[? _] | [-> _]].
    + right; right. by exists so.
    + rewrite Hs. right; by left.
Qed.

Lemma DEFAULT_CONFIG_setting (type : jsstring) :
  In type notificationTypes ->
  exists md,
    (default_notifications ← get DEFAULT_CONFIG (lit "notifications");
     get default_notifications type) = Ok (JObj md) /\
    default_setting_shape md.
Proof.
  intros Hin. simpl in Hin.
  destruct Hin as [<- | [<- | [<- | [<- | []]]]];
    (eexists; split; [reflexivity|]);
    (repeat split; try (eexists; split; reflexivity); by left).
Qed.

Lemma validateConfig_step_typed (notifications : JsVal)
    (acc : gmap jsstring JsVal) (type : jsstring) :
  nullish notifications = false ->
  In type notificationTypes ->
  exists s, validateConfig_step notifications acc type = Ok (<[type := s]> acc) /\
    setting_typed s.
Proof.
  intros Hn Hin. unfold validateConfig_step.
  destruct (get_not_nullish notifications type Hn) as [setting ->].
  destruct (DEFAULT_CONFIG_setting type Hin) as (md & Hd & Hshape).
  cbn [mbind Result_bind].
  apply bind_Ok in Hd as (dn & Hdn & Hdt). rewrite Hdn.
  cbn [mbind Result_bind]. rewrite Hdt. cbn [mbind Result_bind].
  destruct (validatedSetting_typed setting md Hshape) as (s & -> & Hs).
  by exists s.
Qed.

Lemma validateConfig_notifications_typed (notifications : JsVal) :
  nullish notifications = false ->
  exists vn, foldM (validateConfig_step notifications) ∅ notificationTypes = Ok vn /\
    forall type, In type notificationTypes ->
      exists s, vn !! type = Some s /\ setting_typed s.
Proof.
  intros Hn. unfold notificationTypes. cbn [foldM].
  destruct (validateConfig_step_typed notifications ∅ (lit "permission_prompt") Hn)
    as (s1 & -> & H1); [simpl; tauto|].
  cbn [mbind Result_bind].
  destruct (validateConfig_step_typed notifications
              (<[lit "permission_prompt" := s1]> ∅) (lit "idle_prompt") Hn)
    as (s2 & -> & H2); [simpl; tauto|].
  cbn [mbind Result_bind].
  destruct (validateConfig_step_typed notifications
              (<[lit "idle_prompt" := s2]> (<[lit "permission_prompt" := s1]> ∅))
              (lit "elicitation_dialog") Hn)
    as (s3 & -> & H3); [simpl; tauto|].
  cbn [mbind Result_bind].
  destruct (validateConfig_step_typed notifications
              (<[lit "elicitation_dialog" := s3]>
                 (<[lit "idle_prompt" := s2]> (<[lit "permission_prompt" := s1]> ∅)))
              (lit "response_complete") Hn)
    as (s4 & -> & H4); [simpl; tauto|].
  cbn [mbind Result_bind].
  eexists; split; [reflexivity|].
  intros type Hin. simpl in Hin.
  destruct Hin as [<- | [<- | [<- | [<- | []]]]].
  - by exists s1.
  - by exists s2.
  - by exists s3.
  - by exists s4.
Qed.

Lemma DEFAULT_CONFIG_typed : config_shape setting_typed DEFAULT_CONFIG.
Proof.
  repeat split; try (eexists; split; reflexivity).
  eexists; split; [reflexivity|].
  intros type Hin. simpl in Hin.
  destruct Hin as [<- | [<- | [<- | [<- | []]]]];
    (eexists; split; [reflexivity|]);
    (repeat split; try (eexists; split; reflexivity); by left).
Qed.

Lemma DEFAULT_CONFIG_fields :
  exists md, DEFAULT_CONFIG = JObj md /\
    md !! lit "enabled" = Some (JBool true) /\
    md !! lit "volume" = Some (JNum 70) /\
    md !! lit "cooldown" = Some (JNum 3).
Proof. eexists. split; [reflexivity|]. repeat split. Qed.

(** The result for an object: each top-level field is the input's when that
    has the wanted type and the default otherwise, and the four settings
    are typed. *)
Lemma validateConfig_object_form (config : JsVal) :
  truthy config = true -> typeof config = TObject ->
  exists e vo co vn,
    validateConfig config =
      Ok (obj [(lit "enabled", e); (lit "volume", vo); (lit "cooldown", co);
               (lit "notifications", JObj vn)]) /\
    typed_or_default TBoolean config DEFAULT_CONFIG (lit "enabled") = Ok e /\
    typed_or_default TNumber config DEFAULT_CONFIG (lit "volume") = Ok vo /\
    typed_or_default TNumber config DEFAULT_CONFIG (lit "cooldown") = Ok co /\
    typeof e = TBoolean /\ typeof vo = TNumber /\ typeof co = TNumber /\
    forall type, In type notificationTypes ->
      exists s, vn !! type = Some s /\ setting_typed s.
Proof.
  intros Htruthy Hobj. unfold validateConfig.
  rewrite Htruthy, Hobj. rewrite bool_decide_eq_true_2 by done.
  cbn [negb orb].
  pose proof (truthy_not_nullish _ Htruthy) as Hn.
  destruct (get_not_nullish config (lit "notifications") Hn) as [cn ->].
  cbn [mbind Result_bind].
  assert (Hnn : nullish (js_or cn (JObj ∅)) = false).
  { unfold js_or. destruct (truthy cn) eqn:Hcn; [|done].
    by apply truthy_not_nullish. }
  destruct (validateConfig_notifications_typed _ Hnn) as (vn & -> & Hvn).
  cbn [mbind Result_bind].
  destruct DEFAULT_CONFIG_fields as (md & Hmd & He0 & Hv0 & Hc0).
  rewrite Hmd.
  destruct (typed_or_default_spec TBoolean config md (lit "enabled"))
    as (e & He' & He); [done|].
  destruct (typed_or_default_spec TNumber config md (lit "volume"))
    as (vo & Hvo' & Hvo); [done|].
  destruct (typed_or_default_spec TNumber config md (lit "cooldown"))
    as (co & Hco' & Hco); [done|].
  rewrite He', Hvo', Hco'.
  cbn [mbind Result_bind].
  exists e, vo, co, vn. repeat split; try done.
  - destruct He as [[? _] | [-> _]]; [done|]. by rewrite He0.
  - destruct Hvo as [[? _] | [-> _]]; [done|]. by rewrite Hv0.
  - destruct Hco as [[? _] | [-> _]]; [done|]. by rewrite Hc0.
Qed.

Lemma validateConfig_guard (config : JsVal) :
  (truthy config = true /\ typeof config = TObject) \/
  validateConfig config = Ok DEFAULT_CONFIG.
Proof.
  unfold validateConfig.
  destruct (truthy config); [|by right].
  destruct (bool_decide_reflect (typeof config = TObject)); [by left | by right].
Qed.

(** For every input value, [validateConfig] returns without throwing, and
    what it returns has a boolean [enabled], numbers [volume] and
    [cooldown], and for each of the four notification kinds a setting with
    a boolean [enabled], a [mode] that is exactly ['talk'] or ['sound'],
    strings [voice] and [text], and a [sound] that is a string or
    [undefined]. *)
Lemma validateConfig_typed (config : JsVal) :
  exists c, validateConfig config = Ok c /\ config_shape setting_typed c.
Proof.
  destruct (validateConfig_guard config) as [[Ht Ho] | Hd].
  - destruct (validateConfig_object_form config Ht Ho)
      as (e & vo & co & vn & -> & _ & _ & _ & He & Hvo & Hco & Hvn).
    eexists; split; [reflexivity|].
    repeat split.
    + by exists e.
    + by exists vo.
    + by exists co.
    + by exists (JObj vn).
  - exists DEFAULT_CONFIG. split; [done|]. apply DEFAULT_CONFIG_typed.
Qed.

(** *** The sound of a validated setting *)









(** What [validateConfig] makes of the empty object: the defaults, with a
    [sound] property that is [undefined] in each setting. *)
Lemma validateConfig_empty_object :
  validateConfig (JObj ∅) =
    Ok (obj [
      (lit "enabled", JBool true); (lit "volume", JNum 70);
      (lit "cooldown", JNum 3);
      (lit "notifications", obj [
        (lit "permission_prompt", obj [
          (lit "enabled", JBool true); (lit "mode", JStr (lit "talk"));
          (lit "voice", JStr (lit "Ava (Premium)"));
          (lit "text", JStr (lit "Permission required"));
          (lit "sound", JUndefined)]);
        (lit "idle_prompt", obj [
          (lit "enabled", JBool true); (lit "mode", JStr (lit "talk"));
          (lit "voice", JStr (lit "Ava (Premium)"));
          (lit "text", JStr (lit "Done")); (lit "sound", JUndefined)]);
        (lit "elicitation_dialog", obj [
          (lit "enabled", JBool true); (lit "mode", JStr (lit "talk"));
          (lit "voice", JStr (lit "Ava (Premium)"));
          (lit "text", JStr (lit "Input needed")); (lit "sound", JUndefined)]);
        (lit "response_complete", obj [
          (lit "enabled", JBool true); (lit "mode", JStr (lit "talk"));
          (lit "voice", JStr (lit "Ava (Premium)"));
          (lit "text", JStr (lit "Response ready"));
          (lit "sound", JUndefined)])])]).
Proof. vm_compute. reflexivity. Qed.


Section NumberExamples.
Context `{Builtins}.

Example Number_toString_1 : Number_toString 1 = lit "1".
Proof. reflexivity. Qed.
Example Number_toString_negative_zero : Number_toString (-0)%float = lit "0".
Proof. reflexivity. Qed.
Example Number_toString_150 : Number_toString 150 = lit "150".
Proof. reflexivity. Qed.
Example Number_toString_minus_12 : Number_toString (-12)%float = lit "-12".
Proof. reflexivity. Qed.
Example Number_toString_half :
  Number_toString 0.5 = Number_toString_other 0.5%float.
Proof. reflexivity. Qed.
Example Number_toString_largest_exact :
  Number_toString 9007199254740991 = lit "9007199254740991".
Proof. reflexivity. Qed.
Example clampNumber_150 : clampNumber (JNum 150) 0 100 70 = Ok 100%float.
Proof. reflexivity. Qed.
Example clampNumber_minus_1 : clampNumber (JNum (-1)) 0 30 3 = Ok 0%float.
Proof. reflexivity. Qed.
Example clampNumber_NaN : clampNumber (JNum nan) 0 30 3 = Ok 3%float.
Proof. reflexivity. Qed.
Example clampNumber_negative_zero : clampNumber (JNum (-0)) 0 30 3 = Ok 0%float.
Proof. reflexivity. Qed.

End NumberExamples.

(** ** Sound names and escaping *)

Example sanitizeSoundName_traversal :
  sanitizeSoundName (lit "../../etc/passwd") = lit "etcpasswd".
Proof. reflexivity. Qed.

Example sanitizeSoundName_empty : sanitizeSoundName (lit "../") = lit "Glass".
Proof. reflexivity. Qed.

Example escapeForBash_example :
  escapeForBash (lit "a$b!") = lit "a\$b\!".
Proof. reflexivity. Qed.

Lemma SoundService_sanitizeSoundName_eq (name : jsstring) :
  SoundService.sanitizeSoundName name = sanitizeSoundName name.
Proof. reflexivity. Qed.

Lemma sound_char_kept_cases (c : N) :
  sound_char_kept c = true -> named_sound_char c = true \/ regex_space c = true.
Proof.
  unfold sound_char_kept, named_sound_char.
  destruct (ascii_alnum c); simpl; [by left|].
  destruct (regex_space c); simpl; [by right|].
  intros H. left. by destruct (N.eqb c 32).
Qed.

(** C2 (as amended): every character of a sanitized sound name is a letter,
    a digit, a space, a hyphen, an underscore, or another white-space
    character of the class [\s]; and when stripping leaves no character the
    result is exactly [Glass].  The same holds of the copy in
    [SoundService]. *)
Theorem sanitizeSoundName_characters (name : jsstring) :
  Forall (fun c => named_sound_char c = true \/ regex_space c = true)
         (sanitizeSoundName name) /\
  (List.filter sound_char_kept name = [] -> sanitizeSoundName name = lit "Glass") /\
  SoundService.sanitizeSoundName name = sanitizeSoundName name.
Proof.
  split; [|split; [|reflexivity]].
  - unfold sanitizeSoundName.
    destruct (List.filter sound_char_kept name) as [|c l] eqn:Hf.
    + repeat constructor.
    + rewrite <- Hf. apply Forall_forall. intros x Hx.
      apply filter_In in Hx as [_ Hx]. by apply sound_char_kept_cases.
  - unfold sanitizeSoundName. by intros ->.
Qed.

(** C2 (as stated) fails: a tab is kept, and the named set has no tab. *)
Lemma sanitizeSoundName_keeps_tab :
  sanitizeSoundName [9%N] = [9%N] /\
  ~ Forall (fun c => named_sound_char c = true) (sanitizeSoundName [9%N]).
Proof.
  split; [reflexivity|].
  intros H. apply Forall_inv in H. discriminate.
Qed.

Lemma bash_special_five (c : N) : bash_special c = true <-> In c five_characters.
Proof.
  unfold bash_special, five_characters, dquote.
  change (lit "$`\!" ++ [34%N]) with [36%N; 96%N; 92%N; 33%N; 34%N].
  cbn [In]. rewrite !orb_true_iff, !N.eqb_eq.
  split; [intros [[[[->| ->]| ->]| ->]| ->]; tauto|].
  intros [<-|[<-|[<-|[<-|[<-|[]]]]]]; tauto.
Qed.

Lemma escapeForBash_escaped (s : jsstring) : escaped_as s (escapeForBash s).
Proof.
  induction s as [|c s IH]; simpl; [constructor|].
  destruct (bash_special c) eqn:Hc; simpl.
  - apply escaped_special; [by apply bash_special_five | done].
  - apply escaped_plain; [|done].
    intros Hin%bash_special_five. congruence.
Qed.

Lemma escaped_as_functional (s t : jsstring) :
  escaped_as s t -> t = escapeForBash s.
Proof.
  induction 1 as [|c s t Hc _ IH|c s t Hc _ IH]; simpl; [done| |].
  - apply bash_special_five in Hc. rewrite Hc. simpl. by rewrite IH.
  - destruct (bash_special c) eqn:Hs.
    + by apply bash_special_five in Hs.
    + simpl. by rewrite IH.
Qed.

(** The escaped text, followed by a double quote, is read by the shell up
    to that quote, and no expansion starts in it. *)
Lemma escapeForBash_closes (s rest : jsstring) :
  dq_close (escapeForBash s ++ dquote :: rest) = Some rest.
Proof.
  induction s as [|c s IH]; [reflexivity|].
  cbn [escapeForBash flat_map]. fold (escapeForBash s).
  unfold bash_special.
  destruct (N.eqb_spec c 36) as [->|H36]; [exact IH|].
  destruct (N.eqb_spec c 96) as [->|H96]; [exact IH|].
  destruct (N.eqb_spec c 92) as [->|H92]; [exact IH|].
  destruct (N.eqb_spec c 33) as [->|H33]; [exact IH|].
  destruct (N.eqb_spec c 34) as [->|H34]; [exact IH|].
  cbn [orb app dq_close]. unfold dquote.
  apply N.eqb_neq in H36, H96, H92, H34.
  rewrite H34, H92, H36, H96. exact IH.
Qed.

(** ** The script generators on validated configurations *)

Lemma field_get (v : JsVal) (k : jsstring) (x : JsVal) :
  field v k = Some x -> get v k = Ok x.
Proof. destruct v; simpl; try discriminate. by intros ->. Qed.

Lemma js_or_strings (s fallback : jsstring) :
  js_or (JStr s) (JStr fallback) = JStr (or_fallback s fallback).
Proof. by destruct s. Qed.

Lemma is_string_refl (s : jsstring) : is_string s (JStr s) = true.
Proof. simpl. by apply bool_decide_eq_true_2. Qed.

(** What the generators read in a typed setting. *)
Lemma setting_typed_gets (s : JsVal) :
  setting_typed s ->
  exists b mo vs ts so,
    field s (lit "enabled") = Some (JBool b) /\
    get s (lit "enabled") = Ok (JBool b) /\
    field s (lit "mode") = Some (JStr mo) /\
    get s (lit "mode") = Ok (JStr mo) /\
    (mo = lit "talk" \/ mo = lit "sound") /\
    field s (lit "voice") = Some (JStr vs) /\
    get s (lit "voice") = Ok (JStr vs) /\
    field s (lit "text") = Some (JStr ts) /\
    get s (lit "text") = Ok (JStr ts) /\
    get s (lit "sound") = Ok so /\
    (so = JUndefined \/ exists ss, so = JStr ss).
Proof.
  intros ((e & He & Hte) & Hm & (vo & Hvo & Htv) & (te & Hte' & Htt) & Hs).
  destruct e; try discriminate.
  destruct vo; try discriminate.
  destruct te; try discriminate.
  assert (exists mo, field s (lit "mode") = Some (JStr mo) /\
                     (mo = lit "talk" \/ mo = lit "sound")) as (mo & Hmo & Hmo').
  { destruct Hm as [-> | ->]; eexists; split; eauto. }
  assert (exists so, get s (lit "sound") = Ok so /\
                     (so = JUndefined \/ exists ss, so = JStr ss)) as (so & Hso & Hso').
  { destruct s; try discriminate. simpl in Hs |- *.
    destruct Hs as [-> | [-> | (x & -> & Hx)]]; simpl.
    - eexists; split; [done|]. by left.
    - eexists; split; [done|]. by left.
    - destruct x; try discriminate. eexists; split; [done|]. right. by eexists. }
  exists b, mo, s0, s1, so.
  repeat split; try done; by apply field_get.
Qed.

Section Generators.
Context `{Builtins}.

Lemma clampNumber_of_number (v : JsVal) (min max defaultValue : float) :
  typeof v = TNumber -> exists y, clampNumber v min max defaultValue = Ok y.
Proof.
  destruct v; try discriminate. intros _. unfold clampNumber. simpl.
  destruct (PrimFloat.is_nan x); eauto.
Qed.

(** One case of the main script: it is appended to the script so far, and a
    kind that is enabled and talks gets its line with the escaped voice and
    text. *)
Lemma generateScript_case_typed (config n s : JsVal) (script type : jsstring) :
  get config (lit "notifications") = Ok n ->
  get n type = Ok s ->
  setting_typed s ->
  exists block,
    generateScript_case config script type = Ok (script ++ block) /\
    forall voice text,
      field s (lit "enabled") = Some (JBool true) ->
      field s (lit "mode") = Some (JStr (lit "talk")) ->
      field s (lit "voice") = Some (JStr voice) ->
      field s (lit "text") = Some (JStr text) ->
      occurs_in (say_line (escapeForBash (or_fallback voice (lit "Ava")))
                   (escapeForBash (or_fallback text (underscores_to_spaces type))))
                block.
Proof.
  intros Hn Hs Hty. unfold generateScript_case.
  rewrite Hn. cbn [mbind Result_bind]. rewrite Hs. cbn [mbind Result_bind].
  destruct (setting_typed_gets s Hty)
    as (b & mo & vs & ts & so & Hfe & He & Hfm & Hm & Hmo & Hfv & Hv & Hft & Ht
        & Hso & Hso').
  rewrite He. cbn [mbind Result_bind truthy].
  destruct b; cbn [negb].
  2: { eexists; split; [reflexivity|]. intros ? ? Hen. congruence. }
  rewrite Hm. cbn [mbind Result_bind].
  destruct Hmo as [-> | ->].
  - rewrite is_string_refl. rewrite Hv, Ht. cbn [mbind Result_bind].
    rewrite !js_or_strings. cbn [on_string mbind Result_bind].
    eexists; split; [reflexivity|].
    intros voice text _ _ Hvoice Htext.
    rewrite Hfv in Hvoice. rewrite Hft in Htext.
    injection Hvoice as <-. injection Htext as <-.
    generalize (escapeForBash (or_fallback vs (lit "Ava"))).
    generalize (escapeForBash (or_fallback ts (underscores_to_spaces type))).
    intros spoken_text spoken_voice. find_occurrence.
  - replace (is_string (lit "talk") (JStr (lit "sound"))) with false by reflexivity.
    rewrite Hso. cbn [mbind Result_bind].
    destruct Hso' as [-> | (ss & ->)].
    + cbn [js_or truthy on_string mbind Result_bind].
      eexists; split; [reflexivity|]. intros ? ? _ Hmode.
      rewrite Hfm in Hmode. discriminate.
    + rewrite js_or_strings. cbn [on_string mbind Result_bind].
      eexists; split; [reflexivity|]. intros ? ? _ Hmode.
      rewrite Hfm in Hmode. discriminate.
Qed.

(** What the generators read at the top level of a validated
    configuration. *)
Lemma config_shape_gets (v : JsVal) :
  config_shape setting_typed v ->
  exists e x y n,
    get v (lit "enabled") = Ok e /\
    field v (lit "volume") = Some (JNum x) /\
    get v (lit "volume") = Ok (JNum x) /\
    field v (lit "cooldown") = Some (JNum y) /\
    get v (lit "cooldown") = Ok (JNum y) /\
    field v (lit "notifications") = Some n /\
    get v (lit "notifications") = Ok n /\
    forall type, In type notificationTypes ->
      exists s, field n type = Some s /\ get n type = Ok s /\ setting_typed s.
Proof.
  intros ((e & He & _) & (vo & Hvo & Htvo) & (co & Hco & Htco) & n & Hn & Hall).
  destruct vo; try discriminate. destruct co; try discriminate.
  exists e, x, x0, n.
  split; [by apply field_get|]. split; [done|]. split; [by apply field_get|].
  split; [done|]. split; [by apply field_get|]. split; [done|].
  split; [by apply field_get|].
  intros type Hin. destruct (Hall type Hin) as (s & Hs & Hty).
  exists s. split; [done|]. split; [by apply field_get | done].
Qed.

Lemma generateScript_validated (v : JsVal) :
  config_shape setting_typed v ->
  exists x y volume cooldown script,
    field v (lit "volume") = Some (JNum x) /\
    field v (lit "cooldown") = Some (JNum y) /\
    clampNumber (JNum x) 0 100 70 = Ok volume /\
    clampNumber (JNum y) 0 30 3 = Ok cooldown /\
    generateScript v = Ok script /\
    occurs_in (config_lines (Number_toString (volume / 100)%float)
                            (Number_toString cooldown)) script /\
    forall type s voice text,
      In type [lit "permission_prompt"; lit "idle_prompt";
               lit "elicitation_dialog"] ->
      setting_of v type = Some s ->
      field s (lit "enabled") = Some (JBool true) ->
      field s (lit "mode") = Some (JStr (lit "talk")) ->
      field s (lit "voice") = Some (JStr voice) ->
      field s (lit "text") = Some (JStr text) ->
      occurs_in (say_line (escapeForBash (or_fallback voice (lit "Ava")))
                   (escapeForBash (or_fallback text (underscores_to_spaces type))))
                script.
Proof.
  intros Hv.
  destruct (config_shape_gets v Hv)
    as (e & x & y & n & He & Hfx & Hx & Hfy & Hy & Hfn & Hn & Hall).
  destruct (clampNumber_of_number (JNum x) 0 100 70) as [volume Hvol]; [done|].
  destruct (clampNumber_of_number (JNum y) 0 30 3) as [cooldown Hcd]; [done|].
  exists x, y, volume, cooldown.
  unfold generateScript.
  rewrite Hx. cbn [mbind Result_bind]. rewrite Hvol. cbn [mbind Result_bind].
  rewrite Hy. cbn [mbind Result_bind]. rewrite Hcd. cbn [mbind Result_bind].
  rewrite He. cbn [mbind Result_bind foldM].
  destruct (Hall (lit "permission_prompt")) as (s1 & Hf1 & Hg1 & Ht1);
    [simpl; tauto|].
  destruct (Hall (lit "idle_prompt")) as (s2 & Hf2 & Hg2 & Ht2); [simpl; tauto|].
  destruct (Hall (lit "elicitation_dialog")) as (s3 & Hf3 & Hg3 & Ht3);
    [simpl; tauto|].
  match goal with
  | |- context [generateScript_case v ?hdr (lit "permission_prompt")] =>
      destruct (generateScript_case_typed v n s1 hdr _ Hn Hg1 Ht1)
        as (b1 & -> & Hb1);
      set (header := hdr)
  end.
  cbn [mbind Result_bind].
  destruct (generateScript_case_typed v n s2 (header ++ b1) _ Hn Hg2 Ht2)
    as (b2 & -> & Hb2).
  cbn [mbind Result_bind].
  destruct (generateScript_case_typed v n s3 ((header ++ b1) ++ b2) _ Hn Hg3 Ht3)
    as (b3 & -> & Hb3).
  cbn [mbind Result_bind].
  eexists. repeat split; try done.
  - do 4 apply occurs_in_app_l. unfold header.
    generalize (Boolean_toString (is_true e)).
    generalize (Number_toString (volume / 100)%float).
    generalize (Number_toString cooldown).
    intros cooldown_text volume_text enabled_text. find_occurrence.
  - intros type s voice text Hin Hs Hen Hmo Hvo Hte.
    unfold setting_of in Hs. rewrite Hfn in Hs. simpl in Hs, Hin.
    destruct Hin as [<- | [<- | [<- | []]]].
    + rewrite Hf1 in Hs. injection Hs as <-.
      do 3 apply occurs_in_app_l. apply occurs_in_app_r. by apply Hb1.
    + rewrite Hf2 in Hs. injection Hs as <-.
      do 2 apply occurs_in_app_l. apply occurs_in_app_r. by apply Hb2.
    + rewrite Hf3 in Hs. injection Hs as <-.
      apply occurs_in_app_l. apply occurs_in_app_r. by apply Hb3.
Qed.

(** The volume and cooldown lines stand in the header of a single-purpose
    script, after its two [ENABLED] lines. *)
Ltac solve_config_lines e b volume cooldown :=
  do 2 apply occurs_in_app_l;
  generalize (Boolean_toString (is_true e));
  generalize (Boolean_toString (is_true (JBool b)));
  generalize (Number_toString (volume / 100)%float);
  generalize (Number_toString cooldown);
  intros cooldown_text volume_text setting_enabled_text enabled_text;
  find_occurrence.

Lemma generatePermissionScript_validated (v : JsVal) :
  config_shape setting_typed v ->
  exists x y volume cooldown script,
    field v (lit "volume") = Some (JNum x) /\
    field v (lit "cooldown") = Some (JNum y) /\
    clampNumber (JNum x) 0 100 70 = Ok volume /\
    clampNumber (JNum y) 0 30 3 = Ok cooldown /\
    generatePermissionScript v = Ok script /\
    occurs_in (config_lines (Number_toString (volume / 100)%float)
                            (Number_toString cooldown)) script /\
    forall s voice text,
      setting_of v (lit "permission_prompt") = Some s ->
      field s (lit "mode") = Some (JStr (lit "talk")) ->
      field s (lit "voice") = Some (JStr voice) ->
      field s (lit "text") = Some (JStr text) ->
      occurs_in (say_line (escapeForBash (or_fallback voice (lit "Ava")))
                   (escapeForBash (or_fallback text (lit "Permission required"))))
                script.
Proof.
  intros Hv.
  destruct (config_shape_gets v Hv)
    as (e & x & y & n & He & Hfx & Hx & Hfy & Hy & Hfn & Hn & Hall).
  destruct (clampNumber_of_number (JNum x) 0 100 70) as [volume Hvol]; [done|].
  destruct (clampNumber_of_number (JNum y) 0 30 3) as [cooldown Hcd]; [done|].
  exists x, y, volume, cooldown.
  unfold generatePermissionScript.
  rewrite Hx. cbn [mbind Result_bind]. rewrite Hvol. cbn [mbind Result_bind].
  rewrite Hy. cbn [mbind Result_bind]. rewrite Hcd. cbn [mbind Result_bind].
  rewrite Hn. cbn [mbind Result_bind].
  destruct (Hall (lit "permission_prompt")) as (s & Hfs & Hgs & Hts); [simpl; tauto|].
  rewrite Hgs. cbn [mbind Result_bind]. rewrite He. cbn [mbind Result_bind].
  destruct (setting_typed_gets s Hts)
    as (b & mo & vs & ts & so & Hfe & Hge & Hfm & Hm & Hmo & Hfv & Hgv & Hft & Hgt
        & Hso & Hso').
  rewrite Hge, Hm. cbn [mbind Result_bind].
  destruct Hmo as [-> | ->].
  - rewrite is_string_refl. rewrite Hgv, Hgt. cbn [mbind Result_bind].
    rewrite !js_or_strings. cbn [on_string mbind Result_bind].
    eexists. repeat split; try done; [solve_config_lines e b volume cooldown|].
    intros s' voice text Hs' _ Hvoice Htext.
    unfold setting_of in Hs'. rewrite Hfn in Hs'. simpl in Hs'.
    rewrite Hfs in Hs'. injection Hs' as <-.
    rewrite Hfv in Hvoice. rewrite Hft in Htext.
    injection Hvoice as <-. injection Htext as <-.
    apply occurs_in_app_l, occurs_in_app_r.
    generalize (escapeForBash (or_fallback vs (lit "Ava"))).
    intros spoken_voice.
    match goal with
    | |- context [escapeForBash (or_fallback ts ?fallback)] =>
        generalize (escapeForBash (or_fallback ts fallback))
    end.
    intros spoken_text. find_occurrence.
  - replace (is_string (lit "talk") (JStr (lit "sound"))) with false by reflexivity.
    rewrite Hso. cbn [mbind Result_bind].
    assert (exists sound, on_string sanitizeSoundName
                            (js_or so (JStr (lit "Glass"))) = Ok sound)
      as (sound & ->).
    { destruct Hso' as [-> | (ss & ->)]; [by eexists|].
      rewrite js_or_strings. by eexists. }
    cbn [mbind Result_bind].
    eexists. repeat split; try done; [solve_config_lines e b volume cooldown|].
    intros s' voice text Hs' Hmode.
    unfold setting_of in Hs'. rewrite Hfn in Hs'. simpl in Hs'.
    rewrite Hfs in Hs'. injection Hs' as <-.
    rewrite Hfm in Hmode. discriminate.
Qed.

Lemma generateStopScript_validated (v : JsVal) :
  config_shape setting_typed v ->
  exists x y volume cooldown script,
    field v (lit "volume") = Some (JNum x) /\
    field v (lit "cooldown") = Some (JNum y) /\
    clampNumber (JNum x) 0 100 70 = Ok volume /\
    clampNumber (JNum y) 0 30 3 = Ok cooldown /\
    generateStopScript v = Ok script /\
    occurs_in (config_lines (Number_toString (volume / 100)%float)
                            (Number_toString cooldown)) script /\
    forall s voice text,
      setting_of v (lit "response_complete") = Some s ->
      field s (lit "mode") = Some (JStr (lit "talk")) ->
      field s (lit "voice") = Some (JStr voice) ->
      field s (lit "text") = Some (JStr text) ->
      occurs_in (say_line (escapeForBash (or_fallback voice (lit "Ava")))
                   (escapeForBash (or_fallback text (lit "Response ready"))))
                script.
Proof.
  intros Hv.
  destruct (config_shape_gets v Hv)
    as (e & x & y & n & He & Hfx & Hx & Hfy & Hy & Hfn & Hn & Hall).
  destruct (clampNumber_of_number (JNum x) 0 100 70) as [volume Hvol]; [done|].
  destruct (clampNumber_of_number (JNum y) 0 30 3) as [cooldown Hcd]; [done|].
  exists x, y, volume, cooldown.
  unfold generateStopScript.
  rewrite Hx. cbn [mbind Result_bind]. rewrite Hvol. cbn [mbind Result_bind].
  rewrite Hy. cbn [mbind Result_bind]. rewrite Hcd. cbn [mbind Result_bind].
  rewrite Hn. cbn [mbind Result_bind].
  destruct (Hall (lit "response_complete")) as (s & Hfs & Hgs & Hts); [simpl; tauto|].
  rewrite Hgs. cbn [mbind Result_bind]. rewrite He. cbn [mbind Result_bind].
  destruct (setting_typed_gets s Hts)
    as (b & mo & vs & ts & so & Hfe & Hge & Hfm & Hm & Hmo & Hfv & Hgv & Hft & Hgt
        & Hso & Hso').
  rewrite Hge, Hm. cbn [mbind Result_bind].
  destruct Hmo as [-> | ->].
  - rewrite is_string_refl. rewrite Hgv, Hgt. cbn [mbind Result_bind].
    rewrite !js_or_strings. cbn [on_string mbind Result_bind].
    eexists. repeat split; try done; [solve_config_lines e b volume cooldown|].
    intros s' voice text Hs' _ Hvoice Htext.
    unfold setting_of in Hs'. rewrite Hfn in Hs'. simpl in Hs'.
    rewrite Hfs in Hs'. injection Hs' as <-.
    rewrite Hfv in Hvoice. rewrite Hft in Htext.
    injection Hvoice as <-. injection Htext as <-.
    apply occurs_in_app_l, occurs_in_app_r.
    generalize (escapeForBash (or_fallback vs (lit "Ava"))).
    intros spoken_voice.
    match goal with
    | |- context [escapeForBash (or_fallback ts ?fallback)] =>
        generalize (escapeForBash (or_fallback ts fallback))
    end.
    intros spoken_text. find_occurrence.
  - replace (is_string (lit "talk") (JStr (lit "sound"))) with false by reflexivity.
    rewrite Hso. cbn [mbind Result_bind].
    assert (exists sound, on_string sanitizeSoundName
                            (js_or so (JStr (lit "Glass"))) = Ok sound)
      as (sound & ->).
    { destruct Hso' as [-> | (ss & ->)]; [by eexists|].
      rewrite js_or_strings. by eexists. }
    cbn [mbind Result_bind].
    eexists. repeat split; try done; [solve_config_lines e b volume cooldown|].
    intros s' voice text Hs' Hmode.
    unfold setting_of in Hs'. rewrite Hfn in Hs'. simpl in Hs'.
    rewrite Hfs in Hs'. injection Hs' as <-.
    rewrite Hfm in Hmode. discriminate.
Qed.

End Generators.

(** ** The settings lock *)


Lemma acquireSettingsLock_loop_S (fuel : nat) (timeoutMs startTime : Z) (w : World) :
  acquireSettingsLock_loop (S fuel) timeoutMs startTime w =
    match settings_lock w with
    | None => Some (Ok tt, set_settings_lock (Some (now w)) w)
    | Some mtimeMs =>
        if now w - mtimeMs >? 30000 then
          if lock_unlinkable w
          then acquireSettingsLock_loop fuel timeoutMs startTime
                 (set_settings_lock None w)
          else acquireSettingsLock_loop fuel timeoutMs startTime w
        else if now w - startTime >? timeoutMs then Some (Throw LockTimeout, w)
        else acquireSettingsLock_loop fuel timeoutMs startTime
               (set_now (now w + 100) w)
    end.
Proof. reflexivity. Qed.


(** A free lock is taken at the first attempt. *)
Lemma acquireSettingsLock_free (fuel : nat) (timeoutMs : Z) (w : World) :
  settings_lock w = None ->
  acquireSettingsLock (S fuel) timeoutMs w =
    Some (Ok tt, set_settings_lock (Some (now w)) w).
Proof.
  intros Hfree. unfold acquireSettingsLock.
  by rewrite acquireSettingsLock_loop_S, Hfree.
Qed.

(** A stale lock that can be removed is removed at the first attempt and
    the lock is taken at the second, with no wait in between: the clock of
    the resulting world is that of the start. *)
Lemma acquireSettingsLock_stale (fuel : nat) (timeoutMs mtimeMs : Z) (w : World) :
  settings_lock w = Some mtimeMs ->
  now w - mtimeMs > 30000 ->
  lock_unlinkable w = true ->
  acquireSettingsLock (S (S fuel)) timeoutMs w =
    Some (Ok tt, set_settings_lock (Some (now w)) w).
Proof.
  intros Hlock Hage Hunlink. unfold acquireSettingsLock.
  rewrite acquireSettingsLock_loop_S, Hlock, Hunlink.
  destruct (Z.gtb_spec (now w - mtimeMs) 30000) as [_|]; [|lia].
  rewrite acquireSettingsLock_loop_S. cbn [settings_lock set_settings_lock now].
  by destruct w.
Qed.





(** A stale lock that [unlink] refuses to remove: every turn of the loop
    fails to create the file, finds it stale, fails to remove it and goes
    on with the next turn, so the timeout is never looked at. *)
Lemma acquireSettingsLock_loop_spins (fuel : nat) (timeoutMs startTime mtimeMs : Z)
    (w : World) :
  settings_lock w = Some mtimeMs ->
  now w - mtimeMs > 30000 ->
  lock_unlinkable w = false ->
  acquireSettingsLock_loop fuel timeoutMs startTime w = None.
Proof.
  intros Hlock Hage Hunlink. induction fuel as [|fuel IH]; [done|].
  rewrite acquireSettingsLock_loop_S, Hlock, Hunlink.
  by destruct (Z.gtb_spec (now w - mtimeMs) 30000); [|lia].
Qed.

(** C6 fails on the code: with a lock file older than 30 s that cannot be
    removed, no amount of fuel lets [acquireSettingsLock] settle: it neither
    takes the lock nor raises the timeout error. *)
Theorem acquireSettingsLock_never_times_out (fuel : nat) :
  acquireSettingsLock fuel default_timeoutMs stuck_lock_world = None.
Proof.
  unfold acquireSettingsLock.
  by apply (acquireSettingsLock_loop_spins fuel _ _ 0).
Qed.

(** ** Escaped text and clamped numbers in the three scripts *)

Section ScriptClaims.
Context `{Builtins}.

(** C7: [escapeForBash] returns its argument with one backslash put before
    each dollar sign, backtick, backslash, double quote and exclamation
    mark; behind the closing quote of the template the shell reads that
    text as one double-quoted word with no expansion in it; and for every
    configuration the three scripts rendered from its validated form hold,
    for a kind that talks, the line [say -v "voice" -o "$TMPFILE" "text"]
    with the escaped voice and text (an empty voice or text being replaced
    by its fallback first). *)
Theorem escapeForBash_interpolated (config : JsVal) :
  (forall str, escaped_as str (escapeForBash str) /\
               forall t, escaped_as str t -> t = escapeForBash str) /\
  (forall str rest, dq_close (escapeForBash str ++ dquote :: rest) = Some rest) /\
  exists v script permissionScript stopScript,
    validateConfig config = Ok v /\
    generateScript v = Ok script /\
    generatePermissionScript v = Ok permissionScript /\
    generateStopScript v = Ok stopScript /\
    (forall type s voice text,
       In type [lit "permission_prompt"; lit "idle_prompt";
                lit "elicitation_dialog"] ->
       setting_of v type = Some s ->
       field s (lit "enabled") = Some (JBool true) ->
       field s (lit "mode") = Some (JStr (lit "talk")) ->
       field s (lit "voice") = Some (JStr voice) ->
       field s (lit "text") = Some (JStr text) ->
       occurs_in (say_line (escapeForBash (or_fallback voice (lit "Ava")))
                    (escapeForBash (or_fallback text (underscores_to_spaces type))))
                 script) /\
    (forall s voice text,
       setting_of v (lit "permission_prompt") = Some s ->
       field s (lit "mode") = Some (JStr (lit "talk")) ->
       field s (lit "voice") = Some (JStr voice) ->
       field s (lit "text") = Some (JStr text) ->
       occurs_in (say_line (escapeForBash (or_fallback voice (lit "Ava")))
                    (escapeForBash (or_fallback text (lit "Permission required"))))
                 permissionScript) /\
    (forall s voice text,
       setting_of v (lit "response_complete") = Some s ->
       field s (lit "mode") = Some (JStr (lit "talk")) ->
       field s (lit "voice") = Some (JStr voice) ->
       field s (lit "text") = Some (JStr text) ->
       occurs_in (say_line (escapeForBash (or_fallback voice (lit "Ava")))
                    (escapeForBash (or_fallback text (lit "Response ready"))))
                 stopScript).
Proof.
  split; [|split].
  - intros str. split; [apply escapeForBash_escaped | apply escaped_as_functional].
  - apply escapeForBash_closes.
  - destruct (validateConfig_typed config) as (v & Hv & Hshape).
    destruct (generateScript_validated v Hshape)
      as (_ & _ & _ & _ & script & _ & _ & _ & _ & Hscript & _ & Hsay).
    destruct (generatePermissionScript_validated v Hshape)
      as (_ & _ & _ & _ & pscript & _ & _ & _ & _ & Hpscript & _ & Hpsay).
    destruct (generateStopScript_validated v Hshape)
      as (_ & _ & _ & _ & sscript & _ & _ & _ & _ & Hsscript & _ & Hssay).
    exists v, script, pscript, sscript. by repeat split.
Qed.

Lemma cooldown_gate_disabled (lockfile_exists : bool) (LAST NOW : Z) :
  cooldown_gate_exits lockfile_exists 0 LAST NOW = false.
Proof. unfold cooldown_gate_exits. by rewrite andb_false_r. Qed.

(** C9: a configuration with volume 150 and cooldown -1 is validated and
    rendered, and each of the three scripts holds [VOLUME="1"] (150 clamped
    to 100 and divided by 100) and [COOLDOWN="0"] (-1 clamped to 0); with
    that cooldown the gate of a script never makes it exit. *)
Theorem volume_150_cooldown_minus_1 (m : gmap jsstring JsVal) :
  m !! lit "volume" = Some (JNum 150) ->
  m !! lit "cooldown" = Some (JNum (-1)) ->
  clampNumber (JNum 150) 0 100 70 = Ok 100%float /\
  (100 / 100 = 1)%float /\
  clampNumber (JNum (-1)) 0 30 3 = Ok 0%float /\
  (exists v script permissionScript stopScript,
     validateConfig (JObj m) = Ok v /\
     generateScript v = Ok script /\
     generatePermissionScript v = Ok permissionScript /\
     generateStopScript v = Ok stopScript /\
     occurs_in (config_lines (lit "1") (lit "0")) script /\
     occurs_in (config_lines (lit "1") (lit "0")) permissionScript /\
     occurs_in (config_lines (lit "1") (lit "0")) stopScript) /\
  forall lockfile_exists LAST NOW,
    cooldown_gate_exits lockfile_exists 0 LAST NOW = false.
Proof.
  intros Hvol Hcd.
  split; [reflexivity|]. split; [reflexivity|]. split; [reflexivity|].
  split; [|apply cooldown_gate_disabled].
  destruct (validateConfig_object_form (JObj m))
    as (e & vo & co & vn & Hv & _ & Hvo & Hco & He & _ & _ & Hvn); [done..|].
  unfold typed_or_default in Hvo, Hco. simpl in Hvo, Hco.
  rewrite Hvol in Hvo. rewrite Hcd in Hco. simpl in Hvo, Hco.
  injection Hvo as <-. injection Hco as <-.
  assert (Hshape : config_shape setting_typed
            (obj [(lit "enabled", e); (lit "volume", JNum 150);
                  (lit "cooldown", JNum (-1)); (lit "notifications", JObj vn)])).
  { repeat split.
    - by exists e.
    - by eexists.
    - by eexists.
    - by exists (JObj vn). }
  eexists. 
  destruct (generateScript_validated _ Hshape)
    as (x1 & y1 & vol1 & cd1 & script & [= <-] & [= <-] & [= <-] & [= <-]
        & Hscript & Hlines1 & _).
  destruct (generatePermissionScript_validated _ Hshape)
    as (x2 & y2 & vol2 & cd2 & pscript & [= <-] & [= <-] & [= <-] & [= <-]
        & Hpscript & Hlines2 & _).
  destruct (generateStopScript_validated _ Hshape)
    as (x3 & y3 & vol3 & cd3 & sscript & [= <-] & [= <-] & [= <-] & [= <-]
        & Hsscript & Hlines3 & _).
  exists script, pscript, sscript. by repeat split.
Qed.

End ScriptClaims.

(** C9 applies: the configuration [{ volume: 150, cooldown: -1 }]. *)
Lemma volume_150_cooldown_minus_1_witness :
  clampNumber (H := example_builtins) (JNum 150) 0 100 70 = Ok 100%float /\
  (100 / 100 = 1)%float /\
  clampNumber (H := example_builtins) (JNum (-1)) 0 30 3 = Ok 0%float /\
  (exists v script permissionScript stopScript,
     validateConfig
       (JObj (<[lit "volume" := JNum 150]> {[lit "cooldown" := JNum (-1)]})) = Ok v /\
     generateScript (H := example_builtins) v = Ok script /\
     generatePermissionScript (H := example_builtins) v = Ok permissionScript /\
     generateStopScript (H := example_builtins) v = Ok stopScript /\
     occurs_in (config_lines (lit "1") (lit "0")) script /\
     occurs_in (config_lines (lit "1") (lit "0")) permissionScript /\
     occurs_in (config_lines (lit "1") (lit "0")) stopScript) /\
  forall lockfile_exists LAST NOW,
    cooldown_gate_exits lockfile_exists 0 LAST NOW = false.
Proof.
  apply (@volume_150_cooldown_minus_1 example_builtins
           (<[lit "volume" := JNum 150]> {[lit "cooldown" := JNum (-1)]}));
    reflexivity.
Defined.

(** ** JSON values *)

Lemma toJSON_None (v : JsVal) : toJSON v = None -> v = JUndefined.
Proof.
  destruct v; simpl; try done.
  by destruct (PrimFloat.is_nan x || PrimFloat.is_infinity x)%bool,
              (PrimFloat.is_zero x).
Qed.

Lemma json_exact_obj (m : gmap jsstring JsVal) :
  json_exact (JObj m) <-> forall k v, m !! k = Some v -> json_exact v.
Proof.
  unfold json_exact. cbn [toJSON]. split.
  - intros [= Heq] k v Hk.
    assert (Hl : omap toJSON m !! k = m !! k) by by rewrite Heq.
    rewrite (lookup_omap toJSON m k), Hk in Hl. exact Hl.
  - intros Hall. do 2 f_equal. apply map_eq. intros k.
    rewrite (lookup_omap toJSON m k).
    destruct (m !! k) as [v|] eqn:Hk; [|done].
    simpl. by apply (Hall k).
Qed.

Lemma json_exact_arr (l : list JsVal) :
  json_exact (JArr l) <-> Forall json_exact l.
Proof.
  unfold json_exact. cbn [toJSON]. split.
  - intros [= Heq]. induction l as [|x l IH]; [constructor|].
    simpl in Heq. injection Heq as Hx Hl. constructor; [|by apply IH].
    destruct (toJSON x) as [y|] eqn:Hy; simpl in Hx; [by subst|].
    apply toJSON_None in Hy. by subst.
  - intros Hall. do 2 f_equal. induction Hall as [|x l Hx _ IH]; [done|].
    simpl. by rewrite Hx, IH.
Qed.

Lemma json_exact_str (s : jsstring) : json_exact (JStr s).
Proof. reflexivity. Qed.

Lemma json_exact_field (d : JsVal) (k : jsstring) (v : JsVal) :
  json_exact d -> field d k = Some v -> json_exact v.
Proof.
  destruct d; simpl; try discriminate. intros Hd Hk.
  by eapply json_exact_obj.
Qed.

Lemma json_exact_insert (m : gmap jsstring JsVal) (k : jsstring) (v : JsVal) :
  json_exact (JObj m) -> json_exact v -> json_exact (JObj (<[k := v]> m)).
Proof.
  rewrite !json_exact_obj. intros Hm Hv k' v'.
  rewrite lookup_insert. case_decide; [by intros [= <-]|]. apply Hm.
Qed.

Lemma json_exact_delete (m : gmap jsstring JsVal) (k : jsstring) :
  json_exact (JObj m) -> json_exact (JObj (delete k m)).
Proof.
  rewrite !json_exact_obj. intros Hm k' v'.
  rewrite lookup_delete. case_decide; [done|]. apply Hm.
Qed.

Lemma json_exact_empty : json_exact (JObj ∅).
Proof. apply json_exact_obj. intros k v. by rewrite lookup_empty. Qed.

Lemma json_exact_hookMatcher (matcher command : jsstring) :
  json_exact (hookMatcher matcher command).
Proof.
  change (json_exact
    (JObj (<[lit "matcher" := JStr matcher]>
      (<[lit "hooks" :=
           JArr [JObj (<[lit "type" := JStr (lit "command")]>
                   (<[lit "command" := JStr command]> ∅))]]> ∅)))).
  apply json_exact_insert; [|apply json_exact_str].
  apply json_exact_insert; [apply json_exact_empty|].
  apply json_exact_arr. constructor; [|constructor].
  apply json_exact_insert; [|apply json_exact_str].
  apply json_exact_insert; [apply json_exact_empty | apply json_exact_str].
Qed.

(** ** The settings document under [install] and [remove] *)

Lemma filter_notM_spec (path : jsstring) (l l' : list JsVal) :
  filter_notM (isOurHook path) l = Ok l' ->
  l' = without_owned path l /\ Forall (fun h => exists b, isOurHook path h = Ok b) l.
Proof.
  revert l'. induction l as [|x l IH]; intros l'; simpl.
  - intros [= <-]. by split.
  - unfold without_owned, owned in *. simpl.
    destruct (isOurHook path x) as [b|] eqn:Hx; [|done]. simpl.
    destruct (filter_notM (isOurHook path) l) as [rest|]; [|done]. simpl.
    intros [= <-]. destruct (IH rest eq_refl) as [-> Hall].
    split; [by destruct b | constructor; eauto].
Qed.

Lemma filter_notM_total (path : jsstring) (l : list JsVal) :
  Forall (fun h => exists b, isOurHook path h = Ok b) l ->
  filter_notM (isOurHook path) l = Ok (without_owned path l).
Proof.
  induction 1 as [|x l [b Hx] _ IH]; [done|].
  simpl. rewrite Hx, IH. simpl. unfold without_owned, owned. simpl.
  rewrite Hx. by destruct b.
Qed.

Lemma without_owned_third_party (self : HookService) (K path : jsstring)
    (hook h : JsVal) (l : list JsVal) :
  In (K, path, hook) (our_events self) ->
  In h l -> third_party self h -> In h (without_owned path l).
Proof.
  intros Hev Hin (HN & HS & HP). apply filter_In. split; [done|].
  unfold owned. simpl in Hev.
  destruct Hev as [[= <- <- <-] | [[= <- <- <-] | [[= <- <- <-] | []]]].
  - unfold isOurNotificationHook in HN. by rewrite HN.
  - unfold isOurStopHook in HS. by rewrite HS.
  - unfold isOurPermissionHook in HP. by rewrite HP.
Qed.

Lemma without_owned_idemp (path : jsstring) (l : list JsVal) :
  without_owned path (without_owned path l) = without_owned path l.
Proof.
  unfold without_owned. induction l as [|x l IH]; [done|]. simpl.
  destruct (negb (owned path x)) eqn:Hx; [|done]. simpl. by rewrite Hx, IH.
Qed.

Lemma count_owned_without (path : jsstring) (l : list JsVal) :
  count_owned path (without_owned path l) = 0%nat.
Proof.
  unfold count_owned, without_owned. induction l as [|x l IH]; [done|]. simpl.
  destruct (owned path x) eqn:Hx; simpl; [done|]. by rewrite Hx.
Qed.

Lemma isOurHook_hookMatcher (matcher path : jsstring) :
  isOurHook path (hookMatcher matcher path) = Ok true.
Proof.
  unfold isOurHook, hookMatcher.
  replace (get (obj [(lit "matcher", JStr matcher);
                     (lit "hooks", JArr [obj [(lit "type", JStr (lit "command"));
                                              (lit "command", JStr path)]])])
               (lit "hooks"))
    with (Ok (JArr [obj [(lit "type", JStr (lit "command"));
                         (lit "command", JStr path)]])) by reflexivity.
  cbn [mbind Result_bind someM].
  replace (get (obj [(lit "type", JStr (lit "command"));
                     (lit "command", JStr path)]) (lit "command"))
    with (Ok (JStr path)) by reflexivity.
  cbn [mbind Result_bind]. by rewrite is_string_refl.
Qed.

Lemma count_owned_app (path : jsstring) (l1 l2 : list JsVal) :
  count_owned path (l1 ++ l2) = (count_owned path l1 + count_owned path l2)%nat.
Proof. unfold count_owned. by rewrite List.filter_app, length_app. Qed.

(** One filtering step of [install]: the other events are as they were; a
    list loses the matchers owned for [path]; a falsy value stays. *)
Lemma install_filter_spec (path K : jsstring) (hooks hooks' : gmap jsstring JsVal) :
  install_filter (isOurHook path) K hooks = Ok hooks' ->
  (forall k, k <> K -> hooks' !! k = hooks !! k) /\
  ((truthy (default JUndefined (hooks !! K)) = false /\ hooks' = hooks) \/
   (exists l, hooks !! K = Some (JArr l) /\
              Forall (fun h => exists b, isOurHook path h = Ok b) l /\
              hooks' !! K = Some (JArr (without_owned path l)))).
Proof.
  unfold install_filter.
  destruct (truthy (default JUndefined (hooks !! K))) eqn:Htruthy.
  - destruct (hooks !! K) as [v|] eqn:Hv; [|done]. simpl in Htruthy |- *.
    destruct v; try done. simpl.
    destruct (filter_notM (isOurHook path) l) as [l'|] eqn:Hf; [|done].
    simpl. intros [= <-]. apply filter_notM_spec in Hf as [-> Hall].
    split; [intros k Hk; by rewrite lookup_insert_ne|].
    right. exists l. by rewrite lookup_insert_eq.
  - intros [= <-]. split; [done|]. by left.
Qed.

(** The pushing step of [install]: the other events are as they were, and
    the list, or an empty one in place of a falsy value, gets the matcher at
    its end. *)
Lemma install_push_spec (K : jsstring) (hook : JsVal)
    (hooks hooks' : gmap jsstring JsVal) :
  install_push K hook hooks = Ok hooks' ->
  (forall k, k <> K -> hooks' !! k = hooks !! k) /\
  exists l, js_or (default JUndefined (hooks !! K)) (JArr []) = JArr l /\
            hooks' !! K = Some (JArr (l ++ [hook])).
Proof.
  unfold install_push.
  destruct (js_or (default JUndefined (hooks !! K)) (JArr [])) eqn:Hor; try done.
  intros [= <-]. split; [intros k Hk; by rewrite lookup_insert_ne|].
  exists l. by rewrite lookup_insert_eq.
Qed.

Lemma event_after_push (path K : jsstring) (hook : JsVal)
    (h0 h1 h3 h4 : gmap jsstring JsVal) :
  install_filter (isOurHook path) K h0 = Ok h1 ->
  h3 !! K = h1 !! K ->
  install_push K hook h3 = Ok h4 ->
  h4 !! K = Some (JArr (list_before_push path (h0 !! K) ++ [hook])) /\
  forall l, h0 !! K = Some (JArr l) ->
            Forall (fun h => exists b, isOurHook path h = Ok b) l.
Proof.
  intros Hf H31 Hp.
  apply install_filter_spec in Hf as [_ Hf].
  apply install_push_spec in Hp as [_ (L & HL & ->)].
  rewrite H31 in HL.
  destruct Hf as [[Hfalsy ->] | (l & Hl & Hall & Hl')].
  - unfold js_or in HL. rewrite Hfalsy in HL. injection HL as <-.
    split.
    + destruct (h0 !! K) as [[]|]; try done.
    + intros l Hl. by rewrite Hl in Hfalsy.
  - rewrite Hl' in HL. injection HL as <-. rewrite Hl. split; [done|].
    by intros ? [= <-].
Qed.

Lemma our_event_names_distinct :
  lit "Notification" <> lit "Stop" /\
  lit "Notification" <> lit "PermissionRequest" /\
  lit "Stop" <> lit "PermissionRequest".
Proof. repeat split; discriminate. Qed.

(** The six steps of [install] on the [hooks] object. *)
Lemma install_hooks_spec (self : HookService) (h hf : gmap jsstring JsVal) :
  (h1 ← install_filter (isOurNotificationHook self) (lit "Notification") h;
   h2 ← install_filter (isOurStopHook self) (lit "Stop") h1;
   h3 ← install_filter (isOurPermissionHook self) (lit "PermissionRequest") h2;
   h4 ← install_push (lit "Notification") (notifyHook self) h3;
   h5 ← install_push (lit "PermissionRequest") (permissionHook self) h4;
   install_push (lit "Stop") (stopHook self) h5) = Ok hf ->
  (forall K, ~ In K our_event_names -> hf !! K = h !! K) /\
  forall K path hook, In (K, path, hook) (our_events self) ->
    hf !! K = Some (JArr (list_before_push path (h !! K) ++ [hook])) /\
    forall l, h !! K = Some (JArr l) ->
              Forall (fun x => exists b, isOurHook path x = Ok b) l.
Proof.
  intros Hchain.
  apply bind_Ok in Hchain as (h1 & Hf1 & Hchain).
  apply bind_Ok in Hchain as (h2 & Hf2 & Hchain).
  apply bind_Ok in Hchain as (h3 & Hf3 & Hchain).
  apply bind_Ok in Hchain as (h4 & Hp4 & Hchain).
  apply bind_Ok in Hchain as (h5 & Hp5 & Hp6).
  destruct our_event_names_distinct as (HNS & HNP & HSP).
  pose proof (install_filter_spec _ _ _ _ Hf1) as [A1 _].
  pose proof (install_filter_spec _ _ _ _ Hf2) as [A2 _].
  pose proof (install_filter_spec _ _ _ _ Hf3) as [A3 _].
  pose proof (install_push_spec _ _ _ _ Hp4) as [A4 _].
  pose proof (install_push_spec _ _ _ _ Hp5) as [A5 _].
  pose proof (install_push_spec _ _ _ _ Hp6) as [A6 _].
  split.
  - intros K HK.
    rewrite A6, A5, A4, A3, A2, A1
      by (intros ->; apply HK; unfold our_event_names; simpl; tauto).
    done.
  - intros K path hook Hin. simpl in Hin.
    destruct Hin as [[= <- <- <-] | [[= <- <- <-] | [[= <- <- <-] | []]]].
    + rewrite A6, A5 by done.
      apply (event_after_push _ _ _ h h1 h3 h4); [done| |done].
      by rewrite A3, A2.
    + rewrite <- (A1 (lit "Stop")) by done.
      apply (event_after_push _ _ _ h1 h2 h5 hf); [done| |done].
      by rewrite A5, A4, A3.
    + rewrite A6 by done.
      rewrite <- (A1 (lit "PermissionRequest")),
              <- (A2 (lit "PermissionRequest")) by done.
      apply (event_after_push _ _ _ h2 h3 h4 h5); [done| |done].
      by rewrite A4.
Qed.

(** ** What [JSON.stringify] writes *)

Lemma field_toJSON (v v' : JsVal) (k : jsstring) :
  toJSON v = Some v' -> field v' k = field v k ≫= toJSON.
Proof.
  destruct v; cbn [toJSON]; try (by intros [= <-]).
  - repeat case_match; by intros [= <-].
  - intros [= <-]. cbn [field]. apply lookup_omap.
Qed.

Lemma hook_event_toJSON (d d' : JsVal) (K : jsstring) :
  toJSON d = Some d' -> hook_event d' K = hook_event d K ≫= toJSON.
Proof.
  intros Hd. unfold hook_event. rewrite (field_toJSON d d' _ Hd).
  destruct (field d (lit "hooks")) as [v|]; cbn [mbind option_bind]; [|done].
  destruct (toJSON v) as [v'|] eqn:Hv; cbn [mbind option_bind].
  - by apply field_toJSON.
  - apply toJSON_None in Hv. by subst.
Qed.

Lemma toJSON_arr (l : list JsVal) :
  toJSON (JArr l) = Some (JArr (List.map as_written l)).
Proof. reflexivity. Qed.

Lemma jsize_lookup (m : gmap jsstring JsVal) (k : jsstring) (v : JsVal) :
  m !! k = Some v -> (jsize v < jsize (JObj m))%nat.
Proof.
  intros Hk. cbn [jsize].
  rewrite (map_fold_delete_L _ _ k v m); [lia| |done].
  intros. lia.
Qed.

Lemma jsize_elem (l : list JsVal) (x : JsVal) :
  In x l -> (jsize x < jsize (JArr l))%nat.
Proof.
  cbn [jsize]. induction l as [|y l IH]; [done|].
  intros [-> | Hin]; cbn [foldr]; [lia|]. specialize (IH Hin). lia.
Qed.

Lemma toJSON_num (x : float) :
  exists v, toJSON (JNum x) = Some v /\ json_exact v.
Proof.
  unfold json_exact. cbn [toJSON].
  destruct (PrimFloat.is_nan x || PrimFloat.is_infinity x)%bool eqn:H1;
    [by eexists|].
  destruct (PrimFloat.is_zero x) eqn:H2.
  - eexists. split; [done|]. vm_compute. reflexivity.
  - eexists. split; [done|]. cbn [toJSON]. by rewrite H1, H2.
Qed.

Lemma toJSON_exact_size (n : nat) : forall v v',
  (jsize v < n)%nat -> toJSON v = Some v' -> json_exact v'.
Proof.
  induction n as [|n IH]; [lia|].
  intros v v' Hn Hv. destruct v; cbn [toJSON] in Hv.
  - done.
  - by injection Hv as <-.
  - by injection Hv as <-.
  - destruct (toJSON_num x) as (y & Hy & Hyy).
    cbn [toJSON] in Hy. rewrite Hy in Hv. by injection Hv as <-.
  - by injection Hv as <-.
  - injection Hv as <-. apply json_exact_arr. apply Forall_forall.
    intros y Hy. apply in_map_iff in Hy as (x & <- & Hx).
    destruct (toJSON x) as [x'|] eqn:Hx'; [|done]. cbn [default from_option id].
    apply (IH x x'); [|done]. pose proof (jsize_elem l x Hx). lia.
  - injection Hv as <-. apply json_exact_obj. intros k y Hk.
    rewrite lookup_omap in Hk.
    destruct (m !! k) as [x|] eqn:Hx; [|done]. cbn [mbind option_bind] in Hk.
    apply (IH x y); [|done]. pose proof (jsize_lookup m k x Hx). lia.
Qed.

(** What [JSON.stringify] has written once it writes again as it is. *)
Lemma toJSON_exact (v v' : JsVal) : toJSON v = Some v' -> json_exact v'.
Proof. apply (toJSON_exact_size (S (jsize v))). lia. Qed.

Lemma as_written_exact (v : JsVal) : json_exact v -> as_written v = v.
Proof. unfold as_written. by intros ->. Qed.

(** *** Ownership, on the data and as the code tests it *)

Lemma someM_has_command (path : jsstring) (es : list JsVal) (b : bool) :
  someM (fun hk => command ← get hk (lit "command");
                   Ok (is_string path command)) es = Ok b ->
  existsb (fun e => match field e (lit "command") with
                    | Some (JStr c) => bool_decide (c = path)
                    | _ => false
                    end) es = b.
Proof.
  revert b. induction es as [|e es IH]; intros b; cbn [someM existsb].
  - by intros [= <-].
  - destruct (nullish e) eqn:He.
    + by rewrite (get_nullish e _ He).
    + rewrite (get_field e _ He). cbn [mbind Result_bind].
      assert (Hg : is_string path (default JUndefined (field e (lit "command")))
                   = match field e (lit "command") with
                     | Some (JStr c) => bool_decide (c = path)
                     | _ => false
                     end)
        by (by destruct (field e (lit "command")) as [[]|]).
      rewrite <- Hg.
      destruct (is_string path _); [by intros [= <-]|]. apply IH.
Qed.

(** When the ownership test of the code returns, it returns what the data
    say. *)
Lemma isOurHook_has_command (path : jsstring) (h : JsVal) (b : bool) :
  isOurHook path h = Ok b -> has_command path h = b.
Proof.
  unfold isOurHook, has_command.
  destruct (nullish h) eqn:Hh; [by rewrite (get_nullish h _ Hh)|].
  rewrite (get_field h _ Hh). cbn [mbind Result_bind].
  destruct (field h (lit "hooks")) as [v|]; cbn [default from_option id];
    [|by intros [= <-]].
  destruct v; try done; try by intros [= <-].
  apply someM_has_command.
Qed.

Lemma owned_has_command (path : jsstring) (h : JsVal) :
  (exists b, isOurHook path h = Ok b) -> owned path h = has_command path h.
Proof.
  intros [b Hb]. unfold owned. rewrite Hb.
  rewrite (isOurHook_has_command path h b Hb). by destruct b.
Qed.

Lemma without_owned_command (path : jsstring) (l : list JsVal) :
  Forall (fun h => exists b, isOurHook path h = Ok b) l ->
  without_owned path l = without_command path l.
Proof.
  unfold without_owned, without_command.
  induction 1 as [|h l Hh _ IH]; [done|].
  cbn [List.filter]. by rewrite IH, (owned_has_command path h Hh).
Qed.

Lemma count_owned_command (path : jsstring) (l : list JsVal) :
  Forall (fun h => exists b, isOurHook path h = Ok b) l ->
  count_owned path l = count_command path l.
Proof.
  unfold count_owned, count_command.
  induction 1 as [|h l Hh _ IH]; [done|].
  cbn [List.filter]. rewrite (owned_has_command path h Hh).
  destruct (has_command path h); cbn [length]; by rewrite IH.
Qed.

(** Writing a matcher does not change what commands it has. *)
Lemma has_command_as_written (path : jsstring) (h : JsVal) :
  has_command path (as_written h) = has_command path h.
Proof.
  assert (He : forall e,
    match field (as_written e) (lit "command") with
    | Some (JStr c) => bool_decide (c = path)
    | _ => false
    end = match field e (lit "command") with
          | Some (JStr c) => bool_decide (c = path)
          | _ => false
          end).
  { intros e. unfold as_written.
    destruct (toJSON e) as [e'|] eqn:Hj.
    - cbn [default from_option id]. rewrite (field_toJSON e e' _ Hj).
      destruct (field e (lit "command")) as [[]|]; cbn [mbind option_bind toJSON];
        try done.
      by repeat case_match.
    - apply toJSON_None in Hj. by subst. }
  unfold has_command, as_written at 1.
  destruct (toJSON h) as [h'|] eqn:Hj.
  - cbn [default from_option id]. rewrite (field_toJSON h h' _ Hj).
    destruct (field h (lit "hooks")) as [[]|]; cbn [mbind option_bind toJSON];
      try done.
    + by repeat case_match.
    + induction l as [|e es IH]; [done|].
      cbn [List.map existsb]. fold (as_written e). by rewrite He, IH.
  - apply toJSON_None in Hj. by subst.
Qed.

Lemma without_command_as_written (path : jsstring) (l : list JsVal) :
  without_command path (List.map as_written l)
  = List.map as_written (without_command path l).
Proof.
  unfold without_command. induction l as [|h l IH]; [done|].
  cbn [List.map List.filter]. rewrite has_command_as_written, IH.
  by destruct (has_command path h).
Qed.

Lemma count_command_as_written (path : jsstring) (l : list JsVal) :
  count_command path (List.map as_written l) = count_command path l.
Proof.
  unfold count_command. induction l as [|h l IH]; [done|].
  cbn [List.map List.filter]. rewrite has_command_as_written.
  destruct (has_command path h); cbn [length]; by rewrite IH.
Qed.

Lemma has_command_hookMatcher (matcher path : jsstring) :
  has_command path (hookMatcher matcher path) = true.
Proof.
  apply (isOurHook_has_command path _ true), isOurHook_hookMatcher.
Qed.

(** *** [install_settings] and [remove_settings] on a document *)

(** The [hooks] object [install] works on gives the events of the
    document. *)
Lemma hook_event_js_or (m h : gmap jsstring JsVal) (K : jsstring) :
  js_or (default JUndefined (m !! lit "hooks")) (JObj ∅) = JObj h ->
  hook_event (JObj m) K = h !! K.
Proof.
  unfold hook_event, js_or. cbn [field].
  destruct (m !! lit "hooks") as [v|]; simpl.
  - destruct (truthy v) eqn:Hv.
    + by intros ->.
    + intros [= <-]. rewrite lookup_empty. by destruct v.
  - intros [= <-]. by rewrite lookup_empty.
Qed.

Lemma json_exact_js_or_hooks (m h : gmap jsstring JsVal) :
  json_exact (JObj m) ->
  js_or (default JUndefined (m !! lit "hooks")) (JObj ∅) = JObj h ->
  json_exact (JObj h).
Proof.
  intros Hm. unfold js_or.
  destruct (m !! lit "hooks") as [v|] eqn:Hv; simpl.
  - destruct (truthy v).
    + intros ->. by apply (json_exact_field (JObj m) (lit "hooks")).
    + intros [= <-]. apply json_exact_empty.
  - intros [= <-]. apply json_exact_empty.
Qed.

Lemma json_exact_without_owned (path : jsstring) (l : list JsVal) :
  Forall json_exact l -> Forall json_exact (without_owned path l).
Proof.
  intros Hall. apply Forall_forall. intros x Hx.
  apply filter_In in Hx as [Hx _]. rewrite Forall_forall in Hall. by apply Hall.
Qed.

Lemma json_exact_list_before_push (path : jsstring) (o : option JsVal) :
  (forall v, o = Some v -> json_exact v) ->
  Forall json_exact (list_before_push path o).
Proof.
  intros Ho. destruct o as [[]|]; try by constructor.
  simpl. apply json_exact_without_owned, json_exact_arr. by apply Ho.
Qed.

Lemma our_event_names_dec (K : jsstring) :
  In K our_event_names \/ ~ In K our_event_names.
Proof.
  unfold our_event_names.
  destruct (decide (K = lit "Notification")) as [->|]; [left; simpl; tauto|].
  destruct (decide (K = lit "Stop")) as [->|]; [left; simpl; tauto|].
  destruct (decide (K = lit "PermissionRequest")) as [->|]; [left; simpl; tauto|].
  right. simpl. intros [<- | [<- | [<- | []]]]; done.
Qed.

Lemma our_events_hook (self : HookService) (K path : jsstring) (hook : JsVal) :
  In (K, path, hook) (our_events self) ->
  exists matcher, hook = hookMatcher matcher path.
Proof.
  unfold our_events. cbn [In].
  intros [[= <- <- <-] | [[= <- <- <-] | [[= <- <- <-] | []]]]; by eexists.
Qed.

Lemma our_events_names (self : HookService) (K : jsstring) :
  In K our_event_names ->
  exists path hook, In (K, path, hook) (our_events self) /\
                    exists matcher, hook = hookMatcher matcher path.
Proof.
  unfold our_event_names, our_events. simpl.
  intros [<- | [<- | [<- | []]]]; eexists _, _; (split; [tauto | by eexists]).
Qed.

(** What [install_settings] makes of a document that is an object whose
    [hooks] is an object or falsy. *)
Lemma install_settings_object (self : HookService) (m h : gmap jsstring JsVal)
    (d' : JsVal) :
  js_or (default JUndefined (m !! lit "hooks")) (JObj ∅) = JObj h ->
  install_settings self (JObj m) = Ok d' ->
  exists hf, d' = JObj (<[lit "hooks" := JObj hf]> m) /\
    (forall K, ~ In K our_event_names -> hf !! K = h !! K) /\
    forall K path hook, In (K, path, hook) (our_events self) ->
      hf !! K = Some (JArr (list_before_push path (h !! K) ++ [hook])) /\
      forall l, h !! K = Some (JArr l) ->
                Forall (fun x => exists b, isOurHook path x = Ok b) l.
Proof.
  intros Hh. unfold install_settings. cbn [get mbind Result_bind]. rewrite Hh.
  intros Hchain.
  match type of Hchain with
  | ?c = Ok d' =>
      destruct c as [x|] eqn:Hc; [|done]
  end.
  apply bind_Ok in Hc as (h1 & Hf1 & Hc).
  apply bind_Ok in Hc as (h2 & Hf2 & Hc).
  apply bind_Ok in Hc as (h3 & Hf3 & Hc).
  apply bind_Ok in Hc as (h4 & Hp4 & Hc).
  apply bind_Ok in Hc as (h5 & Hp5 & Hc).
  apply bind_Ok in Hc as (h6 & Hp6 & Hc).
  injection Hc as <-. injection Hchain as <-.
  exists h6. split; [done|].
  apply install_hooks_spec.
  rewrite Hf1. cbn [mbind Result_bind]. rewrite Hf2. cbn [mbind Result_bind].
  rewrite Hf3. cbn [mbind Result_bind]. rewrite Hp4. cbn [mbind Result_bind].
  rewrite Hp5. cbn [mbind Result_bind]. exact Hp6.
Qed.

(** The shapes of a document on which [install_settings] returns. *)
Lemma install_settings_cases (self : HookService) (d d' : JsVal) :
  install_settings self d = Ok d' ->
  (exists m h, d = JObj m /\
     js_or (default JUndefined (m !! lit "hooks")) (JObj ∅) = JObj h) \/
  (d' = d /\ (forall K, hook_event d K = None) /\
   forall h, field d (lit "hooks") <> Some (JObj h)).
Proof.
  unfold install_settings.
  destruct d; try done; cbn [get mbind Result_bind].
  - intros [= <-]. right. by split.
  - destruct (js_or (default JUndefined (m !! lit "hooks")) (JObj ∅)) eqn:Hor;
      try done.
    + intros [= <-]. right. split; [done|].
      unfold js_or in Hor.
      destruct (m !! lit "hooks") as [v|] eqn:Hv; simpl in *; [|done].
      destruct (truthy v); [|done]. subst v. split.
      * intros K. unfold hook_event. cbn [field]. by rewrite Hv.
      * intros h. cbn [field]. by rewrite Hv.
    + intros _. left. by eexists _, _.
Qed.

Lemma install_settings_frame (self : HookService) (d d' : JsVal) :
  install_settings self d = Ok d' -> install_frame self d d'.
Proof.
  intros Hi.
  destruct (install_settings_cases self d d' Hi)
    as [(m & h & -> & Hh) | (-> & Hnone & _)].
  - destruct (install_settings_object self m h d' Hh Hi) as (hf & -> & Hother & Hours).
    assert (Hev : forall K, hook_event (JObj (<[lit "hooks" := JObj hf]> m)) K
                            = hf !! K).
    { intros K. unfold hook_event. cbn [field]. by rewrite lookup_insert_eq. }
    split; [|split].
    + intros k Hk. cbn [field]. by rewrite lookup_insert_ne.
    + intros K HK. rewrite Hev, (hook_event_js_or m h K Hh). by apply Hother.
    + intros K path hook l Hin Hl.
      rewrite (hook_event_js_or m h K Hh) in Hl.
      destruct (Hours K path hook Hin) as [Hf _]. rewrite Hev, Hf, Hl.
      split; [done|]. intros x Hx Hthird.
      by apply (without_owned_third_party self K path hook).
  - split; [done|]. split; [done|].
    intros K path hook l _ Hl. by rewrite Hnone in Hl.
Qed.

Lemma install_settings_exact (self : HookService) (d d' : JsVal) :
  json_exact d -> install_settings self d = Ok d' -> json_exact d'.
Proof.
  intros Hd Hi.
  destruct (install_settings_cases self d d' Hi)
    as [(m & h & -> & Hh) | (-> & _)]; [|done].
  destruct (install_settings_object self m h d' Hh Hi) as (hf & -> & Hother & Hours).
  pose proof (json_exact_js_or_hooks m h Hd Hh) as Hhx.
  apply json_exact_insert; [done|].
  apply json_exact_obj. intros K v HK.
  destruct (our_event_names_dec K) as [Hin | Hout].
  - destruct (our_events_names self K Hin) as (path & hook & Hev & matcher & ->).
    destruct (Hours K path _ Hev) as [Hf _]. rewrite Hf in HK.
    injection HK as <-. apply json_exact_arr, Forall_app. split.
    + apply json_exact_list_before_push. intros v Hv.
      by apply (json_exact_field (JObj h) K).
    + constructor; [apply json_exact_hookMatcher | constructor].
  - rewrite (Hother K Hout) in HK. by apply (json_exact_field (JObj h) K).
Qed.

(** After [install_settings], each of the three events holds exactly one
    matcher of this system. *)
Lemma install_settings_one_owned (self : HookService) (m h : gmap jsstring JsVal)
    (d' : JsVal) (K path : jsstring) (hook : JsVal) :
  js_or (default JUndefined (m !! lit "hooks")) (JObj ∅) = JObj h ->
  install_settings self (JObj m) = Ok d' ->
  In (K, path, hook) (our_events self) ->
  exists l, hook_event d' K = Some (JArr l) /\ count_owned path l = 1%nat.
Proof.
  intros Hh Hi Hin.
  destruct (install_settings_object self m h d' Hh Hi) as (hf & -> & _ & Hours).
  destruct (Hours K path hook Hin) as [Hf _].
  eexists. split.
  - unfold hook_event. cbn [field]. rewrite lookup_insert_eq. exact Hf.
  - rewrite count_owned_app.
    assert (Hone : count_owned path [hook] = 1%nat).
    { destruct (our_events_hook self K path hook Hin) as (matcher & ->).
      unfold count_owned, owned. cbn [List.filter].
      by rewrite isOurHook_hookMatcher. }
    rewrite Hone.
    destruct (h !! K) as [[]|]; simpl; try done.
    by rewrite count_owned_without.
Qed.

(** What an event holds after the filtering step of [remove], given what it
    held before. *)
Lemma remove_filter_spec (path K : jsstring) (hooks hooks' : gmap jsstring JsVal) :
  remove_filter (isOurHook path) K hooks = Ok hooks' ->
  (forall k, k <> K -> hooks' !! k = hooks !! k) /\
  ((truthy (default JUndefined (hooks !! K)) = false /\ hooks' = hooks) \/
   (exists l, hooks !! K = Some (JArr l) /\
              Forall (fun h => exists b, isOurHook path h = Ok b) l /\
              hooks' !! K = match without_owned path l with
                            | [] => None
                            | l' => Some (JArr l')
                            end)).
Proof.
  unfold remove_filter.
  destruct (truthy (default JUndefined (hooks !! K))) eqn:Htruthy.
  - destruct (hooks !! K) as [v|] eqn:Hv; [|done]. simpl in Htruthy |- *.
    destruct v; try done. simpl.
    destruct (filter_notM (isOurHook path) l) as [l'|] eqn:Hf; [|done].
    simpl. intros [= <-]. apply filter_notM_spec in Hf as [-> Hall].
    split.
    + intros k Hk. destruct (without_owned path l);
        [by rewrite lookup_delete_ne | by rewrite lookup_insert_ne].
    + right. exists l. split; [done|]. split; [done|].
      destruct (without_owned path l);
        [by rewrite lookup_delete_eq | by rewrite lookup_insert_eq].
  - intros [= <-]. split; [done|]. by left.
Qed.

Lemma remove_filter_total (path K : jsstring) (hooks : gmap jsstring JsVal) :
  (truthy (default JUndefined (hooks !! K)) = false \/
   exists l, hooks !! K = Some (JArr l) /\
             Forall (fun h => exists b, isOurHook path h = Ok b) l) ->
  exists hooks', remove_filter (isOurHook path) K hooks = Ok hooks'.
Proof.
  unfold remove_filter. intros [-> | (l & Hl & Hall)]; [by eexists|].
  rewrite Hl. simpl.
  rewrite (filter_notM_total path l Hall). by eexists.
Qed.

Lemma remove_filter_after (path K : jsstring) (hooks hooks' : gmap jsstring JsVal) :
  remove_filter (isOurHook path) K hooks = Ok hooks' ->
  hooks' !! K = after_remove path (hooks !! K).
Proof.
  intros Hf. apply remove_filter_spec in Hf as [_ [[Hfalsy ->] | (l & Hl & _ & ->)]].
  - destruct (hooks !! K) as [[]|]; try done.
  - by rewrite Hl.
Qed.

(** The three steps of [remove] on the [hooks] object. *)
Lemma remove_hooks_spec (self : HookService) (h hf : gmap jsstring JsVal) :
  (h1 ← remove_filter (isOurNotificationHook self) (lit "Notification") h;
   h2 ← remove_filter (isOurStopHook self) (lit "Stop") h1;
   remove_filter (isOurPermissionHook self) (lit "PermissionRequest") h2) = Ok hf ->
  (forall K, ~ In K our_event_names -> hf !! K = h !! K) /\
  forall K path hook, In (K, path, hook) (our_events self) ->
    hf !! K = after_remove path (h !! K).
Proof.
  intros Hchain.
  apply bind_Ok in Hchain as (h1 & Hf1 & Hchain).
  apply bind_Ok in Hchain as (h2 & Hf2 & Hf3).
  destruct our_event_names_distinct as (HNS & HNP & HSP).
  pose proof (remove_filter_spec _ _ _ _ Hf1) as [A1 _].
  pose proof (remove_filter_spec _ _ _ _ Hf2) as [A2 _].
  pose proof (remove_filter_spec _ _ _ _ Hf3) as [A3 _].
  split.
  - intros K HK.
    rewrite A3, A2, A1
      by (intros ->; apply HK; unfold our_event_names; simpl; tauto).
    done.
  - intros K path hook Hin. simpl in Hin.
    destruct Hin as [[= <- <- <-] | [[= <- <- <-] | [[= <- <- <-] | []]]].
    + rewrite A3, A2 by done. by apply remove_filter_after.
    + rewrite A3 by done. rewrite <- (A1 (lit "Stop")) by done.
      by apply remove_filter_after.
    + rewrite <- (A1 (lit "PermissionRequest")),
              <- (A2 (lit "PermissionRequest")) by done.
      by apply remove_filter_after.
Qed.

(** The shapes of a document on which [remove_settings] returns. *)
Lemma remove_settings_cases (self : HookService) (d d' : JsVal) :
  remove_settings self d = Ok d' ->
  (exists m h hf, d = JObj m /\ m !! lit "hooks" = Some (JObj h) /\
     (h1 ← remove_filter (isOurNotificationHook self) (lit "Notification") h;
      h2 ← remove_filter (isOurStopHook self) (lit "Stop") h1;
      remove_filter (isOurPermissionHook self) (lit "PermissionRequest") h2)
       = Ok hf /\
     d' = JObj (if decide (size hf = 0%nat)
                then delete (lit "hooks") m
                else <[lit "hooks" := JObj hf]> m)) \/
  ((forall K, hook_event d K = None) /\
   (forall h, field d (lit "hooks") <> Some (JObj h)) /\
   (d' = d \/ exists m, d = JObj m /\ d' = JObj (delete (lit "hooks") m))).
Proof.
  unfold remove_settings.
  destruct d; try done; cbn [get mbind Result_bind];
    try (intros [= <-]; right; by split; [|split; [|left]]).
  destruct (m !! lit "hooks") as [v|] eqn:Hv; cbn [default from_option id].
  2: { cbn [truthy andb]. intros [= <-]. right.
       split; [|split; [cbn [field]; by rewrite Hv | by left]].
       intros K. unfold hook_event. cbn [field]. by rewrite Hv. }
  assert (Hnone : forall K, (forall h, v <> JObj h) -> hook_event (JObj m) K = None).
  { intros K Hv'. unfold hook_event. cbn [field]. rewrite Hv. simpl.
    destruct v; try done. by destruct (Hv' m0). }
  destruct v; cbn beta iota;
    try (intros [= <-]; right; split; [intros K; by apply Hnone|];
         split; [cbn [field]; by rewrite Hv|];
         first [ by left
               | match goal with
                 | |- context [if ?c then _ else _] =>
                     destruct c; [right; by eexists | by left]
                 end ]).
  clear Hnone. intros Hchain.
  apply bind_Ok in Hchain as (h1 & Hf1 & Hchain).
  apply bind_Ok in Hchain as (h2 & Hf2 & Hchain).
  apply bind_Ok in Hchain as (h3 & Hf3 & Hchain).
  injection Hchain as <-.
  left. exists m, m0, h3. split; [done|]. split; [done|]. split; [|done].
  rewrite Hf1. cbn [mbind Result_bind]. rewrite Hf2. cbn [mbind Result_bind].
  exact Hf3.
Qed.

Lemma remove_settings_frame (self : HookService) (d d' : JsVal) :
  remove_settings self d = Ok d' -> remove_frame self d d'.
Proof.
  intros Hr.
  destruct (remove_settings_cases self d d' Hr)
    as [(m & h & hf & -> & Hh & Hchain & ->) | (Hnone & _ & Hd')].
  - destruct (remove_hooks_spec self h hf Hchain) as [Hother Hours].
    assert (Hev : forall K, hook_event (JObj m) K = h !! K).
    { intros K. unfold hook_event. cbn [field]. by rewrite Hh. }
    assert (Hev' : forall K,
      hook_event (JObj (if decide (size hf = 0%nat)
                        then delete (lit "hooks") m
                        else <[lit "hooks" := JObj hf]> m)) K = hf !! K).
    { intros K. unfold hook_event. cbn [field]. case_decide as Hsize.
      - rewrite lookup_delete_eq. apply map_size_empty_iff in Hsize.
        by rewrite Hsize, lookup_empty.
      - by rewrite lookup_insert_eq. }
    split; [|split].
    + intros k Hk. cbn [field]. case_decide;
        [by rewrite lookup_delete_ne | by rewrite lookup_insert_ne].
    + intros K HK. rewrite Hev, Hev'. by apply Hother.
    + intros K path hook l Hin Hl. rewrite Hev in Hl.
      rewrite Hev', (Hours K path hook Hin), Hl. split; [done|].
      intros x Hx Hthird.
      by apply (without_owned_third_party self K path hook).
  - assert (Hnone' : forall K, hook_event d' K = None).
    { intros K. destruct Hd' as [-> | (m & -> & ->)]; [done|].
      unfold hook_event. cbn [field]. by rewrite lookup_delete_eq. }
    split; [|split].
    + intros k Hk. destruct Hd' as [-> | (m & -> & ->)]; [done|].
      cbn [field]. by rewrite lookup_delete_ne.
    + intros K _. by rewrite Hnone, Hnone'.
    + intros K path hook l _ Hl. by rewrite Hnone in Hl.
Qed.

Lemma json_exact_after_remove (path : jsstring) (o : option JsVal) (v : JsVal) :
  (forall x, o = Some x -> json_exact x) ->
  after_remove path o = Some v -> json_exact v.
Proof.
  intros Ho. destruct o as [x|]; [|done]. simpl.
  assert (Hx : json_exact x) by by apply Ho.
  destruct x; try (by intros [= <-]).
  destruct (without_owned path l) as [|y l'] eqn:Hw; [done|].
  intros [= <-]. rewrite <- Hw.
  by apply json_exact_arr, json_exact_without_owned, json_exact_arr.
Qed.

Lemma remove_settings_exact (self : HookService) (d d' : JsVal) :
  json_exact d -> remove_settings self d = Ok d' -> json_exact d'.
Proof.
  intros Hd Hr.
  destruct (remove_settings_cases self d d' Hr)
    as [(m & h & hf & -> & Hh & Hchain & ->) | (_ & _ & [-> | (m & -> & ->)])];
    [|done|by apply json_exact_delete].
  case_decide; [by apply json_exact_delete|].
  apply json_exact_insert; [done|].
  destruct (remove_hooks_spec self h hf Hchain) as [Hother Hours].
  assert (Hh' : json_exact (JObj h))
    by by apply (json_exact_field (JObj m) (lit "hooks")).
  apply json_exact_obj. intros K v HK.
  destruct (our_event_names_dec K) as [Hin | Hout].
  - destruct (our_events_names self K Hin) as (path & hook & Hev & _).
    rewrite (Hours K path hook Hev) in HK.
    apply (json_exact_after_remove path (h !! K)); [|done].
    intros x Hx. by apply (json_exact_field (JObj h) K).
  - rewrite (Hother K Hout) in HK. by apply (json_exact_field (JObj h) K).
Qed.

(** After [remove_settings] no event of this system holds a matcher of this
    system, no [hooks] object is left empty, and none of the three lists is
    left empty. *)
Lemma remove_settings_none_owned (self : HookService) (d d' : JsVal) :
  remove_settings self d = Ok d' ->
  (forall K path hook l, In (K, path, hook) (our_events self) ->
     hook_event d' K = Some (JArr l) -> count_owned path l = 0%nat /\ l <> []) /\
  (forall hf, field d' (lit "hooks") = Some (JObj hf) -> hf <> ∅).
Proof.
  intros Hr.
  destruct (remove_settings_cases self d d' Hr)
    as [(m & h & hf & -> & Hh & Hchain & ->) | (Hnone & Hnot & Hd')].
  - destruct (remove_hooks_spec self h hf Hchain) as [Hother Hours].
    split.
    + intros K path hook l Hin. unfold hook_event. cbn [field].
      case_decide as Hsize; [by rewrite lookup_delete_eq|].
      rewrite lookup_insert_eq. cbn [mbind option_bind field].
      rewrite (Hours K path hook Hin).
      destruct (h !! K) as [[]|] eqn:HhK; simpl; try done.
      destruct (without_owned path l0) as [|y l'] eqn:Hw; [done|].
      intros [= <-]. rewrite <- Hw. split; [apply count_owned_without|].
      by rewrite Hw.
    + intros hf'. cbn [field]. case_decide as Hsize;
        [by rewrite lookup_delete_eq|].
      rewrite lookup_insert_eq. intros [= <-] ->. apply Hsize.
      by apply map_size_empty_iff.
  - split.
    + intros K path hook l _ Hl.
      destruct Hd' as [-> | (m & -> & ->)]; [by rewrite Hnone in Hl|].
      unfold hook_event in Hl. cbn [field] in Hl.
      by rewrite lookup_delete_eq in Hl.
    + intros hf. destruct Hd' as [-> | (m & -> & ->)].
      * intros Hf. by destruct (Hnot hf).
      * cbn [field]. by rewrite lookup_delete_eq.
Qed.

(** ** The methods on a world *)

Lemma io_bind_ok {A B} (m : IO A) (f : A -> IO B) (w w1 : World) (a : A) :
  m w = Some (Ok a, w1) -> (m ≫= f) w = f a w1.
Proof. intros Hm. unfold mbind, IO_bind, io_bind. by rewrite Hm. Qed.

Lemma io_bind_throw {A B} (m : IO A) (f : A -> IO B) (w w1 : World) (e : Error) :
  m w = Some (Throw e, w1) -> (m ≫= f) w = Some (Throw e, w1).
Proof. intros Hm. unfold mbind, IO_bind, io_bind. by rewrite Hm. Qed.

Lemma io_bind_none {A B} (m : IO A) (f : A -> IO B) (w : World) :
  m w = None -> (m ≫= f) w = None.
Proof. intros Hm. unfold mbind, IO_bind, io_bind. by rewrite Hm. Qed.

Lemma backupExistingScript_ok (w : World) :
  exists w1, backupExistingScript w = Some (Ok tt, w1) /\ same_settings w w1 /\
             notify_sh w1 = notify_sh w.
Proof.
  unfold backupExistingScript. destruct (notify_sh w) as [content|] eqn:Hc.
  - destruct (includes _ content); eexists; (split; [done|]); by repeat split.
  - eexists. split; [done|]. by repeat split.
Qed.

Section World.
Context `{Builtins}.

(** Writing the three scripts always succeeds in this model: every
    configuration validates, and a validated one renders. *)
Lemma writeScripts_ok (config : JsVal) (w : World) :
  exists script stopScript permissionScript,
    writeScripts config w =
      Some (Ok tt, set_permission_notify_sh (Some permissionScript)
                     (set_stop_notify_sh (Some stopScript)
                        (set_notify_sh (Some script) w))) /\
    exists v, validateConfig config = Ok v /\
              generateScript v = Ok script /\
              generateStopScript v = Ok stopScript /\
              generatePermissionScript v = Ok permissionScript.
Proof.
  destruct (validateConfig_typed config) as (v & Hv & Hshape).
  destruct (generateScript_validated v Hshape)
    as (_ & _ & _ & _ & script & _ & _ & _ & _ & Hscript & _).
  destruct (generatePermissionScript_validated v Hshape)
    as (_ & _ & _ & _ & pscript & _ & _ & _ & _ & Hpscript & _).
  destruct (generateStopScript_validated v Hshape)
    as (_ & _ & _ & _ & sscript & _ & _ & _ & _ & Hsscript & _).
  exists script, sscript, pscript. split; [|by exists v].
  unfold writeScripts, mbind, IO_bind, io_bind, io_lift, io_write.
  by rewrite Hv, Hscript, Hsscript, Hpscript.
Qed.

End World.

Lemma acquireSettingsLock_loop_same (fuel : nat) (timeoutMs startTime : Z) :
  forall w r w',
    acquireSettingsLock_loop fuel timeoutMs startTime w = Some (r, w') ->
    settings_json w' = settings_json w /\
    lock_unlinkable w' = lock_unlinkable w /\
    notify_config_json w' = notify_config_json w /\
    notify_sh w' = notify_sh w /\
    stop_notify_sh w' = stop_notify_sh w /\
    permission_notify_sh w' = permission_notify_sh w /\
    (r = Ok tt -> settings_lock w' = Some (now w')) /\
    (forall e, r = Throw e -> e = LockTimeout).
Proof.
  induction fuel as [|fuel IH]; intros w r w'; [done|].
  rewrite acquireSettingsLock_loop_S.
  destruct (settings_lock w) as [mtimeMs|] eqn:Hlock.
  - destruct (now w - mtimeMs >? 30000).
    + destruct (lock_unlinkable w) eqn:Hunlink; intros Hrec;
        apply IH in Hrec;
        cbn [settings_json lock_unlinkable notify_config_json notify_sh
             stop_notify_sh permission_notify_sh set_settings_lock] in Hrec;
        rewrite ?Hunlink in Hrec; exact Hrec.
    + destruct (now w - startTime >? timeoutMs).
      * intros [= <- <-]. repeat split; try done. by intros e [= <-].
      * intros Hrec. by apply IH in Hrec.
  - intros [= <- <-]. repeat split; try done.
Qed.

Lemma acquireSettingsLock_same (fuel : nat) (timeoutMs : Z) (w : World)
    (r : Result unit) (w' : World) :
  acquireSettingsLock fuel timeoutMs w = Some (r, w') ->
  settings_json w' = settings_json w /\
  lock_unlinkable w' = lock_unlinkable w /\
  notify_config_json w' = notify_config_json w /\
  notify_sh w' = notify_sh w /\
  stop_notify_sh w' = stop_notify_sh w /\
  permission_notify_sh w' = permission_notify_sh w /\
  (r = Ok tt -> settings_lock w' = Some (now w')) /\
  (forall e, r = Throw e -> e = LockTimeout).
Proof. apply acquireSettingsLock_loop_same. Qed.

(** The critical section of [install] and of [remove], for the change [T]
    either makes to the document. *)
Lemma critical_section_eq (T : JsVal -> Result JsVal) (w : World) :
  try_finally
    (settings ← loadSettings;
     settings ← io_lift (T settings);
     saveSettings settings)
    releaseSettingsLock w
  = Some
      match settings_json w with
      | Unparseable => (Throw SettingsCorrupted, releaseSettingsLock w)
      | _ =>
          match T (settings_document w) with
          | Throw e => (Throw e, releaseSettingsLock w)
          | Ok d' =>
              match toJSON d' with
              | Some dj =>
                  (Ok tt, releaseSettingsLock (set_settings_json (Json dj) w))
              | None => (Throw SettingsSaveFailed, releaseSettingsLock w)
              end
          end
      end.
Proof.
  unfold try_finally, mbind, IO_bind, io_bind, loadSettings, io_lift,
    saveSettings, settings_document.
  destruct (settings_json w) as [| |d]; [|done|].
  - destruct (T (JObj ∅)) as [d'|e]; [|done]. by destruct (toJSON d').
  - destruct (T d) as [d'|e]; [|done]. by destruct (toJSON d').
Qed.

Lemma releaseSettingsLock_fields (w : World) :
  settings_json (releaseSettingsLock w) = settings_json w /\
  lock_unlinkable (releaseSettingsLock w) = lock_unlinkable w /\
  settings_lock (releaseSettingsLock w)
    = (if lock_unlinkable w then None else settings_lock w) /\
  notify_config_json (releaseSettingsLock w) = notify_config_json w /\
  notify_sh (releaseSettingsLock w) = notify_sh w /\
  stop_notify_sh (releaseSettingsLock w) = stop_notify_sh w /\
  permission_notify_sh (releaseSettingsLock w) = permission_notify_sh w.
Proof.
  unfold releaseSettingsLock.
  destruct (lock_unlinkable w) eqn:Hunlink; cbn; by rewrite ?Hunlink.
Qed.

(** When the critical section resolves, [T] returned and the file holds
    what [JSON.stringify] writes of its result; when it rejects, the file is
    as it was; either way the lock file is removed if it can be, and the
    scripts are not touched. *)
Lemma critical_section_spec (T : JsVal -> Result JsVal) (w : World)
    (r : Result unit) (w' : World) :
  try_finally
    (settings ← loadSettings;
     settings ← io_lift (T settings);
     saveSettings settings)
    releaseSettingsLock w = Some (r, w') ->
  lock_unlinkable w' = lock_unlinkable w /\
  settings_lock w' = (if lock_unlinkable w then None else settings_lock w) /\
  notify_sh w' = notify_sh w /\
  stop_notify_sh w' = stop_notify_sh w /\
  permission_notify_sh w' = permission_notify_sh w /\
  match r with
  | Ok _ => settings_json w <> Unparseable /\
            exists d' dj, T (settings_document w) = Ok d' /\
                          toJSON d' = Some dj /\ settings_json w' = Json dj
  | Throw _ => settings_json w' = settings_json w
  end.
Proof.
  rewrite critical_section_eq. intros [= Heq].
  assert (Hcases :
    (exists e, r = Throw e /\ w' = releaseSettingsLock w) \/
    (r = Ok tt /\ settings_json w <> Unparseable /\
     exists d' dj, T (settings_document w) = Ok d' /\ toJSON d' = Some dj /\
                   w' = releaseSettingsLock (set_settings_json (Json dj) w))).
  { destruct (settings_json w) eqn:Hjson;
      (destruct (T (settings_document w)) as [d'|e] eqn:HT;
       [destruct (toJSON d') as [dj|] eqn:Hdj|]);
      injection Heq as <- <-; try (left; by eexists);
      right; (split; [done|]); (split; [done|]); by exists d', dj. }
  destruct (releaseSettingsLock_fields w) as (R1 & R2 & R3 & R4 & R5 & R6 & R7).
  destruct Hcases as [(e & -> & ->) | (-> & Hjson & d' & dj & HT & Hdj & ->)].
  - by repeat split.
  - destruct (releaseSettingsLock_fields (set_settings_json (Json dj) w))
      as (S1 & S2 & S3 & S4 & S5 & S6 & S7).
    repeat split; try done. exists d', dj. by rewrite S1.
Qed.

(** The critical section resolves whenever the document can be read and [T]
    returns something [JSON.stringify] can write. *)
Lemma critical_section_ok (T : JsVal -> Result JsVal) (w : World) (d' dj : JsVal) :
  settings_json w <> Unparseable ->
  T (settings_document w) = Ok d' ->
  toJSON d' = Some dj ->
  try_finally
    (settings ← loadSettings;
     settings ← io_lift (T settings);
     saveSettings settings)
    releaseSettingsLock w
  = Some (Ok tt, releaseSettingsLock (set_settings_json (Json dj) w)).
Proof.
  intros Hjson HT Hdj. rewrite critical_section_eq, HT, Hdj.
  by destruct (settings_json w).
Qed.

Section Methods.
Context `{Builtins}.

(** What [install] does up to the lock: it writes the scripts, which
    touches neither the settings document nor the lock. *)
Lemma install_prelude (self : HookService) (fuel : nat) (config : JsVal)
    (w : World) :
  exists w2,
    install self fuel config w =
      (acquireSettingsLock fuel default_timeoutMs;;
       try_finally
         (settings ← loadSettings;
          settings ← io_lift (install_settings self settings);
          saveSettings settings)
         releaseSettingsLock) w2 /\
    same_settings w w2 /\ exists script, notify_sh w2 = Some script.
Proof.
  destruct (backupExistingScript_ok w) as (w1 & Hb & Hsame & _).
  destruct (writeScripts_ok config w1) as (s1 & s2 & s3 & Hw & _).
  eexists. split; [|split].
  - unfold install. rewrite (io_bind_ok _ _ w w1 tt Hb).
    by rewrite (io_bind_ok _ _ w1 _ tt Hw).
  - exact Hsame.
  - by eexists.
Qed.

(** The outcomes of [install]. *)
Lemma install_inv (self : HookService) (fuel : nat) (config : JsVal)
    (w : World) (r : Result unit) (w' : World) :
  install self fuel config w = Some (r, w') ->
  fuel <> 0%nat /\
  lock_unlinkable w' = lock_unlinkable w /\
  match r with
  | Ok _ =>
      settings_json w <> Unparseable /\
      (exists d' dj, install_settings self (settings_document w) = Ok d' /\
                     toJSON d' = Some dj /\ settings_json w' = Json dj) /\
      (lock_unlinkable w = true -> settings_lock w' = None) /\
      exists script, notify_sh w' = Some script
  | Throw _ => settings_json w' = settings_json w
  end.
Proof.
  destruct (install_prelude self fuel config w)
    as (w2 & -> & (_ & Hjson & _ & Hunlink & _) & script & Hscript).
  assert (Hdoc : settings_document w2 = settings_document w)
    by (unfold settings_document; by rewrite Hjson).
  destruct (acquireSettingsLock fuel default_timeoutMs w2) as [[ra w3]|] eqn:Ha.
  2: { by rewrite (io_bind_none _ _ _ Ha). }
  assert (Hfuel : fuel <> 0%nat) by (intros ->; discriminate).
  destruct (acquireSettingsLock_same _ _ _ _ _ Ha)
    as (A1 & A2 & A3 & A4 & A5 & A6 & A7 & A8).
  destruct ra as [[]|e].
  - rewrite (io_bind_ok _ _ _ _ _ Ha). intros Hcs.
    apply critical_section_spec in Hcs as (C1 & C2 & C3 & C4 & C5 & C6).
    split; [done|]. split; [congruence|].
    destruct r as [[]|e].
    + destruct C6 as (Hj & d' & dj & HT & Hdj & Hw').
      assert (Hdoc3 : settings_document w3 = settings_document w)
        by (unfold settings_document; by rewrite A1, Hjson).
      split; [congruence|]. split; [exists d', dj; by rewrite <- Hdoc3|].
      split; [|exists script; congruence].
      intros Hu. rewrite C2, A2, Hunlink, Hu. done.
    + congruence.
  - rewrite (io_bind_throw _ _ _ _ _ Ha). intros [= <- <-].
    split; [done|]. split; congruence.
Qed.

(** [install] resolves when the lock is free, the settings file can be
    parsed and the change to the document goes through. *)
Lemma install_ok (self : HookService) (fuel : nat) (config : JsVal)
    (w : World) (d' dj : JsVal) :
  settings_lock w = None ->
  settings_json w <> Unparseable ->
  install_settings self (settings_document w) = Ok d' ->
  toJSON d' = Some dj ->
  exists w', install self (S fuel) config w = Some (Ok tt, w').
Proof.
  intros Hfree Hjson HT Hdj.
  destruct (install_prelude self (S fuel) config w)
    as (w2 & -> & (_ & Hj2 & Hl2 & _) & _).
  assert (Ha := acquireSettingsLock_free fuel default_timeoutMs w2).
  rewrite Hl2 in Ha. specialize (Ha Hfree).
  rewrite (io_bind_ok _ _ _ _ _ Ha).
  eexists. apply (critical_section_ok _ _ d' dj); cbn [settings_json set_settings_lock];
    [by rewrite Hj2| |done].
  unfold settings_document. cbn [settings_json set_settings_lock]. rewrite Hj2.
  exact HT.
Qed.

End Methods.

(** The outcomes of [remove]. *)
Lemma remove_inv (self : HookService) (fuel : nat) (w : World)
    (r : Result unit) (w' : World) :
  remove self fuel w = Some (r, w') ->
  fuel <> 0%nat /\
  lock_unlinkable w' = lock_unlinkable w /\
  match r with
  | Ok _ =>
      settings_json w <> Unparseable /\
      (exists d' dj, remove_settings self (settings_document w) = Ok d' /\
                     toJSON d' = Some dj /\ settings_json w' = Json dj) /\
      notify_sh w' = None /\ stop_notify_sh w' = None /\
      permission_notify_sh w' = None
  | Throw _ => settings_json w' = settings_json w
  end.
Proof.
  unfold remove.
  destruct (acquireSettingsLock fuel default_timeoutMs w) as [[ra w3]|] eqn:Ha.
  2: { by rewrite (io_bind_none _ _ _ Ha). }
  assert (Hfuel : fuel <> 0%nat) by (intros ->; discriminate).
  destruct (acquireSettingsLock_same _ _ _ _ _ Ha)
    as (A1 & A2 & A3 & A4 & A5 & A6 & A7 & A8).
  destruct ra as [[]|e].
  2: { rewrite (io_bind_throw _ _ _ _ _ Ha). intros [= <- <-].
       split; [done|]. by split. }
  rewrite (io_bind_ok _ _ _ _ _ Ha).
  destruct (try_finally
              (settings ← loadSettings;
               settings ← io_lift (remove_settings self settings);
               saveSettings settings) releaseSettingsLock w3)
    as [[rc w4]|] eqn:Hcs.
  2: { by rewrite critical_section_eq in Hcs. }
  destruct (critical_section_spec _ _ _ _ Hcs) as (C1 & C2 & C3 & C4 & C5 & C6).
  destruct rc as [[]|e].
  - rewrite (io_bind_ok _ _ _ _ _ Hcs).
    unfold mbind, IO_bind, io_bind, io_write. intros [= <- <-].
    split; [done|]. split; [cbn; congruence|].
    destruct C6 as (Hj & d' & dj & HT & Hdj & Hw').
    assert (Hdoc3 : settings_document w3 = settings_document w)
      by (unfold settings_document; by rewrite A1).
    split; [congruence|]. split; [|done].
    exists d', dj. by rewrite <- Hdoc3.
  - rewrite (io_bind_throw _ _ _ _ _ Hcs). intros [= <- <-].
    split; [done|]. split; congruence.
Qed.

Lemma remove_ok (self : HookService) (fuel : nat) (w : World) (d' dj : JsVal) :
  settings_lock w = None ->
  settings_json w <> Unparseable ->
  remove_settings self (settings_document w) = Ok d' ->
  toJSON d' = Some dj ->
  exists w', remove self (S fuel) w = Some (Ok tt, w').
Proof.
  intros Hfree Hjson HT Hdj. unfold remove.
  rewrite (io_bind_ok _ _ _ _ _ (acquireSettingsLock_free fuel _ w Hfree)).
  erewrite io_bind_ok.
  2: { apply (critical_section_ok _ _ d' dj); [done| |done].
       unfold settings_document. cbn [settings_json set_settings_lock].
       exact HT. }
  unfold mbind, IO_bind, io_bind, io_write. by eexists.
Qed.

(** [isInstalled] on a world without the main script. *)
Lemma isInstalled_no_script (self : HookService) (w : World) :
  notify_sh w = None -> isInstalled self w = Some (Ok false, w).
Proof. intros Hn. unfold isInstalled, try_catch. by rewrite Hn. Qed.

(** ** What [install] and [remove] keep, add and take away *)

Lemma isOurHook_ClaudeHookMatcher (path : jsstring) (h : JsVal) :
  is_ClaudeHookMatcher h -> exists b, isOurHook path h = Ok b.
Proof.
  intros (es & Hes & Hall). unfold isOurHook.
  rewrite (field_get _ _ _ Hes). cbn [mbind Result_bind]. clear Hes.
  induction Hall as [|e es (c & Hc) _ IH]; [by eexists|].
  cbn [someM]. rewrite (field_get _ _ _ Hc). cbn [mbind Result_bind].
  destruct (is_string path (JStr c)); [by eexists | exact IH].
Qed.

Lemma install_filter_total (path K : jsstring) (hooks : gmap jsstring JsVal) :
  (truthy (default JUndefined (hooks !! K)) = false \/
   exists l, hooks !! K = Some (JArr l) /\
             Forall (fun h => exists b, isOurHook path h = Ok b) l) ->
  exists hooks', install_filter (isOurHook path) K hooks = Ok hooks'.
Proof.
  unfold install_filter. intros [-> | (l & Hl & Hall)]; [by eexists|].
  rewrite Hl. simpl.
  rewrite (filter_notM_total path l Hall). by eexists.
Qed.

Lemma install_push_total (path K : jsstring) (hook : JsVal)
    (h0 hooks : gmap jsstring JsVal) :
  install_filter (isOurHook path) K h0 = Ok hooks \/
  (exists h1, install_filter (isOurHook path) K h0 = Ok h1 /\
              hooks !! K = h1 !! K) ->
  exists hooks', install_push K hook hooks = Ok hooks'.
Proof.
  intros Hf.
  assert (exists h1, install_filter (isOurHook path) K h0 = Ok h1 /\
                     hooks !! K = h1 !! K) as (h1 & Hf1 & Heq).
  { destruct Hf as [Hf | Hf]; [by exists hooks | done]. }
  unfold install_push. rewrite Heq.
  apply install_filter_spec in Hf1 as [_ [[Hfalsy ->] | (l & _ & _ & ->)]].
  - unfold js_or. rewrite Hfalsy. by eexists.
  - simpl. by eexists.
Qed.

(** [install_settings] returns on an object whose [hooks] is an object, or
    falsy, with testable events. *)
Lemma install_settings_total (self : HookService) (m h : gmap jsstring JsVal) :
  js_or (default JUndefined (m !! lit "hooks")) (JObj ∅) = JObj h ->
  events_testable self h ->
  exists d', install_settings self (JObj m) = Ok d'.
Proof.
  intros Hh Htest. unfold install_settings. cbn [get mbind Result_bind].
  rewrite Hh.
  destruct our_event_names_distinct as (HNS & HNP & HSP).
  destruct (install_filter_total (scriptPath self) (lit "Notification") h)
    as [h1 Hf1]; [apply (Htest _ _ (notifyHook self)); simpl; tauto|].
  pose proof (install_filter_spec _ _ _ _ Hf1) as [A1 _].
  destruct (install_filter_total (stopScriptPath self) (lit "Stop") h1)
    as [h2 Hf2].
  { rewrite A1 by done. apply (Htest _ _ (stopHook self)); simpl; tauto. }
  pose proof (install_filter_spec _ _ _ _ Hf2) as [A2 _].
  destruct (install_filter_total (permissionScriptPath self)
              (lit "PermissionRequest") h2) as [h3 Hf3].
  { rewrite A2, A1 by done.
    apply (Htest _ _ (permissionHook self)); simpl; tauto. }
  pose proof (install_filter_spec _ _ _ _ Hf3) as [A3 _].
  destruct (install_push_total (scriptPath self) (lit "Notification")
              (notifyHook self) h h3) as [h4 Hp4].
  { right. exists h1. split; [done|]. by rewrite A3, A2. }
  pose proof (install_push_spec _ _ _ _ Hp4) as [A4 _].
  destruct (install_push_total (permissionScriptPath self)
              (lit "PermissionRequest") (permissionHook self) h2 h4)
    as [h5 Hp5].
  { right. exists h3. split; [done|]. by rewrite A4. }
  pose proof (install_push_spec _ _ _ _ Hp5) as [A5 _].
  destruct (install_push_total (stopScriptPath self) (lit "Stop")
              (stopHook self) h1 h5) as [h6 Hp6].
  { right. exists h2. split; [done|]. by rewrite A5, A4, A3. }
  unfold isOurNotificationHook, isOurStopHook, isOurPermissionHook.
  rewrite Hf1. cbn [mbind Result_bind]. rewrite Hf2. cbn [mbind Result_bind].
  rewrite Hf3. cbn [mbind Result_bind]. rewrite Hp4. cbn [mbind Result_bind].
  rewrite Hp5. cbn [mbind Result_bind]. rewrite Hp6. cbn [mbind Result_bind].
  by eexists.
Qed.

Lemma is_ClaudeSettings_testable (self : HookService) (d : JsVal) :
  is_ClaudeSettings d ->
  exists m h, d = JObj m /\
    js_or (default JUndefined (m !! lit "hooks")) (JObj ∅) = JObj h /\
    events_testable self h.
Proof.
  intros (m & -> & Hhooks). exists m.
  destruct (m !! lit "hooks") as [hooks|] eqn:Hm.
  - destruct (Hhooks hooks eq_refl) as (h & -> & Hh).
    exists h. split; [done|]. split; [done|].
    intros K path hook _. destruct (h !! K) as [v|] eqn:HK; [|by left].
    destruct (Hh K v HK) as (l & -> & Hall). right. exists l. split; [done|].
    eapply List.Forall_impl; [|exact Hall]. intros x Hx.
    by apply isOurHook_ClaudeHookMatcher.
  - exists ∅. split; [done|]. split; [done|].
    intros K path hook _. left. by rewrite lookup_empty.
Qed.

(** The document [install_settings] returns has testable events again. *)
Lemma install_settings_testable (self : HookService) (m h : gmap jsstring JsVal)
    (d' : JsVal) :
  js_or (default JUndefined (m !! lit "hooks")) (JObj ∅) = JObj h ->
  install_settings self (JObj m) = Ok d' ->
  exists hf, d' = JObj (<[lit "hooks" := JObj hf]> m) /\ events_testable self hf.
Proof.
  intros Hh Hi.
  destruct (install_settings_object self m h d' Hh Hi) as (hf & -> & _ & Hours).
  exists hf. split; [done|].
  intros K path hook Hin. destruct (Hours K path hook Hin) as [Hf Hall].
  right. eexists. split; [exact Hf|].
  apply Forall_app. split.
  - destruct (h !! K) as [[]|] eqn:HK; simpl; try by constructor.
    specialize (Hall l eq_refl). apply Forall_forall. intros x Hx.
    apply filter_In in Hx as [Hx _]. rewrite Forall_forall in Hall.
    by apply Hall.
  - constructor; [|constructor]. exists true.
    destruct (our_events_hook self K path hook Hin) as (matcher & ->).
    apply isOurHook_hookMatcher.
Qed.

Lemma remove_settings_total (self : HookService) (m hf : gmap jsstring JsVal) :
  events_testable self hf ->
  exists d', remove_settings self (JObj (<[lit "hooks" := JObj hf]> m)) = Ok d'.
Proof.
  intros Htest. unfold remove_settings. cbn [get mbind Result_bind].
  rewrite lookup_insert_eq. cbn [default from_option id].
  destruct our_event_names_distinct as (HNS & HNP & HSP).
  destruct (remove_filter_total (scriptPath self) (lit "Notification") hf)
    as [h1 Hf1]; [apply (Htest _ _ (notifyHook self)); simpl; tauto|].
  pose proof (remove_filter_spec _ _ _ _ Hf1) as [A1 _].
  destruct (remove_filter_total (stopScriptPath self) (lit "Stop") h1)
    as [h2 Hf2].
  { rewrite A1 by done. apply (Htest _ _ (stopHook self)); simpl; tauto. }
  pose proof (remove_filter_spec _ _ _ _ Hf2) as [A2 _].
  destruct (remove_filter_total (permissionScriptPath self)
              (lit "PermissionRequest") h2) as [h3 Hf3].
  { rewrite A2, A1 by done.
    apply (Htest _ _ (permissionHook self)); simpl; tauto. }
  unfold isOurNotificationHook, isOurStopHook, isOurPermissionHook.
  rewrite Hf1. cbn [mbind Result_bind]. rewrite Hf2. cbn [mbind Result_bind].
  rewrite Hf3. cbn [mbind Result_bind]. by eexists.
Qed.

(** [remove_settings] returns on every document [install_settings]
    returned. *)
Lemma remove_after_install_total (self : HookService) (d d1 : JsVal) :
  install_settings self d = Ok d1 -> exists d2, remove_settings self d1 = Ok d2.
Proof.
  intros Hi.
  destruct (install_settings_cases self d d1 Hi)
    as [(m & h & -> & Hh) | (-> & _ & Hnot)].
  - destruct (install_settings_testable self m h d1 Hh Hi) as (hf & -> & Htest).
    by apply remove_settings_total.
  - unfold remove_settings.
    destruct d; try done; cbn [get mbind Result_bind] in *; try by eexists.
    destruct (m !! lit "hooks") as [v|] eqn:Hv; cbn [default from_option id];
      [|by eexists].
    destruct v; try by eexists.
    by destruct (Hnot m0).
Qed.

(** ** The methods and the settings document *)

Lemma isOurHook_hookMatcher_other (matcher command path : jsstring) :
  command <> path -> isOurHook path (hookMatcher matcher command) = Ok false.
Proof.
  intros Hne. unfold isOurHook, hookMatcher.
  replace (get (obj [(lit "matcher", JStr matcher);
                     (lit "hooks", JArr [obj [(lit "type", JStr (lit "command"));
                                              (lit "command", JStr command)]])])
               (lit "hooks"))
    with (Ok (JArr [obj [(lit "type", JStr (lit "command"));
                         (lit "command", JStr command)]])) by reflexivity.
  cbn [mbind Result_bind someM].
  replace (get (obj [(lit "type", JStr (lit "command"));
                     (lit "command", JStr command)]) (lit "command"))
    with (Ok (JStr command)) by reflexivity.
  cbn [mbind Result_bind is_string]. by rewrite bool_decide_eq_false_2.
Qed.

Lemma scenario_settings_exact : json_exact scenario_settings.
Proof. vm_compute. reflexivity. Qed.

Lemma scenario_settings_typed : is_ClaudeSettings scenario_settings.
Proof.
  exists (<[lit "hooks" := obj [(lit "Notification", JArr [other_tool_matcher])]]> ∅).
  split; [reflexivity|].
  intros hooks Hhooks. rewrite lookup_insert_eq in Hhooks. injection Hhooks as <-.
  exists (<[lit "Notification" := JArr [other_tool_matcher]]> ∅).
  split; [reflexivity|].
  intros K v HK.
  assert (HN : K = lit "Notification" /\ v = JArr [other_tool_matcher]).
  { apply lookup_insert_Some in HK as [[<- <-]|[_ HK]]; [done|].
    by rewrite lookup_empty in HK. }
  destruct HN as [-> ->]. eexists. split; [reflexivity|].
  constructor; [|constructor].
  eexists. split; [reflexivity|].
  constructor; [|constructor]. by eexists.
Qed.

Section SettingsTheorems.
Context `{Builtins}.

(** With the lock free, [install] settles. *)
Lemma install_settles (self : HookService) (fuel : nat) (config : JsVal)
    (w : World) :
  settings_lock w = None ->
  exists r w', install self (S fuel) config w = Some (r, w').
Proof.
  intros Hfree.
  destruct (install_prelude self (S fuel) config w)
    as (w2 & -> & (_ & Hj2 & Hl2 & _) & _).
  assert (Ha := acquireSettingsLock_free fuel default_timeoutMs w2).
  rewrite Hl2 in Ha. specialize (Ha Hfree).
  rewrite (io_bind_ok _ _ _ _ _ Ha), critical_section_eq.
  match goal with |- exists r w', Some ?p = _ => destruct p as [r w'] end.
  by exists r, w'.
Qed.

Lemma install_outcome (self : HookService) (fuel : nat) (config : JsVal)
    (w : World) (r : Result unit) (w' : World) :
  json_exact (settings_document w) ->
  install self fuel config w = Some (r, w') ->
  settings_outcome (install_frame self) w r w'.
Proof.
  intros Hex Hi. apply install_inv in Hi as (_ & _ & Hr).
  destruct r as [[]|e]; [|exact Hr].
  destruct Hr as (Hj & (d' & dj & HT & Hdj & Hw') & _).
  pose proof (install_settings_exact _ _ _ Hex HT) as Hex'.
  unfold json_exact in Hex'. assert (dj = d') as -> by congruence.
  assert (Hdoc : settings_document w' = d')
    by (unfold settings_document; by rewrite Hw').
  unfold settings_outcome. rewrite Hdoc. split; [done|].
  by apply install_settings_frame.
Qed.

(** When [install] resolves from an exact document, the file holds the
    document [install_settings] computed. *)
Lemma install_document (self : HookService) (fuel : nat) (config : JsVal)
    (w w' : World) :
  json_exact (settings_document w) ->
  install self fuel config w = Some (Ok tt, w') ->
  install_settings self (settings_document w) = Ok (settings_document w') /\
  settings_json w' = Json (settings_document w') /\
  json_exact (settings_document w') /\
  lock_unlinkable w' = lock_unlinkable w /\
  (lock_unlinkable w = true -> settings_lock w' = None) /\
  exists script, notify_sh w' = Some script.
Proof.
  intros Hex Hi. apply install_inv in Hi as (_ & Hu & Hr).
  destruct Hr as (Hj & (d' & dj & HT & Hdj & Hw') & Hl & Hs).
  pose proof (install_settings_exact _ _ _ Hex HT) as Hex'.
  assert (dj = d') as -> by (unfold json_exact in Hex'; congruence).
  assert (Hdoc : settings_document w' = d')
    by (unfold settings_document; by rewrite Hw').
  rewrite Hdoc. by repeat split.
Qed.

End SettingsTheorems.

Lemma remove_settles (self : HookService) (fuel : nat) (w : World) :
  settings_lock w = None ->
  exists r w', remove self (S fuel) w = Some (r, w').
Proof.
  intros Hfree. unfold remove.
  rewrite (io_bind_ok _ _ _ _ _ (acquireSettingsLock_free fuel _ w Hfree)).
  destruct (try_finally
              (settings ← loadSettings;
               settings ← io_lift (remove_settings self settings);
               saveSettings settings) releaseSettingsLock
              (set_settings_lock (Some (now w)) w))
    as [[[[]|e] w4]|] eqn:Hcs.
  - rewrite (io_bind_ok _ _ _ _ _ Hcs).
    unfold mbind, IO_bind, io_bind, io_write. by eexists _, _.
  - rewrite (io_bind_throw _ _ _ _ _ Hcs). by eexists _, _.
  - by rewrite critical_section_eq in Hcs.
Qed.

Lemma remove_outcome (self : HookService) (fuel : nat) (w : World)
    (r : Result unit) (w' : World) :
  json_exact (settings_document w) ->
  remove self fuel w = Some (r, w') ->
  settings_outcome (remove_frame self) w r w'.
Proof.
  intros Hex Hi. apply remove_inv in Hi as (_ & _ & Hr).
  destruct r as [[]|e]; [|exact Hr].
  destruct Hr as (Hj & (d' & dj & HT & Hdj & Hw') & _).
  pose proof (remove_settings_exact _ _ _ Hex HT) as Hex'.
  unfold json_exact in Hex'. assert (dj = d') as -> by congruence.
  assert (Hdoc : settings_document w' = d')
    by (unfold settings_document; by rewrite Hw').
  unfold settings_outcome. rewrite Hdoc. split; [done|].
  by apply remove_settings_frame.
Qed.

Lemma remove_document (self : HookService) (fuel : nat) (w w' : World) :
  json_exact (settings_document w) ->
  remove self fuel w = Some (Ok tt, w') ->
  remove_settings self (settings_document w) = Ok (settings_document w') /\
  settings_json w' = Json (settings_document w') /\
  json_exact (settings_document w') /\
  notify_sh w' = None /\ stop_notify_sh w' = None /\
  permission_notify_sh w' = None.
Proof.
  intros Hex Hi. apply remove_inv in Hi as (_ & Hu & Hr).
  destruct Hr as (Hj & (d' & dj & HT & Hdj & Hw') & Hs).
  pose proof (remove_settings_exact _ _ _ Hex HT) as Hex'.
  assert (dj = d') as -> by (unfold json_exact in Hex'; congruence).
  assert (Hdoc : settings_document w' = d')
    by (unfold settings_document; by rewrite Hw').
  rewrite Hdoc. destruct Hs as (S1 & S2 & S3). by repeat split.
Qed.

Lemma settings_document_parseable (w : World) :
  settings_json w = Json (settings_document w) -> settings_json w <> Unparseable.
Proof. intros ->. discriminate. Qed.

(** ** The document in the file after [install] and [remove] *)

(** The filtering steps of [remove] go through on testable events only,
    and leave testable events. *)
Lemma remove_hooks_testable (self : HookService) (h hf : gmap jsstring JsVal) :
  (h1 ← remove_filter (isOurNotificationHook self) (lit "Notification") h;
   h2 ← remove_filter (isOurStopHook self) (lit "Stop") h1;
   remove_filter (isOurPermissionHook self) (lit "PermissionRequest") h2) = Ok hf ->
  events_testable self h /\ events_testable self hf.
Proof.
  intros Hchain.
  pose proof (remove_hooks_spec self h hf Hchain) as [_ Hours].
  apply bind_Ok in Hchain as (h1 & Hf1 & Hchain).
  apply bind_Ok in Hchain as (h2 & Hf2 & Hf3).
  destruct our_event_names_distinct as (HNS & HNP & HSP).
  pose proof (remove_filter_spec _ _ _ _ Hf1) as [A1 B1].
  pose proof (remove_filter_spec _ _ _ _ Hf2) as [A2 B2].
  pose proof (remove_filter_spec _ _ _ _ Hf3) as [A3 B3].
  assert (Htest : events_testable self h).
  { intros K path hook Hin. unfold our_events in Hin. cbn [In] in Hin.
    destruct Hin as [[= <- <- <-] | [[= <- <- <-] | [[= <- <- <-] | []]]].
    - destruct B1 as [[Hf _] | (l & Hl & Hall & _)]; [by left|].
      right. by exists l.
    - rewrite <- (A1 (lit "Stop")) by done.
      destruct B2 as [[Hf _] | (l & Hl & Hall & _)]; [by left|].
      right. by exists l.
    - rewrite <- (A1 (lit "PermissionRequest")),
              <- (A2 (lit "PermissionRequest")) by done.
      destruct B3 as [[Hf _] | (l & Hl & Hall & _)]; [by left|].
      right. by exists l. }
  split; [exact Htest|].
  intros K path hook Hin. rewrite (Hours K path hook Hin).
  destruct (Htest K path hook Hin) as [Hfalsy | (l & Hl & Hall)].
  - left. destruct (h !! K) as [[]|]; try done.
  - rewrite Hl. cbn [after_remove].
    destruct (without_owned path l) as [|c l'] eqn:Hwo; [by left|].
    right. eexists. split; [done|]. rewrite <- Hwo.
    apply Forall_forall. intros x Hx. apply filter_In in Hx as [Hx _].
    rewrite Forall_forall in Hall. by apply Hall.
Qed.

(** [remove_settings] on a document whose [hooks] is an object. *)
Lemma remove_settings_object (self : HookService) (m h : gmap jsstring JsVal)
    (d' : JsVal) :
  m !! lit "hooks" = Some (JObj h) ->
  remove_settings self (JObj m) = Ok d' ->
  exists hf,
    d' = JObj (if decide (size hf = 0%nat)
               then delete (lit "hooks") m
               else <[lit "hooks" := JObj hf]> m) /\
    events_testable self h /\ events_testable self hf /\
    (forall K, ~ In K our_event_names -> hf !! K = h !! K) /\
    (forall K path hook, In (K, path, hook) (our_events self) ->
       hf !! K = after_remove path (h !! K)).
Proof.
  intros Hh Hr.
  destruct (remove_settings_cases self _ _ Hr)
    as [(m0 & h0 & hf & [= <-] & Hh0 & Hchain & ->) | (_ & Hnot & _)].
  - assert (h0 = h) as -> by congruence.
    destruct (remove_hooks_testable self h hf Hchain) as [T1 T2].
    destruct (remove_hooks_spec self h hf Hchain) as [S1 S2].
    by exists hf.
  - destruct (Hnot h). cbn [field]. exact Hh.
Qed.


(** The lists [install_settings] filters are lists on which the ownership
    test returns. *)
Lemma install_settings_tested (self : HookService) (d d' : JsVal)
    (K path : jsstring) (hook : JsVal) (l : list JsVal) :
  install_settings self d = Ok d' ->
  In (K, path, hook) (our_events self) ->
  hook_event d K = Some (JArr l) ->
  Forall (fun x => exists b, isOurHook path x = Ok b) l.
Proof.
  intros Hi Hin Hl.
  destruct (install_settings_cases self d d' Hi)
    as [(m & h & -> & Hh) | (_ & Hnone & _)]; [|by rewrite Hnone in Hl].
  destruct (install_settings_object self m h d' Hh Hi) as (hf & _ & _ & Hours).
  destruct (Hours K path hook Hin) as [_ Hall]. apply Hall.
  by rewrite <- (hook_event_js_or m h K Hh).
Qed.

Lemma remove_settings_tested (self : HookService) (d d' : JsVal)
    (K path : jsstring) (hook : JsVal) (l : list JsVal) :
  remove_settings self d = Ok d' ->
  In (K, path, hook) (our_events self) ->
  hook_event d K = Some (JArr l) ->
  Forall (fun x => exists b, isOurHook path x = Ok b) l.
Proof.
  intros Hr Hin Hl.
  destruct (remove_settings_cases self d d' Hr)
    as [(m & h & hf & -> & Hh & Hchain & _) | (Hnone & _)];
    [|by rewrite Hnone in Hl].
  destruct (remove_hooks_testable self h hf Hchain) as [Htest _].
  unfold hook_event in Hl. cbn [field] in Hl. rewrite Hh in Hl.
  cbn [mbind option_bind field] in Hl.
  destruct (Htest K path hook Hin) as [Hfalsy | (l' & Hl' & Hall)].
  - by rewrite Hl in Hfalsy.
  - rewrite Hl in Hl'. by injection Hl' as <-.
Qed.

(** The same for the lists [remove_settings] leaves. *)
Lemma remove_settings_left_tested (self : HookService) (d d' : JsVal)
    (K path : jsstring) (hook : JsVal) (l : list JsVal) :
  remove_settings self d = Ok d' ->
  In (K, path, hook) (our_events self) ->
  hook_event d' K = Some (JArr l) ->
  Forall (fun x => exists b, isOurHook path x = Ok b) l.
Proof.
  intros Hr Hin Hl.
  pose proof (remove_settings_frame self d d' Hr) as (_ & _ & Hours).
  destruct (hook_event d K) as [v|] eqn:Hv.
  - destruct (remove_settings_cases self d d' Hr)
      as [(m & h & hf & -> & Hh & Hchain & ->) | (Hnone & _)];
      [|by rewrite Hnone in Hv].
    destruct (remove_hooks_testable self h hf Hchain) as [_ Htest].
    assert (Hev : hf !! K = Some (JArr l)).
    { revert Hl. unfold hook_event. cbn [field]. case_decide as Hsize.
      - by rewrite lookup_delete_eq.
      - by rewrite lookup_insert_eq. }
    destruct (Htest K path hook Hin) as [Hfalsy | (l' & Hl' & Hall)].
    + by rewrite Hev in Hfalsy.
    + rewrite Hev in Hl'. by injection Hl' as <-.
  - destruct (remove_settings_cases self d d' Hr)
      as [(m & h & hf & -> & Hh & Hchain & ->) | (Hnone & _ & Hd')].
    + destruct (remove_hooks_spec self h hf Hchain) as [_ Hspec].
      assert (Hev : hf !! K = Some (JArr l)).
      { revert Hl. unfold hook_event. cbn [field]. case_decide as Hsize.
        - by rewrite lookup_delete_eq.
        - by rewrite lookup_insert_eq. }
      unfold hook_event in Hv. cbn [field] in Hv. rewrite Hh in Hv.
      cbn [mbind option_bind field] in Hv.
      rewrite (Hspec K path hook Hin), Hv in Hev. done.
    + destruct Hd' as [-> | (m & -> & ->)]; [by rewrite Hnone in Hl|].
      unfold hook_event in Hl. cbn [field] in Hl.
      by rewrite lookup_delete_eq in Hl.
Qed.

Lemma install_settings_writes (self : HookService) (d d' dj : JsVal) :
  install_settings self d = Ok d' -> toJSON d' = Some dj ->
  install_writes self d dj.
Proof.
  intros Hi Hj.
  pose proof (install_settings_frame self d d' Hi) as (Hkeys & Hother & Hours).
  split; [|split].
  - intros k Hk. by rewrite (field_toJSON d' dj k Hj), (Hkeys k Hk).
  - intros K HK. by rewrite (hook_event_toJSON d' dj K Hj), (Hother K HK).
  - intros K path hook l Hin Hl.
    destruct (Hours K path hook l Hin Hl) as [Hev _].
    rewrite (hook_event_toJSON d' dj K Hj), Hev.
    cbn [mbind option_bind]. rewrite toJSON_arr, List.map_app.
    cbn [List.map].
    rewrite (without_owned_command path l
               (install_settings_tested self d d' K path hook l Hi Hin Hl)).
    destruct (our_events_hook self K path hook Hin) as (matcher & ->).
    by rewrite (as_written_exact _ (json_exact_hookMatcher matcher path)).
Qed.

Lemma remove_settings_writes (self : HookService) (d d' dj : JsVal) :
  remove_settings self d = Ok d' -> toJSON d' = Some dj ->
  remove_writes self d dj.
Proof.
  intros Hr Hj.
  pose proof (remove_settings_frame self d d' Hr) as (Hkeys & Hother & Hours).
  split; [|split].
  - intros k Hk. by rewrite (field_toJSON d' dj k Hj), (Hkeys k Hk).
  - intros K HK. by rewrite (hook_event_toJSON d' dj K Hj), (Hother K HK).
  - intros K path hook l Hin Hl.
    destruct (Hours K path hook l Hin Hl) as [Hev _].
    rewrite (hook_event_toJSON d' dj K Hj), Hev.
    rewrite (without_owned_command path l
               (remove_settings_tested self d d' K path hook l Hr Hin Hl)).
    by destruct (without_command path l).
Qed.

Lemma install_settings_keeps (self : HookService) (d d' : JsVal) :
  install_settings self d = Ok d' -> install_keeps self d d'.
Proof.
  intros Hi.
  pose proof (install_settings_frame self d d' Hi) as (Hkeys & Hother & Hours).
  split; [done|]. split; [done|].
  intros K path hook l Hin Hl.
  destruct (Hours K path hook l Hin Hl) as [Hev _]. rewrite Hev.
  by rewrite (without_owned_command path l
                (install_settings_tested self d d' K path hook l Hi Hin Hl)).
Qed.

Lemma remove_settings_strips (self : HookService) (d d' : JsVal) :
  remove_settings self d = Ok d' -> remove_strips self d d'.
Proof.
  intros Hr.
  pose proof (remove_settings_frame self d d' Hr) as (Hkeys & Hother & Hours).
  split; [done|]. split; [done|].
  intros K path hook l Hin Hl.
  destruct (Hours K path hook l Hin Hl) as [Hev _]. rewrite Hev.
  by rewrite (without_owned_command path l
                (remove_settings_tested self d d' K path hook l Hr Hin Hl)).
Qed.

(** No matcher that [remove_settings] leaves under one of the three events
    has the command of the script of the event. *)
Lemma remove_settings_no_command (self : HookService) (d d' : JsVal)
    (K path : jsstring) (hook : JsVal) (l : list JsVal) :
  remove_settings self d = Ok d' ->
  In (K, path, hook) (our_events self) ->
  hook_event d' K = Some (JArr l) ->
  Forall (fun h => has_command path h = false) l /\ l <> [].
Proof.
  intros Hr Hin Hl.
  destruct (remove_settings_none_owned self d d' Hr) as [Hnone _].
  destruct (Hnone K path hook l Hin Hl) as [Hcount Hne]. split; [|done].
  pose proof (remove_settings_left_tested self d d' K path hook l Hr Hin Hl)
    as Hall.
  rewrite (count_owned_command path l Hall) in Hcount.
  unfold count_command in Hcount. clear -Hcount.
  induction l as [|h l IH]; [constructor|].
  cbn [List.filter] in Hcount.
  destruct (has_command path h) eqn:Hh; [discriminate|].
  constructor; [done|by apply IH].
Qed.

(** After [install_settings] on an object whose [hooks] is an object or
    falsy, each of the three events holds a list in which exactly one
    matcher has the command of the script of the event. *)
Lemma install_settings_one_command (self : HookService) (d d' : JsVal)
    (K path : jsstring) (hook : JsVal) :
  hooks_object d ->
  install_settings self d = Ok d' ->
  In (K, path, hook) (our_events self) ->
  exists l, hook_event d' K = Some (JArr l) /\
            count_command path l = 1%nat /\ count_owned path l = 1%nat.
Proof.
  intros (m & h & -> & Hh) Hi Hin.
  destruct (install_settings_one_owned self m h d' K path hook Hh Hi Hin)
    as (l & Hl & Hcount).
  exists l. split; [done|]. split; [|done].
  destruct (install_settings_testable self m h d' Hh Hi) as (hf & -> & Htest).
  rewrite <- (count_owned_command path l); [done|].
  unfold hook_event in Hl. cbn [field] in Hl. rewrite lookup_insert_eq in Hl.
  cbn [mbind option_bind field] in Hl.
  destruct (Htest K path hook Hin) as [Hfalsy | (l' & Hl' & Hall)].
  - by rewrite Hl in Hfalsy.
  - rewrite Hl in Hl'. by injection Hl' as <-.
Qed.

Lemma hooks_object_installed (self : HookService) (d d' dj : JsVal) :
  hooks_object d -> install_settings self d = Ok d' -> toJSON d' = Some dj ->
  hooks_object dj.
Proof.
  intros (m & h & -> & Hh) Hi Hj.
  destruct (install_settings_object self m h d' Hh Hi) as (hf & -> & _).
  cbn [toJSON] in Hj. injection Hj as <-.
  eexists _, (omap toJSON hf). split; [reflexivity|].
  by rewrite lookup_omap, lookup_insert_eq.
Qed.

(** *** Documents of the declared type *)

Lemma is_ClaudeHookMatcher_hookMatcher (matcher command : jsstring) :
  is_ClaudeHookMatcher (hookMatcher matcher command).
Proof.
  eexists. split; [reflexivity|]. constructor; [|constructor]. by eexists.
Qed.

Lemma is_ClaudeHookMatcher_as_written (h : JsVal) :
  is_ClaudeHookMatcher h -> is_ClaudeHookMatcher (as_written h).
Proof.
  intros (es & Hes & Hall).
  assert (exists m, h = JObj m) as [m ->] by (destruct h; try done; by eexists).
  exists (List.map as_written es). split.
  - unfold as_written at 1. cbn [toJSON default from_option id field].
    cbn [field] in Hes. by rewrite lookup_omap, Hes.
  - apply Forall_forall. intros e' He'.
    apply in_map_iff in He' as (e & <- & He).
    rewrite Forall_forall in Hall. destruct (Hall e He) as (c & Hc).
    assert (exists em, e = JObj em) as [em ->]
      by (destruct e; try done; by eexists).
    exists c. unfold as_written. cbn [toJSON default from_option id field].
    cbn [field] in Hc. by rewrite lookup_omap, Hc.
Qed.

(** On a matcher of the declared type the ownership test answers the same
    before and after the matcher is written. *)
Lemma isOurHook_as_written (path : jsstring) (h : JsVal) :
  is_ClaudeHookMatcher h -> isOurHook path (as_written h) = isOurHook path h.
Proof.
  intros Htyped.
  destruct (isOurHook_ClaudeHookMatcher path h Htyped) as [b Hb].
  destruct (isOurHook_ClaudeHookMatcher path (as_written h)
              (is_ClaudeHookMatcher_as_written h Htyped)) as [b' Hb'].
  rewrite Hb, Hb'. f_equal.
  rewrite <- (isOurHook_has_command path h b Hb),
          <- (isOurHook_has_command path _ b' Hb').
  apply has_command_as_written.
Qed.

Lemma is_ClaudeSettings_hooks (d : JsVal) :
  is_ClaudeSettings d ->
  exists m h, d = JObj m /\
    js_or (default JUndefined (m !! lit "hooks")) (JObj ∅) = JObj h /\
    forall K v, h !! K = Some v ->
      exists l, v = JArr l /\ Forall is_ClaudeHookMatcher l.
Proof.
  intros (m & -> & Hhooks). exists m.
  destruct (m !! lit "hooks") as [hooks|] eqn:Hm.
  - destruct (Hhooks hooks eq_refl) as (h & -> & Hh). by exists h.
  - exists ∅. split; [done|]. split; [done|].
    intros K v. by rewrite lookup_empty.
Qed.

Lemma install_settings_typed (self : HookService) (d d' : JsVal) :
  is_ClaudeSettings d -> install_settings self d = Ok d' ->
  is_ClaudeSettings d'.
Proof.
  intros Htyped Hi.
  destruct (is_ClaudeSettings_hooks d Htyped) as (m & h & -> & Hh & Hlists).
  destruct (install_settings_object self m h d' Hh Hi)
    as (hf & -> & Hother & Hours).
  eexists. split; [reflexivity|].
  intros hooks. rewrite lookup_insert_eq. intros [= <-].
  exists hf. split; [done|]. intros K v HK.
  destruct (our_event_names_dec K) as [Hin | Hout].
  - destruct (our_events_names self K Hin) as (path & hook & Hev & matcher & ->).
    destruct (Hours K path _ Hev) as [Hf _]. rewrite Hf in HK.
    injection HK as <-. eexists. split; [reflexivity|].
    apply Forall_app. split.
    + destruct (h !! K) as [x|] eqn:Hx; [|constructor].
      destruct (Hlists K x Hx) as (l & -> & Hall). cbn [list_before_push].
      apply Forall_forall. intros y Hy. apply filter_In in Hy as [Hy _].
      rewrite Forall_forall in Hall. by apply Hall.
    + constructor; [apply is_ClaudeHookMatcher_hookMatcher|constructor].
  - rewrite (Hother K Hout) in HK. by apply (Hlists K).
Qed.

Lemma is_ClaudeSettings_toJSON (d dj : JsVal) :
  is_ClaudeSettings d -> toJSON d = Some dj -> is_ClaudeSettings dj.
Proof.
  intros (m & -> & Hhooks) Hj. cbn [toJSON] in Hj. injection Hj as <-.
  eexists. split; [reflexivity|].
  intros hooks. rewrite lookup_omap.
  destruct (m !! lit "hooks") as [x|] eqn:Hx; [|done].
  destruct (Hhooks x eq_refl) as (h & -> & Hh).
  cbn [mbind option_bind toJSON]. intros [= <-].
  eexists. split; [reflexivity|].
  intros K v. rewrite lookup_omap.
  destruct (h !! K) as [y|] eqn:Hy; [|done].
  destruct (Hh K y Hy) as (l & -> & Hall).
  cbn [mbind option_bind toJSON]. intros [= <-].
  eexists. split; [reflexivity|].
  apply Forall_forall. intros y' Hy'.
  apply in_map_iff in Hy' as (y0 & <- & Hy0).
  apply is_ClaudeHookMatcher_as_written.
  rewrite Forall_forall in Hall. by apply Hall.
Qed.

(** [remove_settings] returns on a document of the declared type. *)
Lemma remove_settings_typed_total (self : HookService) (d : JsVal) :
  is_ClaudeSettings d -> exists d', remove_settings self d = Ok d'.
Proof.
  intros Htyped.
  destruct (is_ClaudeSettings_testable self d Htyped)
    as (m & h & -> & Hh & Htest).
  destruct (m !! lit "hooks") as [x|] eqn:Hx.
  - destruct Htyped as (m' & [= <-] & Hhooks).
    destruct (Hhooks x Hx) as (h' & -> & _).
    cbn [default from_option id] in Hh. unfold js_or in Hh.
    cbn [truthy] in Hh. injection Hh as ->.
    rewrite <- (insert_id m (lit "hooks") (JObj h) Hx).
    by apply remove_settings_total.
  - unfold remove_settings. cbn [get mbind Result_bind]. rewrite Hx.
    by eexists.
Qed.

(** ** [isInstalled] *)

Lemma someM_none_owned (path : jsstring) (l : list JsVal) (b : bool) :
  someM (isOurHook path) l = Ok b -> count_owned path l = 0%nat -> b = false.
Proof.
  revert b. induction l as [|x l IH]; intros b; cbn [someM].
  - by intros [= <-].
  - unfold count_owned, owned. cbn [List.filter mbind Result_bind].
    destruct (isOurHook path x) as [[]|e]; cbn [mbind Result_bind];
      [discriminate 2| |discriminate 1].
    intros Hs Hc. by apply IH.
Qed.

Lemma someM_owned_last (path : jsstring) (l : list JsVal) (x : JsVal) :
  Forall (fun h => isOurHook path h = Ok false) l ->
  isOurHook path x = Ok true ->
  someM (isOurHook path) (l ++ [x]) = Ok true.
Proof.
  intros Hl Hx. induction Hl as [|y l Hy Hl IH]; cbn [app someM].
  - by rewrite Hx.
  - by rewrite Hy.
Qed.

(** The test [isInstalled] makes on the settings document. *)
Lemma isInstalled_eq (self : HookService) (w : World) (script : jsstring) :
  notify_sh w = Some script ->
  isInstalled self w =
    Some (match settings_json w with
          | Unparseable => (Ok false, w)
          | _ =>
              match (s_hooks ← opt_get (settings_document w) (lit "hooks");
                     hooks ← opt_get s_hooks (lit "Notification");
                     match hooks with
                     | JArr l => someM (isOurNotificationHook self) l
                     | _ => Ok false
                     end) with
              | Ok b => (Ok b, w)
              | Throw _ => (Ok false, w)
              end
          end).
Proof.
  intros Hs.
  unfold isInstalled, try_catch, mbind at 1, IO_bind, io_bind, loadSettings,
    io_lift, settings_document.
  rewrite Hs. destruct (settings_json w) as [| |d]; [|done|].
  - by destruct (_ ≫= _).
  - by destruct (_ ≫= _).
Qed.

(** [isInstalled] answers false when no matcher under [Notification] is
    this system's, whether or not the script is there. *)
Lemma isInstalled_none_owned (self : HookService) (w : World) :
  (forall l, hook_event (settings_document w) (lit "Notification") = Some (JArr l) ->
             count_owned (scriptPath self) l = 0%nat) ->
  isInstalled self w = Some (Ok false, w).
Proof.
  intros Hnone.
  destruct (notify_sh w) as [script|] eqn:Hs;
    [|by apply isInstalled_no_script].
  rewrite (isInstalled_eq self w script Hs).
  assert (Hb : forall b,
            (s_hooks ← opt_get (settings_document w) (lit "hooks");
             hooks ← opt_get s_hooks (lit "Notification");
             match hooks with
             | JArr l => someM (isOurNotificationHook self) l
             | _ => Ok false
             end) = Ok b -> b = false).
  { revert Hnone. generalize (settings_document w) as doc. clear.
    intros doc Hnone b Hr. unfold hook_event in Hnone.
    destruct doc as [| | | | | |m];
      cbn [opt_get get nullish mbind Result_bind] in Hr;
      try by injection Hr as <-.
    cbn [field mbind option_bind] in Hnone.
    destruct (m !! lit "hooks") as [[| | | | | |h]|];
      cbn [opt_get get nullish mbind Result_bind default from_option id] in Hr;
      try by injection Hr as <-.
    cbn [field mbind option_bind] in Hnone.
    destruct (h !! lit "Notification") as [[| | | | |l|]|];
      cbn [opt_get get nullish mbind Result_bind default from_option id] in Hr;
      try by injection Hr as <-.
    apply (someM_none_owned (scriptPath self) l b Hr). by apply Hnone. }
  destruct (settings_json w); [|done|];
    (destruct (_ ≫= _) as [b|e] eqn:Hr; [|done]);
    by rewrite (Hb b eq_refl).
Qed.

(** ** The claims on [install] and [remove] *)

Section SettingsMethods.
Context `{Builtins}.

Lemma install_writes_outcome (self : HookService) (fuel : nat) (config : JsVal)
    (w : World) (r : Result unit) (w' : World) :
  install self fuel config w = Some (r, w') ->
  settings_outcome (install_writes self) w r w'.
Proof.
  intros Hi. apply install_inv in Hi as (_ & _ & Hr).
  destruct r as [[]|e]; [|exact Hr].
  destruct Hr as (Hj & (d' & dj & HT & Hdj & Hw') & _).
  assert (Hdoc : settings_document w' = dj)
    by (unfold settings_document; by rewrite Hw').
  unfold settings_outcome. rewrite Hdoc. split; [done|].
  by apply (install_settings_writes self _ d').
Qed.

(** The document in the file once [install] has resolved. *)
Lemma install_written (self : HookService) (fuel : nat) (config : JsVal)
    (w w' : World) :
  install self fuel config w = Some (Ok tt, w') ->
  exists d', install_settings self (settings_document w) = Ok d' /\
    toJSON d' = Some (settings_document w') /\
    settings_json w' = Json (settings_document w') /\
    json_exact (settings_document w') /\
    lock_unlinkable w' = lock_unlinkable w /\
    (lock_unlinkable w = true -> settings_lock w' = None).
Proof.
  intros Hi. apply install_inv in Hi as (_ & Hu & Hr).
  destruct Hr as (Hj & (d' & dj & HT & Hdj & Hw') & Hl & _).
  assert (Hdoc : settings_document w' = dj)
    by (unfold settings_document; by rewrite Hw').
  exists d'. rewrite Hdoc. repeat split; try done.
  by apply (toJSON_exact d').
Qed.

(** Two calls of [install] that resolve, from an object whose [hooks] is
    an object or falsy. *)
Lemma install_twice_counts (self : HookService) (fuel1 fuel2 : nat)
    (config : JsVal) (w w1 w2 : World) (K path : jsstring) (hook : JsVal) :
  hooks_object (settings_document w) ->
  install self fuel1 config w = Some (Ok tt, w1) ->
  install self fuel2 config w1 = Some (Ok tt, w2) ->
  In (K, path, hook) (our_events self) ->
  exists l, hook_event (settings_document w2) K = Some (JArr l) /\
            count_command path l = 1%nat /\ count_owned path l = 1%nat.
Proof.
  intros Hobj Hi1 Hi2 Hin.
  destruct (install_written self _ config w w1 Hi1)
    as (d1 & Hd1 & Hj1 & _ & Hex1 & _).
  pose proof (hooks_object_installed self _ d1 _ Hobj Hd1 Hj1) as Hobj1.
  destruct (install_document self _ config w1 w2 Hex1 Hi2) as (Hd2 & _).
  by apply (install_settings_one_command self (settings_document w1) _ K path hook).
Qed.

(** Two calls of [install] from a document of the declared type resolve. *)
Lemma install_twice_resolves (self : HookService) (fuel1 fuel2 : nat)
    (config : JsVal) (w : World) :
  settings_lock w = None ->
  lock_unlinkable w = true ->
  settings_json w <> Unparseable ->
  is_ClaudeSettings (settings_document w) ->
  exists w1 w2,
    install self (S fuel1) config w = Some (Ok tt, w1) /\
    install self (S fuel2) config w1 = Some (Ok tt, w2).
Proof.
  intros Hfree Hunlink Hjson Htyped.
  destruct (is_ClaudeSettings_testable self _ Htyped)
    as (m & h & Hm & Hh & Htest).
  destruct (install_settings_total self m h Hh Htest) as [d1 Hd1].
  rewrite <- Hm in Hd1.
  pose proof (install_settings_typed self _ d1 Htyped Hd1) as Htyped1.
  assert (exists dj1, toJSON d1 = Some dj1) as [dj1 Hj1]
    by (destruct Htyped1 as (m1 & -> & _); by eexists).
  destruct (install_ok self fuel1 config w d1 dj1) as [w1 Hi1]; try done.
  destruct (install_written self _ config w w1 Hi1)
    as (d1' & Hd1' & Hj1' & Hjson1 & Hex1 & _ & Hl1).
  assert (d1' = d1) as -> by congruence.
  assert (Hdoc1 : settings_document w1 = dj1) by congruence.
  pose proof (is_ClaudeSettings_toJSON d1 dj1 Htyped1 Hj1) as Htypedj.
  rewrite <- Hdoc1 in Htypedj.
  destruct (is_ClaudeSettings_testable self _ Htypedj)
    as (mj & hj & Hmj & Hhj & Htestj).
  destruct (install_settings_total self mj hj Hhj Htestj) as [d2 Hd2].
  rewrite <- Hmj in Hd2.
  pose proof (install_settings_exact _ _ _ Hex1 Hd2) as Hex2.
  destruct (install_ok self fuel2 config w1 d2 d2) as [w2 Hi2]; try done.
  { by apply Hl1. }
  { by apply settings_document_parseable. }
  by exists w1, w2.
Qed.

(** Two calls of [install] resolve also from a document that is written
    as it is, when it is an object whose [hooks] is an object or falsy and
    the ownership test returns on the matchers of the three events. *)
Lemma install_twice_resolves_exact (self : HookService) (fuel1 fuel2 : nat)
    (config : JsVal) (w : World) (m h : gmap jsstring JsVal) :
  settings_lock w = None ->
  lock_unlinkable w = true ->
  settings_json w <> Unparseable ->
  json_exact (settings_document w) ->
  settings_document w = JObj m ->
  js_or (default JUndefined (m !! lit "hooks")) (JObj ∅) = JObj h ->
  events_testable self h ->
  exists w1 w2,
    install self (S fuel1) config w = Some (Ok tt, w1) /\
    install self (S fuel2) config w1 = Some (Ok tt, w2).
Proof.
  intros Hfree Hunlink Hjson Hex Hm Hh Htest.
  destruct (install_settings_total self m h Hh Htest) as [d1 Hd1].
  pose proof Hd1 as Hd1'. rewrite <- Hm in Hd1'.
  pose proof (install_settings_exact _ _ _ Hex Hd1') as Hex1.
  destruct (install_ok self fuel1 config w d1 d1) as [w1 Hi1]; try done.
  destruct (install_document self _ config w w1 Hex Hi1)
    as (Hd1w & Hj1 & Hex1w & Hu1 & Hl1 & _).
  assert (Hdoc1 : settings_document w1 = d1) by congruence.
  destruct (install_settings_testable self m h d1 Hh Hd1) as (hf & Hd1eq & Htest1).
  assert (Hh1 : js_or (default JUndefined
                         (<[lit "hooks" := JObj hf]> m !! lit "hooks"))
                  (JObj ∅) = JObj hf)
    by (by rewrite lookup_insert_eq).
  destruct (install_settings_total self _ hf Hh1 Htest1) as [d2 Hd2].
  pose proof Hd2 as Hd2'. rewrite <- Hd1eq, <- Hdoc1 in Hd2'.
  pose proof (install_settings_exact _ _ _ Hex1w Hd2') as Hex2.
  destruct (install_ok self fuel2 config w1 d2 d2) as [w2 Hi2]; try done.
  { apply Hl1, Hunlink. }
  { by apply settings_document_parseable. }
  by exists w1, w2.
Qed.

(** The state after [remove] has resolved on a document [install] wrote. *)
Lemma remove_written (self : HookService) (fuel : nat) (w1 w2 : World) :
  json_exact (settings_document w1) ->
  remove self fuel w1 = Some (Ok tt, w2) ->
  isInstalled self w2 = Some (Ok false, w2) /\
  (forall script, isInstalled self (set_notify_sh (Some script) w2)
                  = Some (Ok false, set_notify_sh (Some script) w2)) /\
  remove_strips self (settings_document w1) (settings_document w2) /\
  (forall K path hook l, In (K, path, hook) (our_events self) ->
     hook_event (settings_document w2) K = Some (JArr l) ->
     Forall (fun h => has_command path h = false) l /\ l <> []) /\
  (forall hf, field (settings_document w2) (lit "hooks") = Some (JObj hf) ->
              hf <> ∅).
Proof.
  intros Hex1 Hr.
  destruct (remove_document self _ w1 w2 Hex1 Hr) as (Hd2 & Hj2 & _ & Hn & _).
  destruct (remove_settings_none_owned self _ _ Hd2) as [Hnone Hnonempty].
  split; [by apply isInstalled_no_script|].
  split; [|split; [by apply remove_settings_strips|split; [|done]]].
  - intros script. apply isInstalled_none_owned. intros l Hl.
    apply (Hnone (lit "Notification") (scriptPath self) (notifyHook self) l).
    + unfold our_events. by left.
    + exact Hl.
  - intros K path hook l.
    by apply (remove_settings_no_command self (settings_document w1)).
Qed.

(** [remove] resolves on what [install] wrote from a document that is
    written as it is, or that has the declared type. *)
Lemma remove_after_install_resolves (self : HookService) (fuel fuel' : nat)
    (config : JsVal) (w w1 : World) :
  lock_unlinkable w = true ->
  json_exact (settings_document w) \/ is_ClaudeSettings (settings_document w) ->
  install self fuel config w = Some (Ok tt, w1) ->
  exists w2, remove self (S fuel') w1 = Some (Ok tt, w2).
Proof.
  intros Hunlink Hdoc Hi.
  destruct (install_written self _ config w w1 Hi)
    as (d1 & Hd1 & Hj1 & Hjson1 & Hex1 & _ & Hl1).
  assert (exists d2, remove_settings self (settings_document w1) = Ok d2)
    as [d2 Hd2].
  { destruct Hdoc as [Hex | Htyped].
    - pose proof (install_settings_exact _ _ _ Hex Hd1) as Hexd1.
      assert (settings_document w1 = d1) as ->
        by (unfold json_exact in Hexd1; congruence).
      by apply (remove_after_install_total self (settings_document w)).
    - apply remove_settings_typed_total.
      apply (is_ClaudeSettings_toJSON d1); [|done].
      by apply (install_settings_typed self (settings_document w)). }
  pose proof (remove_settings_exact _ _ _ Hex1 Hd2) as Hex2.
  apply (remove_ok self fuel' w1 d2 d2); try done.
  - by apply Hl1.
  - by apply settings_document_parseable.
Qed.

(** After [install] on an object whose [hooks] is an object or falsy, each
    of the three events holds a list that ends with the matcher of this
    system, which has the command of the script. *)
Lemma install_written_matcher (self : HookService) (fuel : nat)
    (config : JsVal) (w w1 : World) (K path : jsstring) (hook : JsVal) :
  hooks_object (settings_document w) ->
  install self fuel config w = Some (Ok tt, w1) ->
  In (K, path, hook) (our_events self) ->
  exists l, hook_event (settings_document w1) K = Some (JArr (l ++ [hook])) /\
            has_command path hook = true.
Proof.
  intros (m & h & Hm & Hh) Hi Hin.
  destruct (install_written self _ config w w1 Hi) as (d1 & Hd1 & Hj1 & _).
  rewrite Hm in Hd1.
  destruct (install_settings_object self m h d1 Hh Hd1) as (hf & -> & _ & Hours).
  destruct (Hours K path hook Hin) as [Hf _].
  destruct (our_events_hook self K path hook Hin) as (matcher & ->).
  exists (List.map as_written (list_before_push path (h !! K))). split.
  - rewrite (hook_event_toJSON _ _ K Hj1). unfold hook_event. cbn [field].
    rewrite lookup_insert_eq. cbn [mbind option_bind field]. rewrite Hf.
    cbn [mbind option_bind]. rewrite toJSON_arr, List.map_app. cbn [List.map].
    by rewrite (as_written_exact _ (json_exact_hookMatcher matcher path)).
  - apply has_command_hookMatcher.
Qed.

(** C3.  When [install] or [remove] resolves, the document in the file
    afterwards holds, under every top-level key other than [hooks] and
    under every hook event other than [Notification], [Stop] and
    [PermissionRequest], what [JSON.stringify] writes of what was there,
    and under each of the three events what it writes of the matchers that
    have no entry with the command of the script of the event, in their
    order ([install] puts the matcher of this system after them, [remove]
    deletes the event when none is left); when the method rejects, the
    file is as it was.  From a document that [JSON.stringify] writes as it
    is, what is kept is kept unchanged, the matchers kept being those the
    ownership test of the code does not own, which are those without the
    command of the script.  With the lock free both methods
    settle.  On the document of the scenario [install] resolves, and
    [Notification] then holds the matcher of the other tool followed by
    this system's. *)
Theorem install_remove_frame (self : HookService) (fuel : nat) (config : JsVal)
    (w : World) :
  (forall r w', install self fuel config w = Some (r, w') ->
                settings_outcome (install_writes self) w r w') /\
  (forall r w', remove self fuel w = Some (r, w') ->
                settings_outcome (remove_writes self) w r w') /\
  (json_exact (settings_document w) ->
   (forall r w', install self fuel config w = Some (r, w') ->
                 settings_outcome (install_frame self) w r w' /\
                 settings_outcome (install_keeps self) w r w') /\
   (forall r w', remove self fuel w = Some (r, w') ->
                 settings_outcome (remove_frame self) w r w' /\
                 settings_outcome (remove_strips self) w r w')) /\
  (settings_lock w = None ->
   (exists r w', install self (S fuel) config w = Some (r, w')) /\
   (exists r w', remove self (S fuel) w = Some (r, w'))) /\
  (settings_lock w = None ->
   settings_json w = Json scenario_settings ->
   scriptPath self <> lit "/other/tool.sh" ->
   exists w', install self (S fuel) config w = Some (Ok tt, w') /\
     hook_event (settings_document w') (lit "Notification")
       = Some (JArr [other_tool_matcher; notifyHook self])).
Proof.
  split; [|split; [|split; [|split]]].
  - intros r w'. by apply install_writes_outcome.
  - intros r w' Hr. apply remove_inv in Hr as (_ & _ & Hr).
    destruct r as [[]|e]; [|exact Hr].
    destruct Hr as (Hj & (d' & dj & HT & Hdj & Hw') & _).
    assert (Hdoc : settings_document w' = dj)
      by (unfold settings_document; by rewrite Hw').
    unfold settings_outcome. rewrite Hdoc. split; [done|].
    by apply (remove_settings_writes self _ d').
  - intros Hex. split; intros r w' Hr.
    + split; [exact (install_outcome self fuel config w r w' Hex Hr)|].
      destruct r as [[]|e];
        [|exact (install_outcome self fuel config w _ w' Hex Hr)].
      destruct (install_document self _ config w w' Hex Hr) as (Hd & Hj & _).
      split; [done|]. by apply install_settings_keeps.
    + split; [exact (remove_outcome self fuel w r w' Hex Hr)|].
      destruct r as [[]|e]; [|exact (remove_outcome self fuel w _ w' Hex Hr)].
      destruct (remove_document self _ w w' Hex Hr) as (Hd & Hj & _).
      split; [done|]. by apply remove_settings_strips.
  - intros Hfree. split; [by apply install_settles | by apply remove_settles].
  - intros Hfree Hjson Hpath.
    assert (Hdoc : settings_document w = scenario_settings)
      by (unfold settings_document; by rewrite Hjson).
    assert (Hex : json_exact (settings_document w))
      by (rewrite Hdoc; apply scenario_settings_exact).
    destruct (is_ClaudeSettings_testable self _ scenario_settings_typed)
      as (m & h & Hm & Hh & Htest).
    destruct (install_settings_total self m h Hh Htest) as [d' Hd'].
    rewrite <- Hm, <- Hdoc in Hd'.
    pose proof (install_settings_exact _ _ _ Hex Hd') as Hex'.
    destruct (install_ok self fuel config w d' d') as [w' Hi];
      [done|by rewrite Hjson|done|done|].
    exists w'. split; [done|].
    destruct (install_document self _ config w w' Hex Hi) as (Hd2 & _).
    apply install_settings_frame in Hd2 as (_ & _ & Hours).
    destruct (Hours (lit "Notification") (scriptPath self) (notifyHook self)
                [other_tool_matcher]) as [-> _].
    + unfold our_events. by left.
    + by rewrite Hdoc.
    + unfold without_owned, owned, other_tool_matcher. cbn [List.filter].
      rewrite isOurHook_hookMatcher_other by done. done.
Qed.

(** C4.  From a settings document that is an object whose [hooks] is an
    object, or falsy, or not there, two calls of [install] in a row with
    the same configuration that both resolve leave, under each of the
    three hook events, a list in which exactly one matcher has an entry
    with the command of the script of the event, and on exactly one the
    ownership test of the code answers true.  Both calls resolve when the
    lock is free and can be removed and the settings file is absent or
    holds a document of the declared type (an object whose [hooks], when
    there, is an object of lists of matchers), or a document of that
    shape that is written as it is and on whose matchers under the three
    events the ownership test returns. *)
Theorem install_twice_one_owned (self : HookService) (fuel1 fuel2 : nat)
    (config : JsVal) (w : World) :
  (forall w1 w2,
     hooks_object (settings_document w) ->
     install self fuel1 config w = Some (Ok tt, w1) ->
     install self fuel2 config w1 = Some (Ok tt, w2) ->
     forall K path hook, In (K, path, hook) (our_events self) ->
       exists l, hook_event (settings_document w2) K = Some (JArr l) /\
                 count_command path l = 1%nat /\ count_owned path l = 1%nat) /\
  (settings_lock w = None ->
   lock_unlinkable w = true ->
   settings_json w <> Unparseable ->
   is_ClaudeSettings (settings_document w) \/
   (json_exact (settings_document w) /\
    exists m h, settings_document w = JObj m /\
      js_or (default JUndefined (m !! lit "hooks")) (JObj ∅) = JObj h /\
      events_testable self h) ->
   exists w1 w2,
     install self (S fuel1) config w = Some (Ok tt, w1) /\
     install self (S fuel2) config w1 = Some (Ok tt, w2)).
Proof.
  split.
  - intros w1 w2 Hobj Hi1 Hi2 K path hook Hin.
    by apply (install_twice_counts self fuel1 fuel2 config w w1 w2 K path hook).
  - intros Hfree Hunlink Hjson [Htyped | (Hex & m & h & Hm & Hh & Htest)].
    + by apply install_twice_resolves.
    + by apply (install_twice_resolves_exact self fuel1 fuel2 config w m h).
Qed.

(** C5.  Once [install] has resolved: when [remove] then resolves,
    [isInstalled] answers false, and would even with the script put back;
    the document in the file is the one [install] wrote with, under each
    of the three hook events, the list without the matchers that have an
    entry with the command of the script of the event, the event being
    deleted when no matcher is left and [hooks] being deleted when no
    event is left; no matcher left under one of the three events has that
    command.  What [install] wrote held, from a document that is an object
    whose [hooks] is an object or falsy, the matcher of this system under
    each of the three events.  And [remove] resolves when the lock file
    can be removed and the document [install] started from is written by
    [JSON.stringify] as it is or has the declared type. *)
Theorem remove_after_install (self : HookService) (fuel fuel' : nat)
    (config : JsVal) (w w1 : World) :
  install self fuel config w = Some (Ok tt, w1) ->
  (forall w2, remove self fuel' w1 = Some (Ok tt, w2) ->
     isInstalled self w2 = Some (Ok false, w2) /\
     (forall script, isInstalled self (set_notify_sh (Some script) w2)
                     = Some (Ok false, set_notify_sh (Some script) w2)) /\
     remove_strips self (settings_document w1) (settings_document w2) /\
     (forall K path hook l, In (K, path, hook) (our_events self) ->
        hook_event (settings_document w2) K = Some (JArr l) ->
        Forall (fun h => has_command path h = false) l /\ l <> []) /\
     (forall hf, field (settings_document w2) (lit "hooks") = Some (JObj hf) ->
                 hf <> ∅)) /\
  (hooks_object (settings_document w) ->
   forall K path hook, In (K, path, hook) (our_events self) ->
     exists l, hook_event (settings_document w1) K = Some (JArr (l ++ [hook])) /\
               has_command path hook = true) /\
  (lock_unlinkable w = true ->
   json_exact (settings_document w) \/ is_ClaudeSettings (settings_document w) ->
   exists w2, remove self (S fuel') w1 = Some (Ok tt, w2)).
Proof.
  intros Hi. split; [|split].
  - intros w2 Hr.
    destruct (install_written self _ config w w1 Hi) as (_ & _ & _ & _ & Hex1 & _).
    by apply (remove_written self fuel').
  - intros Hobj K path hook Hin.
    by apply (install_written_matcher self fuel config w w1).
  - intros Hunlink Hdoc.
    by apply (remove_after_install_resolves self fuel fuel' config w w1).
Qed.

End SettingsMethods.

(** [install] resolves in the world of the scenario. *)
Lemma install_scenario_world :
  exists w1, install (H := example_builtins) example_service 1 JUndefined
               scenario_world = Some (Ok tt, w1).
Proof. eexists. vm_compute. reflexivity. Qed.

Lemma install_remove_frame_witness :
  exists w',
    install (H := example_builtins) example_service 1 JUndefined scenario_world
      = Some (Ok tt, w') /\
    hook_event (settings_document w') (lit "Notification")
      = Some (JArr [other_tool_matcher; notifyHook example_service]).
Proof.
  apply (install_remove_frame (H := example_builtins) example_service 0
           JUndefined scenario_world);
    [reflexivity | reflexivity | discriminate].
Defined.

(** C3, as stated, fails: a number beyond the range of a double under a key
    of another tool is read as [Infinity], and [install] writes it back as
    [null]. *)
Lemma install_rewrites_overflow :
  exists w',
    install (H := example_builtins) example_service 1 JUndefined
      (settings_world overflow_settings) = Some (Ok tt, w') /\
    field (settings_document (settings_world overflow_settings)) (lit "fontSize")
      = Some (JNum infinity) /\
    field (settings_document w') (lit "fontSize") = Some JNull /\
    field (settings_document w') (lit "fontSize")
      <> field (settings_document (settings_world overflow_settings))
           (lit "fontSize").
Proof.
  eexists. split; [vm_compute; reflexivity|].
  split; [reflexivity|]. split; [vm_compute; reflexivity|].
  vm_compute. discriminate.
Qed.

Lemma install_twice_one_owned_witness :
  exists w1 w2,
    install (H := example_builtins) example_service 1 JUndefined scenario_world
      = Some (Ok tt, w1) /\
    install (H := example_builtins) example_service 1 JUndefined w1
      = Some (Ok tt, w2) /\
    forall K path hook, In (K, path, hook) (our_events example_service) ->
      exists l, hook_event (settings_document w2) K = Some (JArr l) /\
                count_command path l = 1%nat /\ count_owned path l = 1%nat.
Proof.
  destruct (install_twice_one_owned (H := example_builtins) example_service
              0 0 JUndefined scenario_world) as [_ Hresolves].
  destruct (Hresolves eq_refl eq_refl
              ltac:(discriminate) (or_introl scenario_settings_typed))
    as (w1 & w2 & Hi1 & Hi2).
  exists w1, w2. split; [exact Hi1|]. split; [exact Hi2|].
  destruct (install_twice_one_owned (H := example_builtins) example_service
              1 1 JUndefined scenario_world) as [Hcounts _].
  apply (Hcounts w1 w2); [|exact Hi1|exact Hi2].
  eexists _, _. split; reflexivity.
Defined.

(** C4, as stated, fails: when [hooks] holds an array, [install] assigns
    its three events as properties of the array, which [JSON.stringify]
    does not write; both calls resolve and no event holds a matcher. *)
Lemma install_twice_on_array_hooks :
  exists w1 w2,
    install (H := example_builtins) example_service 1 JUndefined
      (settings_world array_hooks_settings) = Some (Ok tt, w1) /\
    install (H := example_builtins) example_service 1 JUndefined w1
      = Some (Ok tt, w2) /\
    settings_document w2 = array_hooks_settings /\
    forall K, hook_event (settings_document w2) K = None.
Proof.
  eexists _, _. split; [vm_compute; reflexivity|].
  split; [vm_compute; reflexivity|]. split; [vm_compute; reflexivity|].
  intros K. reflexivity.
Qed.

Lemma remove_after_install_witness :
  exists w1 w2,
    install (H := example_builtins) example_service 1 JUndefined scenario_world
      = Some (Ok tt, w1) /\
    remove example_service 1 w1 = Some (Ok tt, w2) /\
    isInstalled example_service w2 = Some (Ok false, w2) /\
    (exists l, hook_event (settings_document w1) (lit "Notification")
               = Some (JArr (l ++ [notifyHook example_service]))) /\
    forall l, hook_event (settings_document w2) (lit "Notification")
              = Some (JArr l) ->
              Forall (fun h => has_command (scriptPath example_service) h
                               = false) l.
Proof.
  destruct install_scenario_world as [w1 Hi1].
  destruct (remove_after_install (H := example_builtins) example_service 1 0
              JUndefined scenario_world w1 Hi1) as (_ & Hmatcher & Hresolves).
  destruct (Hresolves eq_refl (or_introl scenario_settings_exact)) as [w2 Hr].
  destruct (remove_after_install (H := example_builtins) example_service 1 1
              JUndefined scenario_world w1 Hi1) as (Hstate & _).
  destruct (Hstate w2 Hr) as (His & _ & _ & Hnone & _).
  exists w1, w2. split; [exact Hi1|]. split; [exact Hr|]. split; [exact His|].
  split.
  - destruct (Hmatcher
                ltac:(eexists _, _; split; reflexivity)
                (lit "Notification") (scriptPath example_service)
                (notifyHook example_service) (or_introl eq_refl))
      as (l & Hl & _).
    by exists l.
  - intros l Hl.
    apply (Hnone (lit "Notification") (scriptPath example_service)
             (notifyHook example_service) l (or_introl eq_refl) Hl).
Defined.

(** C5, as stated, fails: a number beyond the range of a double in the
    entries of a matcher under [Stop] is read as [Infinity], on which the
    ownership test answers false, and written by [install] as [null], on
    which it throws; [remove] then rejects before it writes anything, and
    [isInstalled] still answers true. *)
Lemma remove_rejects_after_install :
  exists w1 w2 e,
    install (H := example_builtins) example_service 1 JUndefined
      (settings_world overflow_entry_settings) = Some (Ok tt, w1) /\
    remove example_service 1 w1 = Some (Throw e, w2) /\
    isInstalled example_service w2 = Some (Ok true, w2).
Proof.
  eexists _, _, _. split; [vm_compute; reflexivity|].
  split; [vm_compute; reflexivity|]. vm_compute. reflexivity.
Qed.

(** ** ConfigService *)

Lemma setting_get (partial : JsVal) (kind : jsstring) :
  nullish partial = false ->
  (p_notifications ← get partial (lit "notifications");
   opt_get p_notifications kind)
  = Ok (default JUndefined (setting_of partial kind)).
Proof.
  intros Hp. rewrite (get_field _ _ Hp). unfold setting_of.
  cbn [mbind Result_bind].
  destruct (field partial (lit "notifications")) as [n|];
    cbn [default from_option id mbind option_bind]; [|done].
  by destruct n.
Qed.

(** The setting [mergeWithDefaults] builds for a kind. *)
Lemma mergeWithDefaults_setting_eq (partial : JsVal) (kind : jsstring) :
  nullish partial = false ->
  In kind notificationTypes ->
  exists md,
    setting_of DEFAULT_CONFIG kind = Some (JObj md) /\
    mergeWithDefaults_setting partial kind
      = Ok (JObj (spread (default JUndefined (setting_of partial kind)) ∪ md)).
Proof.
  intros Hp Hkind. unfold mergeWithDefaults_setting.
  destruct (DEFAULT_CONFIG_setting kind Hkind) as (md & Hmd & _).
  exists md. split.
  - unfold notificationTypes in Hkind. cbn [In] in Hkind.
    destruct Hkind as [<- | [<- | [<- | [<- | []]]]];
      vm_compute in Hmd; injection Hmd as <-; reflexivity.
  - apply bind_Ok in Hmd as (dn & Hdn & Hds). rewrite Hdn.
    cbn [mbind Result_bind]. rewrite Hds. cbn [mbind Result_bind].
    pose proof (setting_get partial kind Hp) as Hs.
    apply bind_Ok in Hs as (pn & Hpn & Hps). rewrite Hpn.
    cbn [mbind Result_bind]. rewrite Hps. reflexivity.
Qed.

Lemma DEFAULT_CONFIG_top_level :
  get DEFAULT_CONFIG (lit "enabled") = Ok (JBool true) /\
  get DEFAULT_CONFIG (lit "volume") = Ok (JNum 70) /\
  get DEFAULT_CONFIG (lit "cooldown") = Ok (JNum 3) /\
  field DEFAULT_CONFIG (lit "enabled") = Some (JBool true) /\
  field DEFAULT_CONFIG (lit "volume") = Some (JNum 70) /\
  field DEFAULT_CONFIG (lit "cooldown") = Some (JNum 3).
Proof. repeat split; reflexivity. Qed.

(** [mergeWithDefaults] throws on [null] and [undefined] only, and on any
    other value returns this object. *)
Lemma mergeWithDefaults_eq (partial : JsVal) :
  nullish partial = false ->
  exists pp ip ed rc,
    mergeWithDefaults partial =
      Ok (obj [
        (lit "enabled",
         js_coalesce (default JUndefined (field partial (lit "enabled")))
                     (JBool true));
        (lit "volume",
         js_coalesce (default JUndefined (field partial (lit "volume")))
                     (JNum 70));
        (lit "cooldown",
         js_coalesce (default JUndefined (field partial (lit "cooldown")))
                     (JNum 3));
        (lit "notifications", obj [
          (lit "permission_prompt", pp); (lit "idle_prompt", ip);
          (lit "elicitation_dialog", ed); (lit "response_complete", rc)])]) /\
    mergeWithDefaults_setting partial (lit "permission_prompt") = Ok pp /\
    mergeWithDefaults_setting partial (lit "idle_prompt") = Ok ip /\
    mergeWithDefaults_setting partial (lit "elicitation_dialog") = Ok ed /\
    mergeWithDefaults_setting partial (lit "response_complete") = Ok rc.
Proof.
  intros Hp.
  destruct (mergeWithDefaults_setting_eq partial (lit "permission_prompt") Hp)
    as (m1 & _ & H1); [unfold notificationTypes; cbn [In]; tauto|].
  destruct (mergeWithDefaults_setting_eq partial (lit "idle_prompt") Hp)
    as (m2 & _ & H2); [unfold notificationTypes; cbn [In]; tauto|].
  destruct (mergeWithDefaults_setting_eq partial (lit "elicitation_dialog") Hp)
    as (m3 & _ & H3); [unfold notificationTypes; cbn [In]; tauto|].
  destruct (mergeWithDefaults_setting_eq partial (lit "response_complete") Hp)
    as (m4 & _ & H4); [unfold notificationTypes; cbn [In]; tauto|].
  destruct DEFAULT_CONFIG_top_level as (D1 & D2 & D3 & _).
  eexists _, _, _, _.
  split; [|split; [exact H1|split; [exact H2|split; [exact H3|exact H4]]]].
  unfold mergeWithDefaults.
  rewrite (get_field partial (lit "enabled") Hp),
    (get_field partial (lit "volume") Hp),
    (get_field partial (lit "cooldown") Hp), D1, D2, D3, H1, H2, H3, H4.
  reflexivity.
Qed.

Lemma mergeWithDefaults_nullish (partial : JsVal) :
  nullish partial = true -> mergeWithDefaults partial = Throw TypeError.
Proof.
  intros Hp. unfold mergeWithDefaults. by rewrite (get_nullish partial (lit "enabled") Hp).
Qed.

Lemma verbatim_or_default_coalesce (partial : JsVal) (k : jsstring) (d : JsVal) :
  field DEFAULT_CONFIG k = Some d ->
  Some (js_coalesce (default JUndefined (field partial k)) d)
  = verbatim_or_default partial k.
Proof.
  intros Hd. unfold verbatim_or_default, js_coalesce. rewrite Hd.
  destruct (field partial k) as [v|]; cbn [default from_option id nullish];
    [|done].
  by destruct (nullish v).
Qed.

(** What [mergeWithDefaults] returns, key by key. *)
Lemma mergeWithDefaults_spec (partial r : JsVal) :
  mergeWithDefaults partial = Ok r -> merged_untyped partial r.
Proof.
  intros Hr.
  destruct (nullish partial) eqn:Hp;
    [by rewrite mergeWithDefaults_nullish in Hr|].
  destruct (mergeWithDefaults_eq partial Hp)
    as (pp & ip & ed & rc & Heq & H1 & H2 & H3 & H4).
  rewrite Heq in Hr. injection Hr as <-.
  destruct DEFAULT_CONFIG_top_level as (_ & _ & _ & D1 & D2 & D3).
  split.
  - intros k Hk. unfold top_level_keys in Hk. cbn [In] in Hk.
    destruct Hk as [<- | [<- | [<- | []]]].
    + by rewrite <- (verbatim_or_default_coalesce _ _ _ D1).
    + by rewrite <- (verbatim_or_default_coalesce _ _ _ D2).
    + by rewrite <- (verbatim_or_default_coalesce _ _ _ D3).
  - intros kind k Hkind.
    destruct (mergeWithDefaults_setting_eq partial kind Hp Hkind)
      as (md & Hmd & Hs).
    assert (Hset : setting_of
                     (obj [
                       (lit "enabled",
                        js_coalesce (default JUndefined
                                       (field partial (lit "enabled")))
                                    (JBool true));
                       (lit "volume",
                        js_coalesce (default JUndefined
                                       (field partial (lit "volume")))
                                    (JNum 70));
                       (lit "cooldown",
                        js_coalesce (default JUndefined
                                       (field partial (lit "cooldown")))
                                    (JNum 3));
                       (lit "notifications", obj [
                         (lit "permission_prompt", pp); (lit "idle_prompt", ip);
                         (lit "elicitation_dialog", ed);
                         (lit "response_complete", rc)])]) kind
                   = Some (JObj (spread (default JUndefined
                                           (setting_of partial kind)) ∪ md))).
    { unfold notificationTypes in Hkind. cbn [In] in Hkind.
      destruct Hkind as [<- | [<- | [<- | [<- | []]]]].
      - transitivity (Some pp); [reflexivity|congruence].
      - transitivity (Some ip); [reflexivity|congruence].
      - transitivity (Some ed); [reflexivity|congruence].
      - transitivity (Some rc); [reflexivity|congruence]. }
    rewrite Hset. unfold spread_over_default. rewrite Hmd.
    cbn [mbind option_bind field]. rewrite lookup_union.
    by destruct (spread _ !! k), (md !! k).
Qed.

Lemma mergeWithDefaults_empty : mergeWithDefaults (JObj ∅) = Ok DEFAULT_CONFIG.
Proof. vm_compute. reflexivity. Qed.

Lemma merged_untyped_nullish (partial : JsVal) :
  nullish partial = true -> merged_untyped partial DEFAULT_CONFIG.
Proof.
  intros Hp.
  destruct (mergeWithDefaults_spec _ _ mergeWithDefaults_empty) as [Htop Hset].
  split.
  - intros k Hk. rewrite (Htop k Hk). unfold verbatim_or_default.
    cbn [field]. rewrite lookup_empty. by destruct partial.
  - intros kind k Hkind. rewrite (Hset kind k Hkind).
    unfold spread_over_default, setting_of. cbn [field mbind option_bind].
    rewrite lookup_empty. by destruct partial.
Qed.

(** *** Merging what was written *)

Lemma setting_of_toJSON (cfg dj : JsVal) (kind : jsstring) :
  toJSON cfg = Some dj -> setting_of dj kind = setting_of cfg kind ≫= toJSON.
Proof.
  intros Hd. unfold setting_of. rewrite (field_toJSON cfg dj _ Hd).
  destruct (field cfg (lit "notifications")) as [v|]; cbn [mbind option_bind];
    [|done].
  destruct (toJSON v) as [v'|] eqn:Hv; cbn [mbind option_bind].
  - by apply field_toJSON.
  - apply toJSON_None in Hv. by subst.
Qed.

Lemma js_coalesce_written (o : option JsVal) (d : JsVal) :
  (forall v, o = Some v -> nullish v = true \/ json_exact v) ->
  js_coalesce (default JUndefined (o ≫= toJSON)) d
  = js_coalesce (default JUndefined o) d.
Proof.
  intros Ho. destruct o as [v|]; [|done].
  destruct (Ho v eq_refl) as [Hn | Hex].
  - by destruct v.
  - cbn [mbind option_bind]. by rewrite Hex.
Qed.

(** What is spread of a setting that is kept is what was spread of it. *)
Lemma spread_written (o : option JsVal) :
  setting_kept (default JUndefined o) ->
  spread (default JUndefined (o ≫= toJSON)) = spread (default JUndefined o).
Proof.
  destruct o as [p|]; [|done]. cbn [default from_option id mbind option_bind].
  destruct p; cbn [setting_kept toJSON default from_option id]; try done.
  - intros _. by repeat case_match.
  - unfold json_exact. cbn [toJSON]. by intros [= ->].
  - unfold json_exact. cbn [toJSON]. by intros [= ->].
Qed.

Lemma spread_written_as_read (lacking : jsstring -> Prop) (o : option JsVal)
    (md : gmap jsstring JsVal) (k : jsstring) :
  setting_kept_as_read lacking (default JUndefined o) ->
  (lacking k -> md !! k = None) ->
  default JUndefined
    ((spread (default JUndefined (o ≫= toJSON)) ∪ md) !! k)
  = default JUndefined ((spread (default JUndefined o) ∪ md) !! k).
Proof.
  intros Hkept Hlack.
  destruct o as [p|]; [|done]. cbn [default from_option id mbind option_bind].
  destruct p; cbn [setting_kept_as_read toJSON default from_option id] in *;
    try done.
  - by repeat case_match.
  - unfold json_exact in Hkept. cbn [toJSON] in Hkept.
    by injection Hkept as ->.
  - cbn [spread]. rewrite !lookup_union, lookup_omap.
    destruct (m !! k) as [v|] eqn:Hv; cbn [mbind option_bind]; [|done].
    destruct (Hkept k v Hv) as [Hex | [-> Hl]].
    + by rewrite Hex.
    + cbn [toJSON]. rewrite (Hlack Hl). done.
Qed.

(** [mergeWithDefaults] looks at three top-level values and at what is
    spread of four settings, and at nothing else. *)
Lemma mergeWithDefaults_ext (a b : JsVal) :
  nullish a = false -> nullish b = false ->
  (forall k d, In k top_level_keys ->
     js_coalesce (default JUndefined (field a k)) d
     = js_coalesce (default JUndefined (field b k)) d) ->
  (forall kind, In kind notificationTypes ->
     spread (default JUndefined (setting_of a kind))
     = spread (default JUndefined (setting_of b kind))) ->
  mergeWithDefaults a = mergeWithDefaults b.
Proof.
  intros Ha Hb Htop Hset.
  destruct (mergeWithDefaults_eq a Ha) as (p1 & p2 & p3 & p4 & -> & A1 & A2 & A3 & A4).
  destruct (mergeWithDefaults_eq b Hb) as (q1 & q2 & q3 & q4 & -> & B1 & B2 & B3 & B4).
  assert (Hs : forall kind p q, In kind notificationTypes ->
            mergeWithDefaults_setting a kind = Ok p ->
            mergeWithDefaults_setting b kind = Ok q -> p = q).
  { intros kind p q Hkind Hp Hq.
    destruct (mergeWithDefaults_setting_eq a kind Ha Hkind) as (md & Hmd & Hpa).
    destruct (mergeWithDefaults_setting_eq b kind Hb Hkind) as (md' & Hmd' & Hqb).
    assert (md' = md) as -> by congruence.
    rewrite (Hset kind Hkind) in Hpa. congruence. }
  assert (p1 = q1) as ->
    by (apply (Hs (lit "permission_prompt")); try done;
        unfold notificationTypes; cbn [In]; tauto).
  assert (p2 = q2) as ->
    by (apply (Hs (lit "idle_prompt")); try done;
        unfold notificationTypes; cbn [In]; tauto).
  assert (p3 = q3) as ->
    by (apply (Hs (lit "elicitation_dialog")); try done;
        unfold notificationTypes; cbn [In]; tauto).
  assert (p4 = q4) as ->
    by (apply (Hs (lit "response_complete")); try done;
        unfold notificationTypes; cbn [In]; tauto).
  rewrite (Htop (lit "enabled") (JBool true))
    by (unfold top_level_keys; cbn [In]; tauto).
  rewrite (Htop (lit "volume") (JNum 70))
    by (unfold top_level_keys; cbn [In]; tauto).
  rewrite (Htop (lit "cooldown") (JNum 3))
    by (unfold top_level_keys; cbn [In]; tauto).
  reflexivity.
Qed.

(** A configuration whose top-level values and settings are kept merges,
    once written, into what it merges into. *)
Lemma mergeWithDefaults_written (cfg dj : JsVal) :
  toJSON cfg = Some dj -> nullish dj = false ->
  top_level_kept cfg -> settings_kept cfg ->
  mergeWithDefaults dj = mergeWithDefaults cfg.
Proof.
  intros Hj Hnj Htop Hset.
  assert (Hn : nullish cfg = false)
    by (destruct cfg; cbn [toJSON] in Hj; try done; by injection Hj as <-).
  apply mergeWithDefaults_ext; try done.
  - intros k d Hk. rewrite (field_toJSON cfg dj k Hj).
    apply js_coalesce_written. intros v. by apply (Htop k).
  - intros kind Hkind. rewrite (setting_of_toJSON cfg dj kind Hj).
    apply spread_written. by apply Hset.
Qed.

Lemma mergeWithDefaults_written_as_read (cfg dj r r' : JsVal) :
  toJSON cfg = Some dj ->
  mergeWithDefaults dj = Ok r -> mergeWithDefaults cfg = Ok r' ->
  top_level_kept cfg -> settings_kept_as_read cfg ->
  same_reads r r'.
Proof.
  intros Hj Hr Hr' Htop Hset.
  assert (Hnj : nullish dj = false)
    by (destruct (nullish dj) eqn:Hn; [|done];
        by rewrite (mergeWithDefaults_nullish dj Hn) in Hr).
  assert (Hn : nullish cfg = false)
    by (destruct (nullish cfg) eqn:Hn; [|done];
        by rewrite (mergeWithDefaults_nullish cfg Hn) in Hr').
  destruct (mergeWithDefaults_spec dj r Hr) as [T1 S1].
  destruct (mergeWithDefaults_spec cfg r' Hr') as [T2 S2].
  split.
  - intros k Hk. rewrite (T1 k Hk), (T2 k Hk).
    assert (exists d, field DEFAULT_CONFIG k = Some d) as [d Hd].
    { unfold top_level_keys in Hk. cbn [In] in Hk.
      destruct Hk as [<- | [<- | [<- | []]]]; by eexists. }
    rewrite <- (verbatim_or_default_coalesce dj k d Hd),
            <- (verbatim_or_default_coalesce cfg k d Hd).
    f_equal. rewrite (field_toJSON cfg dj k Hj).
    apply js_coalesce_written. intros v. by apply (Htop k).
  - intros kind k Hkind. rewrite (S1 kind k Hkind), (S2 kind k Hkind).
    destruct (mergeWithDefaults_setting_eq cfg kind Hn Hkind) as (md & Hmd & _).
    unfold spread_over_default. rewrite Hmd. cbn [mbind option_bind field].
    rewrite (setting_of_toJSON cfg dj kind Hj).
    pose proof (spread_written_as_read _ (setting_of cfg kind) md k
                  (Hset kind Hkind)) as Hk.
    rewrite !lookup_union in Hk.
    assert (Hlack : (s ← setting_of DEFAULT_CONFIG kind; field s k) = None ->
                    md !! k = None)
      by (by rewrite Hmd).
    specialize (Hk Hlack). revert Hk.
    by destruct (spread _ !! k), (spread _ !! k), (md !! k).
Qed.

(** A number merges into the defaults. *)
Lemma mergeWithDefaults_number (x : float) :
  mergeWithDefaults (JNum x) = Ok DEFAULT_CONFIG.
Proof. vm_compute. reflexivity. Qed.

Section ConfigClaims.
Context `{Builtins}.

(** [load] on a document that is not in the old profile format. *)
Lemma load_eq (parsed : JsVal) (w : World) :
  notify_config_json w = Json parsed ->
  legacy_format parsed = false ->
  load w = Some (match mergeWithDefaults parsed with
                 | Ok r => (Ok r, w)
                 | Throw _ => (Ok DEFAULT_CONFIG, w)
                 end).
Proof.
  intros Hjson Hleg.
  unfold load, try_catch, mbind, IO_bind, io_bind, io_lift, read_config.
  rewrite Hjson.
  destruct (nullish parsed) eqn:Hp.
  - rewrite (get_nullish parsed (lit "profiles") Hp).
    by rewrite (mergeWithDefaults_nullish parsed Hp).
  - rewrite (get_field parsed (lit "profiles") Hp).
    unfold legacy_format in Hleg.
    destruct (truthy (default JUndefined (field parsed (lit "profiles"))))
      eqn:Hprofiles.
    + rewrite (get_field parsed (lit "currentProfile") Hp).
      cbn [andb] in Hleg |- *. rewrite Hleg.
      by destruct (mergeWithDefaults parsed).
    + cbn [andb]. by destruct (mergeWithDefaults parsed).
Qed.

(** [load] on a document in the old profile format. *)
Lemma load_legacy_eq (parsed : JsVal) (w : World) :
  notify_config_json w = Json parsed ->
  legacy_format parsed = true ->
  load w =
    match computed_member (legacy_profiles parsed) (legacy_current parsed) with
    | Ok member =>
        match mergeWithDefaults (js_or member DEFAULT_CONFIG) with
        | Ok r =>
            match toJSON r with
            | Some dj => Some (Ok r, set_notify_config_json (Json dj) w)
            | None => Some (Ok DEFAULT_CONFIG, w)
            end
        | Throw _ => Some (Ok DEFAULT_CONFIG, w)
        end
    | Throw _ => Some (Ok DEFAULT_CONFIG, w)
    end.
Proof.
  intros Hjson Hleg.
  assert (Hp : nullish parsed = false).
  { destruct parsed; try done. }
  unfold legacy_format in Hleg. apply andb_true_iff in Hleg as [Hprofiles Hcurrent].
  unfold load, try_catch, mbind, IO_bind, io_bind, io_lift, read_config, save,
    legacy_profiles, legacy_current.
  rewrite Hjson, (get_field parsed (lit "profiles") Hp), Hprofiles,
    (get_field parsed (lit "currentProfile") Hp), Hcurrent.
  cbn [andb].
  destruct (computed_member _ _) as [member|e]; [|done].
  destruct (mergeWithDefaults (js_or member DEFAULT_CONFIG)) as [r|e]; [|done].
  by destruct (toJSON r).
Qed.

Lemma load_legacy (parsed member : JsVal) (w : World) :
  notify_config_json w = Json parsed ->
  legacy_format parsed = true ->
  computed_member (legacy_profiles parsed) (legacy_current parsed) = Ok member ->
  exists r w', load w = Some (Ok r, w') /\
               mergeWithDefaults (js_or member DEFAULT_CONFIG) = Ok r /\
               merged_untyped (js_or member DEFAULT_CONFIG) r.
Proof.
  intros Hjson Hleg Hmember.
  rewrite (load_legacy_eq parsed w Hjson Hleg), Hmember.
  assert (Hp : nullish (js_or member DEFAULT_CONFIG) = false).
  { unfold js_or. destruct (truthy member) eqn:Hm; [|done].
    by apply truthy_not_nullish. }
  destruct (mergeWithDefaults_eq _ Hp) as (pp & ip & ed & rc & Hr & _).
  rewrite Hr. cbn [toJSON obj].
  eexists _, _. split; [reflexivity|]. split; [done|].
  by apply mergeWithDefaults_spec.
Qed.

Lemma save_load_written (cfg dj : JsVal) (w : World) :
  toJSON cfg = Some dj ->
  legacy_format dj = false ->
  save cfg w = Some (Ok tt, set_notify_config_json (Json dj) w) /\
  load (set_notify_config_json (Json dj) w)
  = Some (match mergeWithDefaults dj with
          | Ok r => (Ok r, set_notify_config_json (Json dj) w)
          | Throw _ => (Ok DEFAULT_CONFIG, set_notify_config_json (Json dj) w)
          end).
Proof.
  intros Hj Hleg. split.
  - unfold save. by rewrite Hj.
  - by apply load_eq.
Qed.

(** C8, amended.  For a configuration [cfg] that is neither [null] nor
    [undefined] and whose written form [dj] does not have the old profile
    format, [save] writes [dj] and [load] then returns, leaving the file as
    written, what [mergeWithDefaults] returns on [dj] (the defaults when
    [dj] is [null]).  That is equal to what [mergeWithDefaults] returns on
    [cfg] when the top-level values and the settings of [cfg] are kept by
    the writing, and reads the same, property by property, also when a
    setting has an [undefined] property under a key the default setting
    lacks. *)
Theorem save_load_round_trip (cfg dj : JsVal) (w : World) :
  toJSON cfg = Some dj ->
  nullish cfg = false ->
  legacy_format dj = false ->
  exists r r' w1,
    save cfg w = Some (Ok tt, w1) /\
    notify_config_json w1 = Json dj /\
    load w1 = Some (Ok r, w1) /\
    mergeWithDefaults cfg = Ok r' /\
    (nullish dj = false -> mergeWithDefaults dj = Ok r) /\
    (top_level_kept cfg -> settings_kept cfg -> r = r') /\
    (top_level_kept cfg -> settings_kept_as_read cfg -> same_reads r r').
Proof.
  intros Hj Hn Hleg.
  destruct (save_load_written cfg dj w Hj Hleg) as [Hsave Hload].
  destruct (mergeWithDefaults_eq cfg Hn) as (pp & ip & ed & rc & Hr' & _).
  destruct (nullish dj) eqn:Hnj.
  - assert (exists x, cfg = JNum x) as [x ->].
    { destruct cfg; cbn [toJSON] in Hj; try done;
        try (injection Hj as <-; done). by eexists. }
    rewrite (mergeWithDefaults_nullish dj Hnj) in Hload.
    eexists DEFAULT_CONFIG, _, _.
    split; [exact Hsave|]. split; [done|]. split; [exact Hload|].
    split; [apply mergeWithDefaults_number|]. split; [done|].
    split; [done|]. intros _ _. by split.
  - destruct (mergeWithDefaults_eq dj Hnj) as (pp' & ip' & ed' & rc' & Hr & _).
    rewrite Hr in Hload.
    eexists _, _, _.
    split; [exact Hsave|]. split; [done|]. split; [exact Hload|].
    split; [exact Hr'|]. split; [done|]. split.
    + intros Htop Hset.
      pose proof (mergeWithDefaults_written cfg dj Hj Hnj Htop Hset) as Heq.
      rewrite Hr, Hr' in Heq.
      apply (f_equal (fun x => match x with
                               | Ok c => c
                               | Throw _ => JUndefined
                               end)) in Heq.
      exact Heq.
    + intros Htop Hset.
      by apply (mergeWithDefaults_written_as_read cfg dj).
Qed.

(** C10, amended.  On a configuration file holding a document that does
    not have the old profile format, [load] returns, without touching the
    file, a configuration in which [enabled], [volume] and [cooldown] are
    the values of the document as they are, whatever their type, unless
    absent or [null], when they are the defaults; and in which every
    property of the setting of a kind is the one the document has under
    that key in its setting when the key is there, and the default
    otherwise; a string under [volume] comes back as that string.  On a
    document in the old profile format, [load] returns the same of the
    selected profile, or of the defaults when the selection is falsy, and
    the defaults when selecting throws. *)
Theorem load_untyped (parsed : JsVal) (w : World) :
  notify_config_json w = Json parsed ->
  (legacy_format parsed = false ->
   exists r, load w = Some (Ok r, w) /\
             merged_untyped parsed r /\
             forall s, field parsed (lit "volume") = Some (JStr s) ->
                       field r (lit "volume") = Some (JStr s)) /\
  (legacy_format parsed = true ->
   (forall member,
      computed_member (legacy_profiles parsed) (legacy_current parsed)
        = Ok member ->
      exists r w', load w = Some (Ok r, w') /\
                   merged_untyped (js_or member DEFAULT_CONFIG) r) /\
   (forall e,
      computed_member (legacy_profiles parsed) (legacy_current parsed)
        = Throw e ->
      load w = Some (Ok DEFAULT_CONFIG, w))).
Proof.
  intros Hjson. split.
  - intros Hleg. rewrite (load_eq parsed w Hjson Hleg).
    assert (Hr : exists r,
              match mergeWithDefaults parsed with
              | Ok r => (Ok r, w)
              | Throw _ => (Ok DEFAULT_CONFIG, w)
              end = (Ok r, w) /\ merged_untyped parsed r).
    { destruct (nullish parsed) eqn:Hp.
      - exists DEFAULT_CONFIG. rewrite (mergeWithDefaults_nullish parsed Hp).
        split; [done|]. by apply merged_untyped_nullish.
      - destruct (mergeWithDefaults_eq parsed Hp) as (pp & ip & ed & rc & Hr & _).
        eexists. rewrite Hr. split; [done|]. by apply mergeWithDefaults_spec. }
    destruct Hr as (r & -> & Hm). exists r. split; [done|]. split; [done|].
    intros s Hs. destruct Hm as [Htop _].
    rewrite (Htop (lit "volume")) by (unfold top_level_keys; cbn [In]; tauto).
    unfold verbatim_or_default. by rewrite Hs.
  - intros Hleg. split.
    + intros member Hmember.
      destruct (load_legacy parsed member w Hjson Hleg Hmember)
        as (r & w' & Hl & _ & Hm).
      by exists r, w'.
    + intros e He. by rewrite (load_legacy_eq parsed w Hjson Hleg), He.
Qed.

End ConfigClaims.

Lemma save_load_round_trip_witness :
  exists r w1,
    save partial_config (config_world DEFAULT_CONFIG) = Some (Ok tt, w1) /\
    load (H := example_builtins) w1 = Some (Ok r, w1) /\
    mergeWithDefaults partial_config = Ok r /\
    field r (lit "volume") = Some (JNum 25) /\
    ~ json_exact partial_config.
Proof.
  destruct (save_load_round_trip (H := example_builtins) partial_config _
              (config_world DEFAULT_CONFIG) eq_refl eq_refl eq_refl)
    as (r & r' & w1 & Hsave & _ & Hload & Hr' & _ & Heq & _).
  assert (r = r') as <-.
  { apply Heq.
    - intros k v Hk. unfold top_level_keys in Hk. cbn [In] in Hk.
      destruct Hk as [<- | [<- | [<- | []]]]; intros [= <-];
        [by left | right; vm_compute; reflexivity].
    - intros kind Hkind. unfold notificationTypes in Hkind. cbn [In] in Hkind.
      destruct Hkind as [<- | [<- | [<- | [<- | []]]]];
        vm_compute; reflexivity. }
  exists r, w1. split; [exact Hsave|]. split; [exact Hload|].
  split; [exact Hr'|]. split.
  - destruct (mergeWithDefaults_spec _ _ Hr') as [Htop _].
    rewrite (Htop (lit "volume"))
      by (unfold top_level_keys; cbn [In]; tauto).
    reflexivity.
  - intros Hex. vm_compute in Hex. discriminate.
Defined.

Lemma load_untyped_witness :
  (exists r,
     load (H := example_builtins)
       (config_world (obj [(lit "volume", JStr (lit "loud"))]))
       = Some (Ok r, config_world (obj [(lit "volume", JStr (lit "loud"))])) /\
     field r (lit "volume") = Some (JStr (lit "loud"))) /\
  (exists r w',
     load (H := example_builtins) (config_world legacy_document)
       = Some (Ok r, w') /\
     merged_untyped (obj []) r).
Proof.
  split.
  - destruct (load_untyped (H := example_builtins)
                (obj [(lit "volume", JStr (lit "loud"))])
                (config_world (obj [(lit "volume", JStr (lit "loud"))]))
                eq_refl) as [Hplain _].
    destruct (Hplain eq_refl) as (r & Hl & _ & Hv).
    exists r. split; [exact Hl|]. by apply Hv.
  - destruct (load_untyped (H := example_builtins) legacy_document
                (config_world legacy_document) eq_refl) as [_ Hlegacy].
    destruct (Hlegacy eq_refl) as [Hmember _].
    apply (Hmember (obj []) eq_refl).
Defined.

Lemma volume_70_finite : Some (JNum 70) <> Some (JNum infinity).
Proof.
  intros Heq.
  apply (f_equal (fun o => match o with
                           | Some (JNum x) => PrimFloat.is_infinity x
                           | _ => false
                           end)) in Heq.
  vm_compute in Heq. discriminate.
Qed.

(** C8, as stated, fails: a configuration whose volume is [Infinity] is
    written with the volume [null], and comes back with the default 70,
    where [mergeWithDefaults] keeps [Infinity]. *)
Lemma save_load_infinite_volume :
  exists w1 r r',
    save infinite_volume_config empty_world = Some (Ok tt, w1) /\
    load (H := example_builtins) w1 = Some (Ok r, w1) /\
    mergeWithDefaults infinite_volume_config = Ok r' /\
    field r (lit "volume") = Some (JNum 70) /\
    field r' (lit "volume") = Some (JNum infinity) /\
    r <> r'.
Proof.
  assert (Hj : exists d0, toJSON infinite_volume_config = Some d0 /\
                          field d0 (lit "volume") = Some JNull /\
                          legacy_format d0 = false /\ nullish d0 = false).
  { eexists. split; [vm_compute; reflexivity|].
    split; [|split]; vm_compute; reflexivity. }
  destruct Hj as (d0 & Hd0 & Hv0 & Hleg0 & Hp0).
  assert (exists r, mergeWithDefaults d0 = Ok r) as [r Hr]
    by (destruct (mergeWithDefaults_eq d0 Hp0) as (? & ? & ? & ? & ? & _);
        by eexists).
  assert (exists r', mergeWithDefaults infinite_volume_config = Ok r')
    as [r' Hr']
    by (destruct (mergeWithDefaults_eq infinite_volume_config eq_refl)
          as (? & ? & ? & ? & ? & _); by eexists).
  pose proof (mergeWithDefaults_spec _ _ Hr) as [Htop _].
  pose proof (mergeWithDefaults_spec _ _ Hr') as [Htop' _].
  assert (Hin : In (lit "volume") top_level_keys)
    by (unfold top_level_keys; cbn [In]; tauto).
  specialize (Htop _ Hin). specialize (Htop' _ Hin).
  unfold verbatim_or_default in Htop, Htop'. rewrite Hv0 in Htop.
  change (field infinite_volume_config (lit "volume"))
    with (Some (JNum infinity)) in Htop'.
  change (field DEFAULT_CONFIG (lit "volume")) with (Some (JNum 70)) in Htop.
  cbn [nullish] in Htop, Htop'.
  exists (set_notify_config_json (Json d0) empty_world), r, r'.
  split; [unfold save; by rewrite Hd0|].
  split; [rewrite (load_eq (H := example_builtins) d0) by done; by rewrite Hr|].
  split; [exact Hr'|]. split; [exact Htop|]. split; [exact Htop'|].
  intros Heq. rewrite Heq, Htop' in Htop. by apply volume_70_finite.
Qed.

(** C10, as stated, fails on a document in the old profile format: [load]
    returns the selected profile merged over the defaults, and the
    top-level volume of the document is not in it. *)
Lemma load_legacy_document :
  exists r w',
    load (H := example_builtins) (config_world legacy_document)
      = Some (Ok r, w') /\
    field legacy_document (lit "volume") = Some (JStr (lit "loud")) /\
    field r (lit "volume") = Some (JNum 70).
Proof.
  eexists _, _. split; [vm_compute; reflexivity|].
  split; [reflexivity|vm_compute; reflexivity].
Qed.

(** * Further properties *)

(** ** The lock *)

(** X1.  A lock file older than 30 s that can be removed is removed at the
    first attempt and the lock is taken at the second, without any wait:
    the clock has not moved, the new lock file carries the time of the
    call, and the settings file is untouched. *)
Theorem stale_lock_taken_at_once (fuel : nat) (timeoutMs mtimeMs : Z) (w : World) :
  settings_lock w = Some mtimeMs ->
  now w - mtimeMs > 30000 ->
  lock_unlinkable w = true ->
  exists w', acquireSettingsLock (S (S fuel)) timeoutMs w = Some (Ok tt, w') /\
             now w' = now w /\
             settings_lock w' = Some (now w) /\
             settings_json w' = settings_json w.
Proof.
  intros Hlock Hage Hunlink.
  rewrite (acquireSettingsLock_stale fuel timeoutMs mtimeMs w) by done.
  by eexists.
Qed.

Lemma stale_lock_taken_at_once_witness :
  exists w', acquireSettingsLock 2 default_timeoutMs stale_lock_world
               = Some (Ok tt, w') /\
             now w' = 31001 /\
             settings_lock w' = Some 31001 /\
             settings_json w' = Absent.
Proof.
  apply (stale_lock_taken_at_once 0 default_timeoutMs 0 stale_lock_world);
    [reflexivity | reflexivity | reflexivity].
Defined.





(** ** The backup of a foreign script *)

Lemma starts_with_spec (needle hay : jsstring) :
  starts_with needle hay = true <-> needle `prefix_of` hay.
Proof.
  revert hay. induction needle as [|c needle IH]; intros hay.
  - split; [intros _; apply prefix_nil|done].
  - destruct hay as [|d hay]; cbn [starts_with].
    + split; [done|]. intros [post Hpost]. discriminate.
    + rewrite andb_true_iff, N.eqb_eq, IH. split.
      * intros [-> Hp]. by apply prefix_cons.
      * intros [post [= -> ->]]. split; [done|]. by exists post.
Qed.

(** [includes] is the search for a contiguous run. *)
Lemma includes_spec (needle hay : jsstring) :
  includes needle hay = true <-> occurs_in needle hay.
Proof.
  induction hay as [|d hay IH]; cbn [includes]; rewrite orb_true_iff.
  - rewrite starts_with_spec. split.
    + intros [Hp|]; [|done]. by apply occurs_in_prefix.
    + intros (pre & post & Heq). left.
      destruct pre; [|discriminate]. by exists post.
  - rewrite starts_with_spec, IH. split.
    + intros [Hp|Ho]; [by apply occurs_in_prefix|by apply occurs_in_cons].
    + intros (pre & post & Heq). destruct pre as [|c pre].
      * left. by exists post.
      * right. injection Heq as -> ->. by exists pre, post.
Qed.

Lemma generateScript_case_extends (config : JsVal) (script type script' : jsstring) :
  generateScript_case config script type = Ok script' ->
  exists block, script' = script ++ block.
Proof.
  unfold generateScript_case. intros Hc.
  apply bind_Ok in Hc as (n & _ & Hc). apply bind_Ok in Hc as (s & _ & Hc).
  apply bind_Ok in Hc as (e & _ & Hc).
  destruct (negb (truthy e)); [injection Hc as <-; by eexists|].
  apply bind_Ok in Hc as (mo & _ & Hc).
  destruct (is_string (lit "talk") mo).
  - apply bind_Ok in Hc as (v & _ & Hc). apply bind_Ok in Hc as (v' & _ & Hc).
    apply bind_Ok in Hc as (t & _ & Hc). apply bind_Ok in Hc as (t' & _ & Hc).
    injection Hc as <-. by eexists.
  - apply bind_Ok in Hc as (so & _ & Hc). apply bind_Ok in Hc as (so' & _ & Hc).
    injection Hc as <-. by eexists.
Qed.

Lemma foldM_generateScript_case_extends (config : JsVal) (types : list jsstring) :
  forall script script',
    foldM (generateScript_case config) script types = Ok script' ->
    exists blocks, script' = script ++ blocks.
Proof.
  induction types as [|type types IH]; intros script script'; cbn [foldM].
  - intros [= <-]. exists []. by rewrite app_nil_r.
  - intros Hf. apply bind_Ok in Hf as (s1 & H1 & Hf).
    apply generateScript_case_extends in H1 as (b1 & ->).
    apply IH in Hf as (bs & ->). exists (b1 ++ bs). by rewrite app_assoc.
Qed.

Section Signature.
Context `{Builtins}.

(** Whatever the configuration, a script [generateScript] returns carries
    the signature line. *)
Lemma generateScript_signature (config : JsVal) (script : jsstring) :
  generateScript config = Ok script -> includes script_signature script = true.
Proof.
  unfold generateScript. intros Hg.
  apply bind_Ok in Hg as (cv & _ & Hg). apply bind_Ok in Hg as (volume & _ & Hg).
  apply bind_Ok in Hg as (cc & _ & Hg). apply bind_Ok in Hg as (cooldown & _ & Hg).
  apply bind_Ok in Hg as (ce & _ & Hg). apply bind_Ok in Hg as (s & Hf & Hg).
  injection Hg as <-.
  apply foldM_generateScript_case_extends in Hf as (blocks & ->).
  apply includes_spec. unfold script_signature.
  generalize (Boolean_toString (is_true ce)) as e.
  generalize (Number_toString (volume / 100)%float) as v.
  generalize (Number_toString cooldown) as c. intros c v e.
  apply occurs_in_app_l, occurs_in_app_l.
  rewrite <- ?app_assoc.
  let sig := eval vm_compute in
               (lit "# Claude Code Notify - Auto-generated script") in
  change (lit "# Claude Code Notify - Auto-generated script") with sig.
  find_occurrence.
Qed.

End Signature.

Lemma acquireSettingsLock_loop_backup (fuel : nat) (timeoutMs startTime : Z) :
  forall w r w',
    acquireSettingsLock_loop fuel timeoutMs startTime w = Some (r, w') ->
    notify_sh_backup w' = notify_sh_backup w.
Proof.
  induction fuel as [|fuel IH]; intros w r w'; [done|].
  rewrite acquireSettingsLock_loop_S.
  destruct (settings_lock w) as [mtimeMs|].
  - destruct (now w - mtimeMs >? 30000).
    + destruct (lock_unlinkable w); intros Hrec; by apply IH in Hrec.
    + destruct (now w - startTime >? timeoutMs).
      * by intros [= <- <-].
      * intros Hrec. by apply IH in Hrec.
  - by intros [= <- <-].
Qed.

Lemma releaseSettingsLock_backup (w : World) :
  notify_sh_backup (releaseSettingsLock w) = notify_sh_backup w.
Proof. unfold releaseSettingsLock. by destruct (lock_unlinkable w). Qed.

Lemma critical_section_backup (T : JsVal -> Result JsVal) (w : World)
    (r : Result unit) (w' : World) :
  try_finally
    (settings ← loadSettings;
     settings ← io_lift (T settings);
     saveSettings settings)
    releaseSettingsLock w = Some (r, w') ->
  notify_sh_backup w' = notify_sh_backup w.
Proof.
  rewrite critical_section_eq. intros [= Heq].
  destruct (settings_json w);
    (destruct (T (settings_document w)) as [d'|e];
     [destruct (toJSON d') as [dj|]|]);
    injection Heq as <- <-; by rewrite releaseSettingsLock_backup.
Qed.

Section Backup.
Context `{Builtins}.

(** X4.  Whenever [install] settles, resolved or rejected: a script found
    at [hooks/notify.sh] that does not carry the signature line of this
    extension has been copied to the backup; a script that carries it, or
    no script, leaves the backup as it was; and the script now at
    [hooks/notify.sh] carries the signature, so that a later [install]
    leaves the backup alone. *)
Theorem install_backs_up_foreign_script (self : HookService) (fuel : nat)
    (config : JsVal) (w : World) (r : Result unit) (w' : World) :
  install self fuel config w = Some (r, w') ->
  notify_sh_backup w' =
    match notify_sh w with
    | Some content =>
        if includes script_signature content then notify_sh_backup w
        else Some content
    | None => notify_sh_backup w
    end /\
  exists script, notify_sh w' = Some script /\
                 includes script_signature script = true.
Proof.
  unfold install.
  assert (Hb : exists w1,
            backupExistingScript w = Some (Ok tt, w1) /\
            notify_sh_backup w1 =
              match notify_sh w with
              | Some content =>
                  if includes script_signature content then notify_sh_backup w
                  else Some content
              | None => notify_sh_backup w
              end).
  { unfold backupExistingScript, script_signature.
    destruct (notify_sh w) as [content|]; [|by eexists].
    destruct (includes _ content); by eexists. }
  destruct Hb as (w1 & Hb & Hbackup).
  rewrite (io_bind_ok _ _ w w1 tt Hb).
  destruct (writeScripts_ok config w1)
    as (script & stopScript & permissionScript & Hw & v & Hv & Hg & _).
  rewrite (io_bind_ok _ _ w1 _ tt Hw).
  pose proof (generateScript_signature v script Hg) as Hsig.
  destruct (acquireSettingsLock fuel default_timeoutMs
              (set_permission_notify_sh (Some permissionScript)
                 (set_stop_notify_sh (Some stopScript)
                    (set_notify_sh (Some script) w1)))) as [[ra w3]|] eqn:Ha.
  2: { by rewrite (io_bind_none _ _ _ Ha). }
  pose proof (acquireSettingsLock_loop_backup _ _ _ _ _ _ Ha) as Hb3.
  destruct (acquireSettingsLock_same _ _ _ _ _ Ha) as (_ & _ & _ & A4 & _).
  cbn [notify_sh notify_sh_backup set_permission_notify_sh set_stop_notify_sh
       set_notify_sh] in Hb3, A4.
  destruct ra as [[]|e].
  - rewrite (io_bind_ok _ _ _ _ _ Ha). intros Hcs.
    pose proof (critical_section_backup _ _ _ _ Hcs) as Hb4.
    apply critical_section_spec in Hcs as (_ & _ & C3 & _).
    split; [congruence|]. exists script. split; [congruence|done].
  - rewrite (io_bind_throw _ _ _ _ _ Ha). intros [= <- <-].
    split; [congruence|]. exists script. split; [congruence|done].
Qed.

End Backup.

Lemma install_backs_up_foreign_script_witness :
  exists r w',
    install (H := example_builtins) example_service 1 JUndefined
      foreign_script_world = Some (r, w') /\
    notify_sh_backup w' = notify_sh foreign_script_world /\
    exists script, notify_sh w' = Some script /\
                   includes script_signature script = true.
Proof.
  destruct (install_settles (H := example_builtins) example_service 0
              JUndefined foreign_script_world eq_refl) as (r & w' & Hi).
  exists r, w'. split; [exact Hi|].
  exact (install_backs_up_foreign_script (H := example_builtins) example_service
           1 JUndefined foreign_script_world r w' Hi).
Defined.

(** ** What the methods leave behind *)

Section MethodOutcomes.
Context `{Builtins}.


End MethodOutcomes.





(** ** Laws of [install] and [remove] on the settings document *)

Lemma without_owned_app (path : jsstring) (l1 l2 : list JsVal) :
  without_owned path (l1 ++ l2) = without_owned path l1 ++ without_owned path l2.
Proof. unfold without_owned. apply List.filter_app. Qed.

Lemma list_before_push_filtered (path : jsstring) (o : option JsVal) :
  without_owned path (list_before_push path o) = list_before_push path o.
Proof.
  destruct o as [[]|]; try done. cbn [list_before_push].
  apply without_owned_idemp.
Qed.

Lemma without_owned_pushed (path : jsstring) (o : option JsVal) (hook : JsVal) :
  isOurHook path hook = Ok true ->
  without_owned path (list_before_push path o ++ [hook])
  = list_before_push path o.
Proof.
  intros Hown. rewrite without_owned_app, list_before_push_filtered.
  unfold without_owned at 1, owned. cbn [List.filter]. rewrite Hown.
  cbn [negb]. apply app_nil_r.
Qed.

Lemma after_remove_idemp (path : jsstring) (o : option JsVal) :
  after_remove path (after_remove path o) = after_remove path o.
Proof.
  destruct o as [[]|]; try done. cbn [after_remove].
  destruct (without_owned path l) as [|c l'] eqn:Hl; [done|].
  cbn [after_remove]. rewrite <- Hl, without_owned_idemp. by rewrite Hl.
Qed.

Lemma our_events_owned (self : HookService) (K path : jsstring) (hook : JsVal) :
  In (K, path, hook) (our_events self) -> isOurHook path hook = Ok true.
Proof.
  intros Hin. destruct (our_events_hook self K path hook Hin) as (matcher & ->).
  apply isOurHook_hookMatcher.
Qed.

(** Two [hooks] objects that agree on every event are the same. *)
Lemma hooks_eq (self : HookService) (h1 h2 : gmap jsstring JsVal) :
  (forall K, ~ In K our_event_names -> h1 !! K = h2 !! K) ->
  (forall K path hook, In (K, path, hook) (our_events self) -> h1 !! K = h2 !! K) ->
  h1 = h2.
Proof.
  intros Hother Hours. apply map_eq. intros K.
  destruct (our_event_names_dec K) as [Hin | Hout]; [|by apply Hother].
  destruct (our_events_names self K Hin) as (path & hook & Hin' & _).
  by apply (Hours K path hook).
Qed.

(** X7.  [remove] is idempotent on the settings document: on a document it
    has returned it returns, and returns that document. *)
Theorem remove_settings_idempotent (self : HookService) (d d1 : JsVal) :
  remove_settings self d = Ok d1 -> remove_settings self d1 = Ok d1.
Proof.
  intros Hr.
  assert (Hdel : forall m, remove_settings self (JObj (delete (lit "hooks") m))
                           = Ok (JObj (delete (lit "hooks") m))).
  { intros m. unfold remove_settings. cbn [get mbind Result_bind].
    by rewrite lookup_delete_eq. }
  destruct (remove_settings_cases self d d1 Hr)
    as [(m & h & hf & -> & Hh & Hchain & ->) | (_ & _ & [-> | (m & -> & ->)])];
    [|done|apply Hdel].
  case_decide as Hsize; [apply Hdel|].
  destruct (remove_hooks_testable self h hf Hchain) as [_ Htest].
  destruct (remove_hooks_spec self h hf Hchain) as [_ Hours].
  destruct (remove_settings_total self m hf Htest) as [d2 Hd2].
  rewrite Hd2. f_equal.
  destruct (remove_settings_object self _ hf d2 (lookup_insert_eq _ _ _) Hd2)
    as (hf2 & -> & _ & _ & S1 & S2).
  assert (hf2 = hf) as ->.
  { apply (hooks_eq self); [done|]. intros K path hook Hin.
    rewrite (S2 K path hook Hin), (Hours K path hook Hin).
    apply after_remove_idemp. }
  rewrite decide_False by done. by rewrite insert_insert_eq.
Qed.

Lemma remove_settings_idempotent_witness :
  exists d1, remove_settings example_service scenario_settings = Ok d1 /\
             remove_settings example_service d1 = Ok d1.
Proof.
  assert (Hr : exists d1, remove_settings example_service scenario_settings
                          = Ok d1)
    by (eexists; vm_compute; reflexivity).
  destruct Hr as [d1 Hr]. exists d1. split; [exact Hr|].
  exact (remove_settings_idempotent example_service scenario_settings d1 Hr).
Defined.

(** [install] is idempotent on the settings document. *)
Lemma install_settings_idempotent (self : HookService) (d d1 : JsVal) :
  install_settings self d = Ok d1 -> install_settings self d1 = Ok d1.
Proof.
  intros Hi.
  destruct (install_settings_cases self d d1 Hi)
    as [(m & h & -> & Hh) | (-> & _)]; [|done].
  destruct (install_settings_object self m h d1 Hh Hi) as (hf & Hd1 & S1 & S2).
  destruct (install_settings_testable self m h d1 Hh Hi) as (hf' & Hd1' & Htest).
  assert (hf' = hf) as ->.
  { rewrite Hd1 in Hd1'. injection Hd1' as Heq.
    apply (f_equal (fun x => x !! lit "hooks")) in Heq.
    rewrite !lookup_insert_eq in Heq. congruence. }
  clear Hd1'. subst d1.
  assert (Hh1 : js_or (default JUndefined
                         (<[lit "hooks" := JObj hf]> m !! lit "hooks"))
                  (JObj ∅) = JObj hf)
    by (by rewrite lookup_insert_eq).
  destruct (install_settings_total self _ hf Hh1 Htest) as [d2 Hd2].
  rewrite Hd2. f_equal.
  destruct (install_settings_object self _ hf d2 Hh1 Hd2) as (hf2 & -> & T1 & T2).
  assert (hf2 = hf) as ->.
  { apply (hooks_eq self); [done|]. intros K path hook Hin.
    destruct (T2 K path hook Hin) as [-> _].
    destruct (S2 K path hook Hin) as [-> _].
    cbn [list_before_push].
    by rewrite (without_owned_pushed path _ hook (our_events_owned _ _ _ _ Hin)). }
  by rewrite insert_insert_eq.
Qed.

(** On a document of the declared type, what is written of the document
    [install_settings] returns is a document [install_settings] returns
    unchanged. *)
Lemma install_settings_written_fixpoint (self : HookService) (d d1 dj : JsVal) :
  is_ClaudeSettings d ->
  install_settings self d = Ok d1 -> toJSON d1 = Some dj ->
  install_settings self dj = Ok dj.
Proof.
  intros Htyped Hi Hj.
  destruct (is_ClaudeSettings_hooks d Htyped) as (m & h & -> & Hh & Hlists).
  pose proof (install_settings_typed self _ d1 Htyped Hi) as Htyped1.
  pose proof (is_ClaudeSettings_toJSON d1 dj Htyped1 Hj) as Htypedj.
  destruct (install_settings_object self m h d1 Hh Hi) as (hf & -> & S1 & S2).
  cbn [toJSON] in Hj. injection Hj as <-.
  set (mj := omap toJSON (<[lit "hooks" := JObj hf]> m)) in *.
  assert (Hmj : mj !! lit "hooks" = Some (JObj (omap toJSON hf)))
    by (unfold mj; by rewrite lookup_omap, lookup_insert_eq).
  assert (Hhj : js_or (default JUndefined (mj !! lit "hooks")) (JObj ∅)
                = JObj (omap toJSON hf)) by (by rewrite Hmj).
  destruct (is_ClaudeSettings_testable self _ Htypedj)
    as (m' & h' & [= <-] & Hh' & Htest).
  assert (h' = omap toJSON hf) as -> by congruence.
  destruct (install_settings_total self mj _ Hhj Htest) as [d2 Hd2].
  rewrite Hd2. f_equal.
  destruct (install_settings_object self mj _ d2 Hhj Hd2)
    as (hf2 & -> & T1 & T2).
  assert (hf2 = omap toJSON hf) as ->.
  { apply (hooks_eq self); [done|]. intros K path hook Hin.
    destruct (T2 K path hook Hin) as [-> _].
    rewrite lookup_omap. destruct (S2 K path hook Hin) as [-> _].
    cbn [mbind option_bind]. rewrite toJSON_arr. cbn [list_before_push].
    rewrite List.map_app. cbn [List.map].
    destruct (our_events_hook self K path hook Hin) as (matcher & ->).
    rewrite (as_written_exact _ (json_exact_hookMatcher matcher path)).
    assert (Hkept : without_owned path
                      (List.map as_written (list_before_push path (h !! K)))
                    = List.map as_written (list_before_push path (h !! K))).
    { assert (Hall : Forall (fun x => is_ClaudeHookMatcher x /\
                                      owned path x = false)
                       (list_before_push path (h !! K))).
      { destruct (h !! K) as [v|] eqn:Hv; cbn [list_before_push];
          [|constructor].
        destruct (Hlists K v Hv) as (l & -> & Htl).
        apply Forall_forall. intros x Hx. apply filter_In in Hx as [Hx Hnot].
        rewrite Forall_forall in Htl. split; [by apply Htl|].
        by destruct (owned path x). }
      induction Hall as [|x l [Hx Hnot] _ IH]; [reflexivity|].
      cbn [List.map]. unfold without_owned. cbn [List.filter].
      fold (without_owned path (List.map as_written l)).
      unfold owned at 1. rewrite (isOurHook_as_written path x Hx).
      fold (owned path x). rewrite Hnot. cbn [negb]. by rewrite IH. }
    rewrite without_owned_app, Hkept.
    unfold without_owned at 1, owned. cbn [List.filter].
    rewrite isOurHook_hookMatcher. cbn [negb]. by rewrite app_nil_r. }
  by rewrite (insert_id mj (lit "hooks") _ Hmj).
Qed.

Section InstallAgain.
Context `{Builtins}.

(** X8.  Once [install] has resolved from a settings document that
    [JSON.stringify] writes as it is, or that has the declared type, with a
    lock file that can be removed, a second [install], with whatever
    configuration, resolves and writes the same settings document again:
    the settings file is as the first call left it. *)
Theorem second_install_same_document (self : HookService) (fuel fuel' : nat)
    (config config' : JsVal) (w w1 : World) :
  json_exact (settings_document w) \/ is_ClaudeSettings (settings_document w) ->
  lock_unlinkable w = true ->
  install self fuel config w = Some (Ok tt, w1) ->
  exists w2, install self (S fuel') config' w1 = Some (Ok tt, w2) /\
             settings_json w2 = settings_json w1.
Proof.
  intros Hdoc Hunlink Hi.
  pose proof Hi as Hi'. apply install_inv in Hi' as (_ & _ & Hr).
  destruct Hr as (_ & (d1 & dj & Hd1 & Hdj & Hw1) & Hl1 & _).
  assert (Hdoc1 : settings_document w1 = dj)
    by (unfold settings_document; by rewrite Hw1).
  pose proof (toJSON_exact d1 dj Hdj) as Hex1. rewrite <- Hdoc1 in Hex1.
  assert (Hd2 : install_settings self (settings_document w1)
                = Ok (settings_document w1)).
  { rewrite Hdoc1. destruct Hdoc as [Hex | Htyped].
    - pose proof (install_settings_exact _ _ _ Hex Hd1) as Hexd1.
      assert (dj = d1) as -> by (unfold json_exact in Hexd1; congruence).
      by apply (install_settings_idempotent self (settings_document w)).
    - by apply (install_settings_written_fixpoint self (settings_document w) d1). }
  assert (Hj1 : settings_json w1 = Json (settings_document w1)) by congruence.
  destruct (install_ok self fuel' config' w1 _ _ (Hl1 Hunlink)
              (settings_document_parseable w1 Hj1) Hd2 Hex1) as [w2 Hi2].
  exists w2. split; [exact Hi2|].
  destruct (install_document self _ config' w1 w2 Hex1 Hi2) as (Hd2' & Hj2 & _).
  rewrite Hj2, Hj1. f_equal. congruence.
Qed.

End InstallAgain.

Lemma second_install_same_document_witness :
  exists w1 w2,
    install (H := example_builtins) example_service 1 JUndefined scenario_world
      = Some (Ok tt, w1) /\
    install (H := example_builtins) example_service 1 JNull w1
      = Some (Ok tt, w2) /\
    settings_json w2 = settings_json w1.
Proof.
  destruct install_scenario_world as [w1 Hi1].
  destruct (second_install_same_document (H := example_builtins) example_service
              1 0 JUndefined JNull scenario_world w1
              (or_intror scenario_settings_typed) eq_refl Hi1)
    as (w2 & Hi2 & Hj).
  exists w1, w2. split; [exact Hi1|]. split; [exact Hi2|exact Hj].
Defined.

(** X9.  On a settings document of the declared type, [remove] after
    [install] returns what [remove] alone returns: the matchers [install]
    adds are exactly what [remove] takes away again, and nothing else is
    lost on the way.  So when the document is one [remove] leaves as it
    is, [install] followed by [remove] gives the document back. *)
Theorem remove_after_install_is_remove (self : HookService) (d d1 : JsVal) :
  is_ClaudeSettings d ->
  install_settings self d = Ok d1 ->
  exists d2, remove_settings self d = Ok d2 /\
             remove_settings self d1 = Ok d2 /\
             (remove_settings self d = Ok d -> remove_settings self d1 = Ok d).
Proof.
  intros Htyped Hi.
  assert (Hgoal : exists d2, remove_settings self d = Ok d2 /\
                             remove_settings self d1 = Ok d2).
  2: { destruct Hgoal as (d2 & H1 & H2). exists d2.
       split; [done|]. split; [done|]. intros Hfix. congruence. }
  destruct (remove_after_install_total self d d1 Hi) as [d2' Hd2'].
  destruct (is_ClaudeSettings_testable self d Htyped)
    as (m & h & -> & Hh & Htest).
  destruct (install_settings_object self m h d1 Hh Hi) as (hf & -> & S1 & S2).
  destruct (remove_settings_object self _ hf d2' (lookup_insert_eq _ _ _) Hd2')
    as (hr' & -> & _ & _ & R1' & R2').
  assert (Hpushed : forall K path hook, In (K, path, hook) (our_events self) ->
            hr' !! K = match list_before_push path (h !! K) with
                       | [] => None
                       | l' => Some (JArr l')
                       end).
  { intros K path hook Hin. rewrite (R2' K path hook Hin).
    destruct (S2 K path hook Hin) as [-> _]. cbn [after_remove].
    by rewrite (without_owned_pushed path _ hook (our_events_owned _ _ _ _ Hin)). }
  destruct Htyped as (m' & [= <-] & Htyped).
  destruct (m !! lit "hooks") as [hooks|] eqn:Hm.
  - destruct (Htyped hooks eq_refl) as (h0 & -> & Hlists).
    assert (h0 = h) as -> by (cbn in Hh; congruence).
    assert (Hid : m = <[lit "hooks" := JObj h]> m) by (by rewrite insert_id).
    destruct (remove_settings_total self m h Htest) as [d2 Hd2].
    rewrite <- Hid in Hd2.
    exists d2. split; [done|]. rewrite Hd2'. f_equal.
    destruct (remove_settings_object self m h d2 Hm Hd2)
      as (hr & -> & _ & _ & R1 & R2).
    assert (hr' = hr) as ->.
    { apply (hooks_eq self).
      - intros K HK. by rewrite R1', R1, S1.
      - intros K path hook Hin.
        rewrite (Hpushed K path hook Hin), (R2 K path hook Hin).
        destruct (h !! K) as [v|] eqn:HK; [|done].
        by destruct (Hlists K v HK) as (l & -> & _). }
    case_decide; [by rewrite delete_insert_eq|by rewrite insert_insert_eq].
  - assert (h = ∅) as -> by (cbn in Hh; congruence).
    exists (JObj m). split.
    + unfold remove_settings. cbn [get mbind Result_bind]. by rewrite Hm.
    + rewrite Hd2'. f_equal.
      assert (hr' = ∅) as ->.
      { apply (hooks_eq self).
        - intros K HK. by rewrite R1', S1.
        - intros K path hook Hin. rewrite (Hpushed K path hook Hin).
          by rewrite !lookup_empty. }
      rewrite decide_True by done.
      rewrite delete_insert_eq. by rewrite delete_id.
Qed.

Lemma remove_after_install_is_remove_witness :
  exists d1 d2,
    install_settings example_service scenario_settings = Ok d1 /\
    remove_settings example_service scenario_settings = Ok d2 /\
    remove_settings example_service d1 = Ok d2.
Proof.
  assert (Hi : exists d1, install_settings example_service scenario_settings
                          = Ok d1)
    by (eexists; vm_compute; reflexivity).
  destruct Hi as [d1 Hi].
  destruct (remove_after_install_is_remove example_service scenario_settings d1
              scenario_settings_typed Hi) as (d2 & H1 & H2 & _).
  exists d1, d2. split; [exact Hi|]. split; [exact H1|exact H2].
Defined.

(** ** [isInstalled] after [install] *)

(** X10.  [isInstalled] never rejects and changes nothing: it answers, and
    the answer is false when the script [hooks/notify.sh] is missing,
    whatever the settings hold, and false when the settings file cannot be
    parsed. *)
Theorem isInstalled_never_rejects (self : HookService) (w : World) :
  exists b, isInstalled self w = Some (Ok b, w) /\
            (notify_sh w = None -> b = false) /\
            (settings_json w = Unparseable -> b = false).
Proof.
  destruct (notify_sh w) as [script|] eqn:Hs.
  - rewrite (isInstalled_eq self w script Hs).
    destruct (settings_json w) eqn:Hj.
    + destruct (_ ≫= _) as [b|e]; [exists b|exists false]; by repeat split.
    + by exists false.
    + destruct (_ ≫= _) as [b|e]; [exists b|exists false]; by repeat split.
  - exists false. split; [by apply isInstalled_no_script|done].
Qed.

Section Installed.
Context `{Builtins}.

(** X11.  After [install] has resolved on a settings document of the
    declared type (an object whose [hooks], when there, is an object of
    lists of matchers), [isInstalled] answers true. *)
Theorem isInstalled_after_install (self : HookService) (fuel : nat)
    (config : JsVal) (w w1 : World) :
  is_ClaudeSettings (settings_document w) ->
  install self fuel config w = Some (Ok tt, w1) ->
  isInstalled self w1 = Some (Ok true, w1).
Proof.
  intros Htyped Hi.
  pose proof Hi as Hi'. apply install_inv in Hi' as (_ & _ & Hr).
  destruct Hr as (_ & (d1 & dj & Hd1 & Hj1 & Hw1) & _ & script & Hscript).
  assert (Hdoc : settings_document w1 = dj)
    by (unfold settings_document; by rewrite Hw1).
  rewrite (isInstalled_eq self w1 script Hscript), Hw1, Hdoc.
  destruct (is_ClaudeSettings_hooks _ Htyped) as (m & h & Hm & Hh & Hlists).
  rewrite Hm in Hd1.
  destruct (install_settings_object self m h _ Hh Hd1) as (hf & -> & _ & S2).
  destruct (S2 (lit "Notification") (scriptPath self) (notifyHook self))
    as [HN Hall]; [unfold our_events; by left|].
  cbn [toJSON] in Hj1. injection Hj1 as <-.
  cbn [opt_get nullish get mbind Result_bind].
  rewrite lookup_omap, lookup_insert_eq.
  cbn [mbind option_bind toJSON default from_option id opt_get nullish get
       Result_bind].
  rewrite lookup_omap, HN.
  cbn [mbind option_bind toJSON default from_option id].
  change (List.map (fun x => default JNull (toJSON x)))
    with (List.map as_written).
  rewrite List.map_app. cbn [List.map].
  unfold notifyHook.
  rewrite (as_written_exact _ (json_exact_hookMatcher _ (scriptPath self))).
  unfold isOurNotificationHook. rewrite someM_owned_last; [done| |].
  - apply Forall_forall. intros y Hy.
    apply in_map_iff in Hy as (x & <- & Hx).
    destruct (h !! lit "Notification") as [v|] eqn:Hv;
      cbn [list_before_push] in Hx; [|done].
    destruct (Hlists _ v Hv) as (l & -> & Htl). cbn [list_before_push] in Hx.
    apply filter_In in Hx as [Hx Hnot].
    rewrite Forall_forall in Htl.
    rewrite (isOurHook_as_written _ x (Htl x Hx)).
    destruct (isOurHook_ClaudeHookMatcher (scriptPath self) x (Htl x Hx))
      as [b Hb].
    unfold owned in Hnot. rewrite Hb in Hnot. rewrite Hb. by destruct b.
  - apply isOurHook_hookMatcher.
Qed.

End Installed.

Lemma isInstalled_after_install_witness :
  exists w1,
    install (H := example_builtins) example_service 1 JUndefined scenario_world
      = Some (Ok tt, w1) /\
    isInstalled example_service w1 = Some (Ok true, w1).
Proof.
  destruct install_scenario_world as [w1 Hi1]. exists w1. split; [exact Hi1|].
  exact (isInstalled_after_install (H := example_builtins) example_service 1
           JUndefined scenario_world w1 scenario_settings_typed Hi1).
Defined.

(** ** Loading the configuration *)

Section Loading.
Context `{Builtins}.

(** X12.  [load] never rejects: it always resolves with a configuration.
    When the configuration file is missing, cannot be parsed or holds
    [null], the configuration is [DEFAULT_CONFIG] and nothing is
    written. *)
Theorem load_never_rejects (w : World) :
  exists r w',
    load w = Some (Ok r, w') /\
    (notify_config_json w = Absent \/ notify_config_json w = Unparseable \/
     notify_config_json w = Json JNull ->
     r = DEFAULT_CONFIG /\ w' = w).
Proof.
  unfold load, try_catch, mbind, IO_bind, io_bind, io_lift, read_config, save.
  destruct (notify_config_json w) as [| |parsed] eqn:Hj.
  - exists DEFAULT_CONFIG, w. by split.
  - exists DEFAULT_CONFIG, w. by split.
  - destruct (get parsed (lit "profiles")) as [profiles|e] eqn:Hprofiles.
    2: { exists DEFAULT_CONFIG, w. by split. }
    assert (Hnull : parsed <> JNull) by (by intros ->).
    destruct (if truthy profiles then get parsed (lit "currentProfile")
              else Ok profiles) as [currentProfile|e].
    2: { exists DEFAULT_CONFIG, w. split; [done|]. by intros [|[|[= ->]]]. }
    destruct (truthy profiles && truthy currentProfile)%bool.
    + destruct (computed_member profiles currentProfile) as [member|e].
      2: { exists DEFAULT_CONFIG, w. split; [done|]. by intros [|[|[= ->]]]. }
      destruct (mergeWithDefaults (js_or member DEFAULT_CONFIG)) as [merged|e].
      2: { exists DEFAULT_CONFIG, w. split; [done|]. by intros [|[|[= ->]]]. }
      destruct (toJSON merged) as [dj|];
        eexists _, _; (split; [done|]); by intros [|[|[= ->]]].
    + destruct (mergeWithDefaults parsed) as [merged|e];
        eexists _, _; (split; [done|]); by intros [|[|[= ->]]].
Qed.

End Loading.

Lemma js_coalesce_idemp (v d : JsVal) :
  nullish d = false -> js_coalesce (js_coalesce v d) d = js_coalesce v d.
Proof.
  intros Hd. unfold js_coalesce.
  destruct (nullish v) eqn:Hv; [by rewrite Hd|by rewrite Hv].
Qed.

(** Merging a merged configuration over the defaults again returns it
    unchanged. *)
Lemma mergeWithDefaults_twice (partial : JsVal) :
  nullish partial = false ->
  exists r, mergeWithDefaults partial = Ok r /\ mergeWithDefaults r = Ok r.
Proof.
  intros Hp.
  destruct (mergeWithDefaults_eq partial Hp)
    as (pp & ip & ed & rc & Hr & H1 & H2 & H3 & H4).
  eexists. split; [exact Hr|].
  match goal with |- mergeWithDefaults ?x = _ => set (r := x) end.
  assert (Hsetting : forall kind x,
            In kind notificationTypes ->
            mergeWithDefaults_setting partial kind = Ok x ->
            setting_of r kind = Some x ->
            mergeWithDefaults_setting r kind = Ok x).
  { intros kind x Hkind Hx Hset.
    destruct (mergeWithDefaults_setting_eq partial kind Hp Hkind)
      as (md & Hmd & Hs).
    destruct (mergeWithDefaults_setting_eq r kind eq_refl Hkind)
      as (md' & Hmd' & ->).
    assert (md' = md) as -> by congruence.
    rewrite Hset. rewrite Hs in Hx. injection Hx as <-.
    cbn [default from_option id spread].
    by rewrite <- (assoc_L (∪)), (idemp_L (∪)). }
  destruct (mergeWithDefaults_eq r eq_refl)
    as (pp' & ip' & ed' & rc' & -> & H1' & H2' & H3' & H4').
  rewrite (Hsetting (lit "permission_prompt") pp) in H1';
    [|unfold notificationTypes; cbn [In]; tauto|done|reflexivity].
  rewrite (Hsetting (lit "idle_prompt") ip) in H2';
    [|unfold notificationTypes; cbn [In]; tauto|done|reflexivity].
  rewrite (Hsetting (lit "elicitation_dialog") ed) in H3';
    [|unfold notificationTypes; cbn [In]; tauto|done|reflexivity].
  rewrite (Hsetting (lit "response_complete") rc) in H4';
    [|unfold notificationTypes; cbn [In]; tauto|done|reflexivity].
  injection H1' as <-. injection H2' as <-. injection H3' as <-.
  injection H4' as <-.
  change (field r (lit "enabled"))
    with (Some (js_coalesce (default JUndefined (field partial (lit "enabled")))
                  (JBool true))).
  change (field r (lit "volume"))
    with (Some (js_coalesce (default JUndefined (field partial (lit "volume")))
                  (JNum 70))).
  change (field r (lit "cooldown"))
    with (Some (js_coalesce (default JUndefined (field partial (lit "cooldown")))
                  (JNum 3))).
  cbn [default from_option id]. by rewrite !js_coalesce_idemp.
Qed.

(** X13.  [mergeWithDefaults] throws on [null] and [undefined] and on
    nothing else, and it is idempotent: merging a merged configuration
    over the defaults again returns it unchanged. *)
Theorem mergeWithDefaults_idempotent (partial : JsVal) :
  (nullish partial = true /\ mergeWithDefaults partial = Throw TypeError) \/
  (nullish partial = false /\
   exists r, mergeWithDefaults partial = Ok r /\ mergeWithDefaults r = Ok r).
Proof.
  destruct (nullish partial) eqn:Hp;
    [left; split; [done|by apply mergeWithDefaults_nullish]|right].
  split; [done|]. by apply mergeWithDefaults_twice.
Qed.

Lemma json_exact_spread (v : JsVal) (k : jsstring) (x : JsVal) :
  json_exact v -> spread v !! k = Some x -> json_exact x.
Proof.
  intros Hex Hk. destruct v; cbn [spread] in Hk;
    try (by rewrite lookup_empty in Hk).
  - unfold indexed in Hk. apply elem_of_list_to_map_2 in Hk.
    apply elem_of_lookup_imap in Hk as (i & c & [= _ ->] & _). reflexivity.
  - unfold indexed in Hk. apply elem_of_list_to_map_2 in Hk.
    apply elem_of_lookup_imap in Hk as (i & a & [= _ ->] & Ha).
    apply json_exact_arr in Hex. by apply (Forall_lookup_1 _ _ _ _ Hex Ha).
  - by apply (json_exact_field (JObj m) k).
Qed.

Lemma json_exact_coalesce (config : JsVal) (k : jsstring) (d : JsVal) :
  json_exact config -> json_exact d ->
  json_exact (js_coalesce (default JUndefined (field config k)) d).
Proof.
  intros Hex Hd. unfold js_coalesce.
  destruct (field config k) as [v|] eqn:Hv; cbn [default from_option id];
    [|done].
  destruct (nullish v); [done|]. by apply (json_exact_field config k).
Qed.

(** A configuration that is written as it is merges into one. *)
Lemma mergeWithDefaults_exact (config r : JsVal) :
  json_exact config -> mergeWithDefaults config = Ok r -> json_exact r.
Proof.
  intros Hex Hr.
  destruct (nullish config) eqn:Hp;
    [by rewrite mergeWithDefaults_nullish in Hr|].
  assert (Hsetting : forall kind x,
            In kind notificationTypes ->
            mergeWithDefaults_setting config kind = Ok x -> json_exact x).
  { intros kind x Hkind Hx.
    destruct (mergeWithDefaults_setting_eq config kind Hp Hkind)
      as (md & Hmd & Hs).
    rewrite Hs in Hx. injection Hx as <-.
    apply json_exact_obj. intros k v Hk. rewrite lookup_union in Hk.
    destruct (spread _ !! k) as [y|] eqn:Hy.
    - assert (v = y) as -> by (destruct (md !! k); by injection Hk).
      destruct (setting_of config kind) as [s|] eqn:Hset;
        cbn [default from_option id spread] in Hy;
        [|by rewrite lookup_empty in Hy].
      apply (json_exact_spread s k y); [|exact Hy].
      unfold setting_of in Hset.
      destruct (field config (lit "notifications")) as [n|] eqn:Hn; [|done].
      cbn [mbind option_bind] in Hset.
      apply (json_exact_field n kind); [|exact Hset].
      by apply (json_exact_field config (lit "notifications")).
    - assert (Hmdk : md !! k = Some v)
        by (destruct (md !! k); cbn in Hk; congruence).
      apply (json_exact_field (JObj md) k); [|exact Hmdk].
      assert (Hdef : json_exact DEFAULT_CONFIG) by (vm_compute; reflexivity).
      unfold setting_of in Hmd.
      destruct (field DEFAULT_CONFIG (lit "notifications")) as [dn|] eqn:Hdn;
        [|done].
      cbn [mbind option_bind] in Hmd.
      apply (json_exact_field dn kind); [|exact Hmd].
      by apply (json_exact_field DEFAULT_CONFIG (lit "notifications")). }
  destruct (mergeWithDefaults_eq config Hp)
    as (pp & ip & ed & rc & Heq & H1 & H2 & H3 & H4).
  rewrite Heq in Hr. injection Hr as <-.
  assert (Hin : forall kind, In kind notificationTypes ->
                             In kind notificationTypes) by done.
  unfold obj. cbn [list_to_map foldr uncurry].
  repeat apply json_exact_insert; try apply json_exact_empty;
    try (by apply json_exact_coalesce).
  - eapply Hsetting; [|exact H4]. unfold notificationTypes. cbn [In]. tauto.
  - eapply Hsetting; [|exact H3]. unfold notificationTypes. cbn [In]. tauto.
  - eapply Hsetting; [|exact H2]. unfold notificationTypes. cbn [In]. tauto.
  - eapply Hsetting; [|exact H1]. unfold notificationTypes. cbn [In]. tauto.
Qed.

Section Migration.
Context `{Builtins}.

(** X14.  The migration of the old profile format happens once.  When the
    configuration file holds a document with a truthy [profiles] and a
    truthy [currentProfile], selecting the profile does not throw, and the
    selected profile (or the defaults, when the selection is falsy) is
    written by [JSON.stringify] as it is, [load] merges it over the
    defaults, writes the result to the file and returns it; a second
    [load] then returns the same configuration and leaves the file
    alone. *)
Theorem load_migrates_once (parsed profiles currentProfile member : JsVal)
    (w : World) :
  notify_config_json w = Json parsed ->
  field parsed (lit "profiles") = Some profiles ->
  truthy profiles = true ->
  field parsed (lit "currentProfile") = Some currentProfile ->
  truthy currentProfile = true ->
  computed_member profiles currentProfile = Ok member ->
  json_exact (js_or member DEFAULT_CONFIG) ->
  exists r w1,
    load w = Some (Ok r, w1) /\
    mergeWithDefaults (js_or member DEFAULT_CONFIG) = Ok r /\
    notify_config_json w1 = Json r /\
    load w1 = Some (Ok r, w1).
Proof.
  intros Hj Hprofiles Htp Hcurrent Htc Hmember Hex.
  assert (Hp : nullish (js_or member DEFAULT_CONFIG) = false).
  { unfold js_or. destruct (truthy member) eqn:Hm; [|done].
    by apply truthy_not_nullish. }
  destruct (mergeWithDefaults_twice (js_or member DEFAULT_CONFIG) Hp)
    as (r & Hr & Hrr).
  pose proof (mergeWithDefaults_exact _ _ Hex Hr) as Hexr.
  exists r, (set_notify_config_json (Json r) w).
  split; [|split; [exact Hr|split; [done|]]].
  - unfold load, try_catch, mbind, IO_bind, io_bind, io_lift, read_config, save.
    rewrite Hj.
    assert (Hnn : nullish parsed = false) by (by destruct parsed).
    rewrite (get_field parsed (lit "profiles") Hnn), Hprofiles.
    cbn [default from_option id]. rewrite Htp.
    rewrite (get_field parsed (lit "currentProfile") Hnn), Hcurrent.
    cbn [default from_option id]. rewrite Htc. cbn [andb].
    rewrite Hmember, Hr, Hexr. done.
  - rewrite (load_eq r) by
      (try done;
       destruct (mergeWithDefaults_eq _ Hp) as (? & ? & ? & ? & Heq & _);
       rewrite Heq in Hr; by injection Hr as <-).
    by rewrite Hrr.
Qed.

End Migration.

Lemma load_migrates_once_witness :
  exists r w1,
    load (H := example_builtins) (config_world legacy_document)
      = Some (Ok r, w1) /\
    notify_config_json w1 = Json r /\
    load (H := example_builtins) w1 = Some (Ok r, w1).
Proof.
  destruct (load_migrates_once (H := example_builtins) legacy_document
              (obj [(lit "p", obj [])]) (JStr (lit "p")) (obj [])
              (config_world legacy_document)
              eq_refl eq_refl eq_refl eq_refl eq_refl eq_refl eq_refl)
    as (r & w1 & Hl & _ & Hj & Hl1).
  exists r, w1. split; [exact Hl|]. split; [exact Hj|exact Hl1].
Defined.

(** ** Validation again *)

(** A validated setting validates to itself. *)
Lemma validatedSetting_fixpoint (setting s : JsVal) (md : gmap jsstring JsVal) :
  default_setting_shape md ->
  validatedSetting setting (JObj md) = Ok s ->
  validatedSetting s (JObj md) = Ok s.
Proof.
  intros (He & Hm & Hv & Ht & Hs) Hval. unfold validatedSetting in Hval.
  destruct (typed_or_default_spec TBoolean setting md (lit "enabled"))
    as (e & Hte & Hes); [done|].
  destruct (validatedSetting_mode setting md Hm) as (sm & Hsm & mo & Hmo & Hmos).
  destruct (typed_or_default_spec TString setting md (lit "voice"))
    as (vo & Htv & Hvs); [done|].
  destruct (typed_or_default_spec TString setting md (lit "text"))
    as (te & Htt & Hts); [done|].
  destruct (typed_or_default_spec TString setting md (lit "sound"))
    as (so & Htso & Hss); [done|].
  rewrite Hte in Hval. cbn [mbind Result_bind] in Hval.
  rewrite Hsm in Hval. cbn [mbind Result_bind] in Hval.
  rewrite Hmo in Hval. cbn [mbind Result_bind] in Hval.
  rewrite Htv in Hval. cbn [mbind Result_bind] in Hval.
  rewrite Htt in Hval. cbn [mbind Result_bind] in Hval.
  rewrite Htso in Hval. cbn [mbind Result_bind] in Hval.
  injection Hval as Hs'.
  assert (Tye : typeof e = TBoolean).
  { destruct Hes as [[? _] | [-> _]]; [done|]. by destruct He as (x & -> & ?). }
  assert (Tyv : typeof vo = TString).
  { destruct Hvs as [[? _] | [-> _]]; [done|]. by destruct Hv as (x & -> & ?). }
  assert (Tyt : typeof te = TString).
  { destruct Hts as [[? _] | [-> _]]; [done|]. by destruct Ht as (x & -> & ?). }
  assert (Tys : typeof so = TString \/ so = JUndefined).
  { destruct Hss as [[? _] | [-> _]]; [by left|]. right. by rewrite Hs. }
  assert (Tym : (is_string (lit "talk") mo || is_string (lit "sound") mo)%bool
                = true).
  { destruct Hmos as [[= ->] | [= ->]]; [reflexivity|].
    apply orb_true_iff. right. apply is_string_refl. }
  assert (G1 : get s (lit "enabled") = Ok e) by (by rewrite <- Hs').
  assert (G2 : get s (lit "mode") = Ok mo) by (by rewrite <- Hs').
  assert (G3 : get s (lit "voice") = Ok vo) by (by rewrite <- Hs').
  assert (G4 : get s (lit "text") = Ok te) by (by rewrite <- Hs').
  assert (G5 : get s (lit "sound") = Ok so) by (by rewrite <- Hs').
  assert (Hopt : forall k, opt_get s k = get s k) by (by rewrite <- Hs').
  unfold validatedSetting, typed_or_default.
  rewrite !Hopt, G1, G2, G3, G4, G5. cbn [mbind Result_bind].
  rewrite Tym. cbn [mbind Result_bind].
  rewrite (decide_True (P := typeof e = TBoolean)) by done.
  rewrite (decide_True (P := typeof vo = TString)) by done.
  rewrite (decide_True (P := typeof te = TString)) by done.
  cbn [mbind Result_bind].
  destruct Tys as [Tys | ->].
  - rewrite (decide_True (P := typeof so = TString)) by done.
    cbn [mbind Result_bind]. by rewrite Hs'.
  - rewrite (decide_False (P := typeof JUndefined = TString)) by done.
    cbn [get mbind Result_bind]. rewrite Hs. cbn [default from_option id].
    by rewrite Hs'.
Qed.

(** One turn of the loop of [validateConfig] puts under the kind a setting
    that the same turn, run on notifications that hold this setting under
    the kind, puts there again. *)
Lemma validateConfig_step_fixpoint (notifications : JsVal)
    (acc acc' : gmap jsstring JsVal) (type : jsstring) :
  In type notificationTypes ->
  validateConfig_step notifications acc type = Ok acc' ->
  exists s, acc' = <[type := s]> acc /\
    forall n2 acc2, get n2 type = Ok s ->
      validateConfig_step n2 acc2 type = Ok (<[type := s]> acc2).
Proof.
  intros Hin Hstep. unfold validateConfig_step in Hstep.
  apply bind_Ok in Hstep as (setting & Hget & Hstep).
  destruct (DEFAULT_CONFIG_setting type Hin) as (md & Hd & Hshape).
  apply bind_Ok in Hd as (dn & Hdn & Hdt).
  rewrite Hdn in Hstep. cbn [mbind Result_bind] in Hstep.
  rewrite Hdt in Hstep. cbn [mbind Result_bind] in Hstep.
  apply bind_Ok in Hstep as (s & Hs & [= <-]).
  exists s. split; [done|]. intros n2 acc2 Hn2.
  unfold validateConfig_step. rewrite Hn2. cbn [mbind Result_bind].
  rewrite Hdn. cbn [mbind Result_bind]. rewrite Hdt. cbn [mbind Result_bind].
  by rewrite (validatedSetting_fixpoint setting s md Hshape Hs).
Qed.

Lemma validateConfig_notifications_fixpoint (notifications : JsVal)
    (vn : gmap jsstring JsVal) :
  foldM (validateConfig_step notifications) ∅ notificationTypes = Ok vn ->
  foldM (validateConfig_step (JObj vn)) ∅ notificationTypes = Ok vn.
Proof.
  unfold notificationTypes. cbn [foldM]. intros Hf.
  apply bind_Ok in Hf as (a1 & H1 & Hf). apply bind_Ok in Hf as (a2 & H2 & Hf).
  apply bind_Ok in Hf as (a3 & H3 & Hf). apply bind_Ok in Hf as (a4 & H4 & Hf).
  injection Hf as <-.
  apply validateConfig_step_fixpoint in H1 as (s1 & -> & F1);
    [|unfold notificationTypes; cbn [In]; tauto].
  apply validateConfig_step_fixpoint in H2 as (s2 & -> & F2);
    [|unfold notificationTypes; cbn [In]; tauto].
  apply validateConfig_step_fixpoint in H3 as (s3 & -> & F3);
    [|unfold notificationTypes; cbn [In]; tauto].
  apply validateConfig_step_fixpoint in H4 as (s4 & -> & F4);
    [|unfold notificationTypes; cbn [In]; tauto].
  rewrite F1;
    [|rewrite get_object; do 3 (rewrite lookup_insert_ne by done);
      by rewrite lookup_insert_eq].
  cbn [mbind Result_bind].
  rewrite F2;
    [|rewrite get_object; do 2 (rewrite lookup_insert_ne by done);
      by rewrite lookup_insert_eq].
  cbn [mbind Result_bind].
  rewrite F3;
    [|rewrite get_object; rewrite lookup_insert_ne by done;
      by rewrite lookup_insert_eq].
  cbn [mbind Result_bind].
  rewrite F4; [|rewrite get_object; by rewrite lookup_insert_eq].
  reflexivity.
Qed.

(** A configuration [validateConfig] returned for an object validates to
    itself. *)
Lemma validateConfig_object_fixpoint (config v : JsVal) :
  truthy config = true -> typeof config = TObject ->
  validateConfig config = Ok v -> validateConfig v = Ok v.
Proof.
  intros Htruthy Hobj Hv.
  destruct (validateConfig_object_form config Htruthy Hobj)
    as (e & vo & co & vn & Heq & _ & _ & _ & Te & Tv & Tc & _).
  rewrite Heq in Hv. injection Hv as Hv.
  assert (Hvn : foldM (validateConfig_step (JObj vn)) ∅ notificationTypes = Ok vn).
  { unfold validateConfig in Heq. rewrite Htruthy, Hobj in Heq.
    rewrite bool_decide_eq_true_2 in Heq by done. cbn [negb orb] in Heq.
    apply bind_Ok in Heq as (cn & _ & Heq).
    apply bind_Ok in Heq as (vn' & Hfold & Heq).
    apply bind_Ok in Heq as (e' & _ & Heq).
    apply bind_Ok in Heq as (vo' & _ & Heq).
    apply bind_Ok in Heq as (co' & _ & Heq).
    assert (vn' = vn) as ->.
    { apply (f_equal (fun r => match r with
                               | Ok x => field x (lit "notifications")
                               | Throw _ => None
                               end)) in Heq.
      change (Some (JObj vn') = Some (JObj vn)) in Heq. congruence. }
    by apply (validateConfig_notifications_fixpoint _ _ Hfold). }
  assert (G1 : get v (lit "enabled") = Ok e) by (by rewrite <- Hv).
  assert (G2 : get v (lit "volume") = Ok vo) by (by rewrite <- Hv).
  assert (G3 : get v (lit "cooldown") = Ok co) by (by rewrite <- Hv).
  assert (G4 : get v (lit "notifications") = Ok (JObj vn)) by (by rewrite <- Hv).
  assert (Hopt : forall k, opt_get v k = get v k) by (by rewrite <- Hv).
  assert (Hguard : (negb (truthy v)
                    || negb (bool_decide (typeof v = TObject)))%bool = false)
    by (by rewrite <- Hv).
  unfold validateConfig, typed_or_default. rewrite Hguard, G4.
  cbn [mbind Result_bind js_or truthy]. rewrite Hvn. cbn [mbind Result_bind].
  rewrite !Hopt, G1, G2, G3. cbn [mbind Result_bind].
  rewrite (decide_True (P := typeof e = TBoolean)) by done.
  rewrite (decide_True (P := typeof vo = TNumber)) by done.
  rewrite (decide_True (P := typeof co = TNumber)) by done.
  cbn [mbind Result_bind]. by rewrite Hv.
Qed.

(** X15.  Validation settles: for every input, [validateConfig] returns a
    configuration, validating that configuration returns one that
    [JSON.stringify] writes the same way, and from then on validation
    changes nothing.  When the input is an object, the first result
    already validates to itself. *)
Theorem validateConfig_idempotent (config : JsVal) :
  exists v v',
    validateConfig config = Ok v /\
    validateConfig v = Ok v' /\
    validateConfig v' = Ok v' /\
    toJSON v' = toJSON v /\
    (truthy config = true -> typeof config = TObject -> v' = v).
Proof.
  destruct (validateConfig_typed config) as (v & Hv & _).
  destruct (validateConfig_guard config) as [[Ht Ho] | Hd].
  - exists v, v.
    pose proof (validateConfig_object_fixpoint config v Ht Ho Hv) as Hfix.
    by repeat split.
  - assert (v = DEFAULT_CONFIG) as -> by congruence.
    assert (Hd2 : exists v', validateConfig DEFAULT_CONFIG = Ok v' /\
                             toJSON v' = toJSON DEFAULT_CONFIG).
    { assert (H1 : validateConfig DEFAULT_CONFIG = validateConfig (JObj ∅))
        by (vm_compute; reflexivity).
      rewrite validateConfig_empty_object in H1.
      eexists. split; [exact H1|]. vm_compute. reflexivity. }
    destruct Hd2 as (v' & Hv' & Hjson).
    exists DEFAULT_CONFIG, v'. split; [done|]. split; [done|].
    split; [by apply (validateConfig_object_fixpoint DEFAULT_CONFIG)|].
    split; [done|]. intros Ht Ho.
    unfold validateConfig in Hd. rewrite Ht, Ho in Hd.
    rewrite bool_decide_eq_true_2 in Hd by done. cbn [negb orb] in Hd.
    pose proof (validateConfig_object_fixpoint config DEFAULT_CONFIG Ht Ho Hv).
    congruence.
Qed.

(** ** Escaped text and sound names, as the shell reads them *)

(** X16.  Read back by the shell inside double quotes, an escaped text is
    the text itself, except that every exclamation mark comes back with
    the backslash [escapeForBash] put before it: the shell of a script
    drops the backslash before a dollar sign, a backtick, a double quote
    and a backslash, and keeps it before an exclamation mark.  So a text
    without exclamation mark is said as it was typed, and [escapeForBash]
    never maps two texts to the same escaped text. *)
Theorem escapeForBash_read_back (str : jsstring) :
  dq_read (escapeForBash str) = backslash_bangs str /\
  (~ In 33%N str -> dq_read (escapeForBash str) = str) /\
  forall str', escapeForBash str = escapeForBash str' -> str = str'.
Proof.
  assert (Hread : forall s, dq_read (escapeForBash s) = backslash_bangs s).
  { induction s as [|c s IH]; [done|].
    unfold escapeForBash, backslash_bangs in *. cbn [flat_map].
    rewrite <- IH. unfold bash_special.
    destruct (N.eqb_spec c 36) as [->|H36]; [done|].
    destruct (N.eqb_spec c 96) as [->|H96]; [done|].
    destruct (N.eqb_spec c 92) as [->|H92]; [done|].
    destruct (N.eqb_spec c 33) as [->|H33]; [done|].
    destruct (N.eqb_spec c 34) as [->|H34]; [done|].
    cbn [orb app dq_read]. by rewrite (proj2 (N.eqb_neq c 92) H92). }
  assert (Hbangs : forall s, ~ In 33%N s -> backslash_bangs s = s).
  { induction s as [|c s IH]; [done|]. intros Hnot.
    unfold backslash_bangs in *. cbn [flat_map].
    destruct (N.eqb_spec c 33) as [->|H33]; [destruct Hnot; by left|].
    cbn [app]. f_equal. apply IH. intros Hin. apply Hnot. by right. }
  assert (Hinj : forall s s', backslash_bangs s = backslash_bangs s' -> s = s').
  { induction s as [|c s IH]; intros [|c' s']; unfold backslash_bangs in *;
      cbn [flat_map].
    - done.
    - by destruct (N.eqb c' 33).
    - by destruct (N.eqb c 33).
    - destruct (N.eqb_spec c 33) as [->|H33];
        destruct (N.eqb_spec c' 33) as [->|H33']; cbn [app].
      + intros [= Heq]. f_equal. by apply IH.
      + intros [= <- Heq]. exfalso.
        destruct s' as [|c'' s']; cbn [flat_map] in Heq; [done|].
        destruct (N.eqb_spec c'' 33) as [->|H33'']; by injection Heq.
      + intros [= -> Heq]. exfalso.
        destruct s as [|c'' s]; cbn [flat_map] in Heq; [done|].
        destruct (N.eqb_spec c'' 33) as [->|H33'']; by injection Heq.
      + intros [= -> Heq]. f_equal. by apply IH. }
  split; [apply Hread|]. split.
  - intros Hnot. rewrite Hread. by apply Hbangs.
  - intros str' Heq. apply Hinj. by rewrite <- !Hread, Heq.
Qed.

Lemma sanitizeSoundName_kept (name : jsstring) :
  Forall (fun c => sound_char_kept c = true) (sanitizeSoundName name).
Proof.
  unfold sanitizeSoundName.
  destruct (List.filter sound_char_kept name) as [|c l] eqn:Hf.
  - repeat constructor.
  - rewrite <- Hf. apply Forall_forall. intros x Hx.
    by apply filter_In in Hx as [_ Hx].
Qed.

Lemma filter_all_kept (l : list N) :
  Forall (fun c => sound_char_kept c = true) l ->
  List.filter sound_char_kept l = l.
Proof.
  induction 1 as [|c l Hc Hl IH]; [done|]. cbn [List.filter].
  by rewrite Hc, IH.
Qed.

Lemma sound_char_kept_safe (c : N) :
  sound_char_kept c = true ->
  c <> 47%N /\ c <> 46%N /\ bash_special c = false.
Proof.
  intros Hk. split; [by intros ->|]. split; [by intros ->|].
  destruct (bash_special c) eqn:Hb; [|done].
  apply bash_special_five in Hb. unfold five_characters, dquote in Hb.
  change (lit "$`\!" ++ [34%N]) with [36%N; 96%N; 92%N; 33%N; 34%N] in Hb.
  cbn [In] in Hb. by destruct Hb as [<- | [<- | [<- | [<- | [<- | []]]]]].
Qed.

(** X17.  A sanitized sound name is never empty, holds no slash, no dot and
    none of the characters the shell treats specially inside double
    quotes, so that the path built from it stays inside the sounds
    directory and the double-quoted word it stands in closes at the
    template's quote; and sanitizing is idempotent.  The same holds of the
    name [SoundService] sanitizes before it builds the path of the sound
    to preview. *)
Theorem sanitizeSoundName_safe (name : jsstring) :
  sanitizeSoundName name <> [] /\
  sanitizeSoundName (sanitizeSoundName name) = sanitizeSoundName name /\
  (forall c, In c (sanitizeSoundName name) ->
             c <> 47%N /\ c <> 46%N /\ bash_special c = false) /\
  (forall rest, dq_close (sanitizeSoundName name ++ rest) = dq_close rest) /\
  SoundService.sanitizeSoundName name <> [] /\
  (forall c, In c (SoundService.sanitizeSoundName name) ->
             c <> 47%N /\ c <> 46%N /\ bash_special c = false).
Proof.
  pose proof (sanitizeSoundName_kept name) as Hkept.
  change (SoundService.sanitizeSoundName name) with (sanitizeSoundName name).
  assert (Hne : sanitizeSoundName name <> [])
    by (unfold sanitizeSoundName; by destruct (List.filter sound_char_kept name)).
  assert (Hchars : forall c, In c (sanitizeSoundName name) ->
                             c <> 47%N /\ c <> 46%N /\ bash_special c = false).
  { intros c Hc. rewrite Forall_forall in Hkept.
    by apply sound_char_kept_safe, Hkept. }
  split; [done|]. split; [|split; [done|split; [|by split]]].
  - unfold sanitizeSoundName at 1. rewrite (filter_all_kept _ Hkept).
    by destruct (sanitizeSoundName name).
  - clear Hne Hchars. intros rest. induction Hkept as [|c l Hc Hl IH]; [done|].
    destruct (sound_char_kept_safe c Hc) as (_ & _ & Hb).
    unfold bash_special in Hb. cbn [app dq_close]. unfold dquote.
    destruct (N.eqb c 36); [done|]. destruct (N.eqb c 96); [done|].
    destruct (N.eqb c 92); [done|]. destruct (N.eqb c 33); [done|].
    destruct (N.eqb c 34); [done|]. exact IH.
Qed.

(** ** The sound line of the generated scripts *)

Lemma generateScript_case_sound (config n s e mo so : JsVal)
    (script type script' snd : jsstring) :
  generateScript_case config script type = Ok script' ->
  get config (lit "notifications") = Ok n ->
  get n type = Ok s ->
  get s (lit "enabled") = Ok e -> truthy e = true ->
  get s (lit "mode") = Ok mo -> is_string (lit "talk") mo = false ->
  get s (lit "sound") = Ok so ->
  js_or so (JStr (lit "Glass")) = JStr snd ->
  exists block, script' = script ++ block /\
                occurs_in (sound_line (sanitizeSoundName snd)) block.
Proof.
  intros Hc Hn Hs He Hte Hm Hmo Hso Hsnd. unfold generateScript_case in Hc.
  rewrite Hn in Hc. cbn [mbind Result_bind] in Hc.
  rewrite Hs in Hc. cbn [mbind Result_bind] in Hc.
  rewrite He in Hc. cbn [mbind Result_bind] in Hc.
  rewrite Hte in Hc. cbn [negb] in Hc.
  rewrite Hm in Hc. cbn [mbind Result_bind] in Hc. rewrite Hmo in Hc.
  rewrite Hso in Hc. cbn [mbind Result_bind] in Hc. rewrite Hsnd in Hc.
  cbn [on_string mbind Result_bind] in Hc. injection Hc as <-.
  eexists. split; [reflexivity|].
  unfold sound_line. generalize (sanitizeSoundName snd) as sound. intros sound.
  find_occurrence.
Qed.

Lemma foldM_generateScript_case_occurs (config : JsVal) (type line : jsstring)
    (types : list jsstring) :
  (forall s0 s1, generateScript_case config s0 type = Ok s1 ->
                 exists block, s1 = s0 ++ block /\ occurs_in line block) ->
  In type types ->
  forall script script',
    foldM (generateScript_case config) script types = Ok script' ->
    occurs_in line script'.
Proof.
  intros Hline. induction types as [|t types IH]; [done|].
  intros [-> | Hin] script script' Hf; cbn [foldM] in Hf;
    apply bind_Ok in Hf as (s1 & H1 & Hf).
  - destruct (Hline _ _ H1) as (block & -> & Hocc).
    apply foldM_generateScript_case_extends in Hf as (blocks & ->).
    by apply occurs_in_app_l, occurs_in_app_r.
  - by apply (IH Hin s1).
Qed.

Section SoundLine.
Context `{Builtins}.

Lemma generateScript_sound (config n s e mo so : JsVal)
    (type script snd : jsstring) :
  generateScript config = Ok script ->
  In type [lit "permission_prompt"; lit "idle_prompt"; lit "elicitation_dialog"] ->
  get config (lit "notifications") = Ok n ->
  get n type = Ok s ->
  get s (lit "enabled") = Ok e -> truthy e = true ->
  get s (lit "mode") = Ok mo -> is_string (lit "talk") mo = false ->
  get s (lit "sound") = Ok so ->
  js_or so (JStr (lit "Glass")) = JStr snd ->
  occurs_in (sound_line (sanitizeSoundName snd)) script.
Proof.
  intros Hg Hin Hn Hs He Hte Hm Hmo Hso Hsnd. unfold generateScript in Hg.
  apply bind_Ok in Hg as (cv & _ & Hg). apply bind_Ok in Hg as (volume & _ & Hg).
  apply bind_Ok in Hg as (cc & _ & Hg). apply bind_Ok in Hg as (cooldown & _ & Hg).
  apply bind_Ok in Hg as (ce & _ & Hg). apply bind_Ok in Hg as (s' & Hf & Hg).
  injection Hg as <-. apply occurs_in_app_l.
  apply (foldM_generateScript_case_occurs config type
           (sound_line (sanitizeSoundName snd))) in Hf; [done| |done].
  intros s0 s1 Hc.
  by apply (generateScript_case_sound config n s e mo so s0 type s1 snd).
Qed.

Lemma generatePermissionScript_sound (config n s mo so : JsVal)
    (script snd : jsstring) :
  generatePermissionScript config = Ok script ->
  get config (lit "notifications") = Ok n ->
  get n (lit "permission_prompt") = Ok s ->
  get s (lit "mode") = Ok mo -> is_string (lit "talk") mo = false ->
  get s (lit "sound") = Ok so ->
  js_or so (JStr (lit "Glass")) = JStr snd ->
  occurs_in (sound_line (sanitizeSoundName snd)) script.
Proof.
  intros Hg Hn Hs Hm Hmo Hso Hsnd. unfold generatePermissionScript in Hg.
  apply bind_Ok in Hg as (cv & _ & Hg). apply bind_Ok in Hg as (volume & _ & Hg).
  apply bind_Ok in Hg as (cc & _ & Hg). apply bind_Ok in Hg as (cooldown & _ & Hg).
  rewrite Hn in Hg. cbn [mbind Result_bind] in Hg.
  rewrite Hs in Hg. cbn [mbind Result_bind] in Hg.
  apply bind_Ok in Hg as (ce & _ & Hg). apply bind_Ok in Hg as (se & _ & Hg).
  rewrite Hm in Hg. cbn [mbind Result_bind] in Hg. rewrite Hmo in Hg.
  rewrite Hso in Hg. cbn [mbind Result_bind] in Hg. rewrite Hsnd in Hg.
  cbn [on_string mbind Result_bind] in Hg.
  apply (f_equal (fun r => match r with Ok x => x | Throw _ => [] end)) in Hg.
  cbv beta iota in Hg. rewrite <- Hg.
  apply occurs_in_app_l, occurs_in_app_r.
  unfold sound_line. generalize (sanitizeSoundName snd) as sound. intros sound.
  find_occurrence.
Qed.

Lemma generateStopScript_sound (config n s mo so : JsVal)
    (script snd : jsstring) :
  generateStopScript config = Ok script ->
  get config (lit "notifications") = Ok n ->
  get n (lit "response_complete") = Ok s ->
  get s (lit "mode") = Ok mo -> is_string (lit "talk") mo = false ->
  get s (lit "sound") = Ok so ->
  js_or so (JStr (lit "Glass")) = JStr snd ->
  occurs_in (sound_line (sanitizeSoundName snd)) script.
Proof.
  intros Hg Hn Hs Hm Hmo Hso Hsnd. unfold generateStopScript in Hg.
  apply bind_Ok in Hg as (cv & _ & Hg). apply bind_Ok in Hg as (volume & _ & Hg).
  apply bind_Ok in Hg as (cc & _ & Hg). apply bind_Ok in Hg as (cooldown & _ & Hg).
  rewrite Hn in Hg. cbn [mbind Result_bind] in Hg.
  rewrite Hs in Hg. cbn [mbind Result_bind] in Hg.
  apply bind_Ok in Hg as (ce & _ & Hg). apply bind_Ok in Hg as (se & _ & Hg).
  rewrite Hm in Hg. cbn [mbind Result_bind] in Hg. rewrite Hmo in Hg.
  rewrite Hso in Hg. cbn [mbind Result_bind] in Hg. rewrite Hsnd in Hg.
  cbn [on_string mbind Result_bind] in Hg.
  apply (f_equal (fun r => match r with Ok x => x | Throw _ => [] end)) in Hg.
  cbv beta iota in Hg. rewrite <- Hg.
  apply occurs_in_app_l, occurs_in_app_r.
  unfold sound_line. generalize (sanitizeSoundName snd) as sound. intros sound.
  find_occurrence.
Qed.

End SoundLine.

Lemma chosen_sound_js_or (s so : JsVal) :
  nullish s = false ->
  get s (lit "sound") = Ok so ->
  so = JUndefined \/ (exists ss, so = JStr ss) ->
  js_or so (JStr (lit "Glass")) = JStr (chosen_sound s).
Proof.
  intros Hs Hget Hso. rewrite (get_field s _ Hs) in Hget.
  injection Hget as Hget. unfold chosen_sound.
  destruct (field s (lit "sound")) as [v|]; cbn [default from_option id] in Hget;
    subst so; [|done].
  destruct Hso as [-> | (ss & ->)]; [done|]. apply js_or_strings.
Qed.

Section SoundTheorem.
Context `{Builtins}.

(** X18.  For every configuration, in the three scripts rendered from its
    validated form a kind in sound mode gets the line
    [afplay -v $VOLUME "/System/Library/Sounds/NAME.aiff" &], where NAME is
    the sanitized name of the setting's sound, or of [Glass] when the
    setting names none: in the main script for each of its three kinds
    when enabled, in the permission script for [permission_prompt], in the
    stop script for [response_complete]. *)
Theorem sound_mode_plays_sanitized_sound (config : JsVal) :
  exists v script permissionScript stopScript,
    validateConfig config = Ok v /\
    generateScript v = Ok script /\
    generatePermissionScript v = Ok permissionScript /\
    generateStopScript v = Ok stopScript /\
    (forall type s,
       In type [lit "permission_prompt"; lit "idle_prompt";
                lit "elicitation_dialog"] ->
       setting_of v type = Some s ->
       field s (lit "enabled") = Some (JBool true) ->
       field s (lit "mode") = Some (JStr (lit "sound")) ->
       occurs_in (sound_line (sanitizeSoundName (chosen_sound s))) script) /\
    (forall s,
       setting_of v (lit "permission_prompt") = Some s ->
       field s (lit "mode") = Some (JStr (lit "sound")) ->
       occurs_in (sound_line (sanitizeSoundName (chosen_sound s)))
                 permissionScript) /\
    (forall s,
       setting_of v (lit "response_complete") = Some s ->
       field s (lit "mode") = Some (JStr (lit "sound")) ->
       occurs_in (sound_line (sanitizeSoundName (chosen_sound s))) stopScript).
Proof.
  destruct (validateConfig_typed config) as (v & Hv & Hshape).
  destruct (generateScript_validated v Hshape)
    as (_ & _ & _ & _ & script & _ & _ & _ & _ & Hscript & _).
  destruct (generatePermissionScript_validated v Hshape)
    as (_ & _ & _ & _ & pscript & _ & _ & _ & _ & Hpscript & _).
  destruct (generateStopScript_validated v Hshape)
    as (_ & _ & _ & _ & sscript & _ & _ & _ & _ & Hsscript & _).
  exists v, script, pscript, sscript.
  split; [done|]. split; [done|]. split; [done|]. split; [done|].
  destruct (config_shape_gets v Hshape)
    as (e & x & y & n & _ & _ & _ & _ & _ & Hfn & Hn & Hall).
  assert (Hsetting : forall type s,
            In type notificationTypes ->
            setting_of v type = Some s ->
            field s (lit "mode") = Some (JStr (lit "sound")) ->
            exists b so,
              get n type = Ok s /\
              field s (lit "enabled") = Some (JBool b) /\
              get s (lit "enabled") = Ok (JBool b) /\
              get s (lit "mode") = Ok (JStr (lit "sound")) /\
              get s (lit "sound") = Ok so /\
              js_or so (JStr (lit "Glass")) = JStr (chosen_sound s)).
  { intros type s Hin Hs Hmode.
    destruct (Hall type Hin) as (s' & Hf & Hg & Hty).
    unfold setting_of in Hs. rewrite Hfn in Hs. cbn [mbind option_bind] in Hs.
    assert (s' = s) as -> by congruence.
    destruct (setting_typed_gets s Hty)
      as (b & mo & vs & ts & so & Hfe & He & Hfm & Hm & _ & _ & _ & _ & _
          & Hso & Hso').
    exists b, so. split; [done|]. split; [done|]. split; [done|].
    split; [by apply field_get|]. split; [done|].
    apply chosen_sound_js_or; [by destruct s|done|done]. }
  split; [|split].
  - intros type s Hin Hs Hen Hmode.
    destruct (Hsetting type s) as (b & so & Hg & Hfe & He & Hm & Hso & Hsnd);
      [cbn [In] in Hin |- *; unfold notificationTypes; cbn [In]; tauto|done..|].
    assert (b = true) as -> by congruence.
    by apply (generateScript_sound v n s (JBool true) (JStr (lit "sound")) so
                type script (chosen_sound s)).
  - intros s Hs Hmode.
    destruct (Hsetting (lit "permission_prompt") s)
      as (b & so & Hg & Hfe & He & Hm & Hso & Hsnd);
      [unfold notificationTypes; cbn [In]; tauto|done..|].
    by apply (generatePermissionScript_sound v n s (JStr (lit "sound")) so
                pscript (chosen_sound s)).
  - intros s Hs Hmode.
    destruct (Hsetting (lit "response_complete") s)
      as (b & so & Hg & Hfe & He & Hm & Hso & Hsnd);
      [unfold notificationTypes; cbn [In]; tauto|done..|].
    by apply (generateStopScript_sound v n s (JStr (lit "sound")) so
                sscript (chosen_sound s)).
Qed.

End SoundTheorem.

(** ** Saving a configuration from the sidebar *)






Section Sidebar.
Context `{Builtins}.


End Sidebar.

(** ** Ownership, errors and a fresh machine *)

Lemma someM_command_spec (path : jsstring) (es : list JsVal) :
  Forall (fun e => nullish e = false) es ->
  exists b,
    someM (fun hk => command ← get hk (lit "command");
                     Ok (is_string path command)) es = Ok b /\
    (b = true <->
     exists e, In e es /\ field e (lit "command") = Some (JStr path)).
Proof.
  induction 1 as [|e es He Hes IH]; cbn [someM].
  - exists false. split; [done|]. split; [done|]. by intros (e & [] & _).
  - rewrite (get_field e _ He). cbn [mbind Result_bind].
    destruct (is_string path (default JUndefined (field e (lit "command"))))
      eqn:Hs.
    + exists true. split; [done|]. split; [|done]. intros _.
      exists e. split; [by left|].
      destruct (field e (lit "command")) as [[]|]; try done.
      cbn [default from_option id is_string] in Hs.
      by apply bool_decide_eq_true in Hs as ->.
    + destruct IH as (b & Hb & Hiff). exists b. split; [done|].
      rewrite Hiff. split.
      * intros (e' & Hin & Hc). exists e'. split; [by right|done].
      * intros (e' & [<- | Hin] & Hc); [|by exists e'].
        rewrite Hc in Hs. cbn [default from_option id] in Hs.
        by rewrite is_string_refl in Hs.
Qed.

(** X20.  A matcher is this system's for a script by exact equality of a
    command: when the matcher holds a list of entries none of which is
    [null] or [undefined], the ownership test returns, and returns true
    exactly when some entry has that very path as its command; a command
    that only contains the path, or no string at all, does not count. *)
Theorem isOurHook_exact_command (path : jsstring) (h : JsVal)
    (es : list JsVal) :
  field h (lit "hooks") = Some (JArr es) ->
  Forall (fun e => nullish e = false) es ->
  exists b,
    isOurHook path h = Ok b /\
    (b = true <->
     exists e, In e es /\ field e (lit "command") = Some (JStr path)).
Proof.
  intros Hh Hes. unfold isOurHook. rewrite (field_get h _ _ Hh).
  cbn [mbind Result_bind]. by apply someM_command_spec.
Qed.

Lemma isOurHook_exact_command_witness :
  exists b,
    isOurHook (lit "/a/notify.sh")
      (hookMatcher (lit "*") (lit "/a/notify.sh.bak")) = Ok b /\
    (b = true <->
     exists e, In e [obj [(lit "type", JStr (lit "command"));
                          (lit "command", JStr (lit "/a/notify.sh.bak"))]] /\
               field e (lit "command") = Some (JStr (lit "/a/notify.sh"))).
Proof.
  apply (isOurHook_exact_command (lit "/a/notify.sh")
           (hookMatcher (lit "*") (lit "/a/notify.sh.bak"))
           [obj [(lit "type", JStr (lit "command"));
                 (lit "command", JStr (lit "/a/notify.sh.bak"))]]);
    [reflexivity|].
  constructor; [reflexivity|constructor].
Defined.

Section MoreMethods.
Context `{Builtins}.


(** The filtering steps of [install] go through on testable events only. *)
Lemma install_settings_events_testable (self : HookService)
    (m h : gmap jsstring JsVal) (d' : JsVal) :
  js_or (default JUndefined (m !! lit "hooks")) (JObj ∅) = JObj h ->
  install_settings self (JObj m) = Ok d' ->
  events_testable self h.
Proof.
  intros Hh. unfold install_settings. cbn [get mbind Result_bind]. rewrite Hh.
  intros Hchain.
  match type of Hchain with
  | ?c = Ok d' => destruct c as [x|] eqn:Hc; [|done]
  end.
  apply bind_Ok in Hc as (h1 & Hf1 & Hc).
  apply bind_Ok in Hc as (h2 & Hf2 & Hc).
  apply bind_Ok in Hc as (h3 & Hf3 & _).
  destruct our_event_names_distinct as (HNS & HNP & HSP).
  pose proof (install_filter_spec _ _ _ _ Hf1) as [A1 B1].
  pose proof (install_filter_spec _ _ _ _ Hf2) as [A2 B2].
  pose proof (install_filter_spec _ _ _ _ Hf3) as [A3 B3].
  intros K path hook Hin. unfold our_events in Hin. cbn [In] in Hin.
  destruct Hin as [[= <- <- <-] | [[= <- <- <-] | [[= <- <- <-] | []]]].
  - destruct B1 as [[Hf _] | (l & Hl & Hall & _)]; [by left|].
    right. by exists l.
  - rewrite <- (A1 (lit "Stop")) by done.
    destruct B2 as [[Hf _] | (l & Hl & Hall & _)]; [by left|].
    right. by exists l.
  - rewrite <- (A1 (lit "PermissionRequest")),
            <- (A2 (lit "PermissionRequest")) by done.
    destruct B3 as [[Hf _] | (l & Hl & Hall & _)]; [by left|].
    right. by exists l.
Qed.

(** X22.  With no lock file in the way, a settings file in which [hooks]
    is an object and one of the three hook events holds something truthy
    that is not a list makes [install] reject, and the file stays as it
    was: nothing is written over a document [install] cannot read. *)
Theorem install_rejects_non_list_event (self : HookService) (fuel : nat)
    (config : JsVal) (w : World) (m h : gmap jsstring JsVal) (K : jsstring)
    (v : JsVal) :
  settings_lock w = None ->
  settings_json w = Json (JObj m) ->
  m !! lit "hooks" = Some (JObj h) ->
  In K our_event_names ->
  h !! K = Some v -> truthy v = true -> (forall l, v <> JArr l) ->
  exists e w', install self (S fuel) config w = Some (Throw e, w') /\
               settings_json w' = settings_json w.
Proof.
  intros Hfree Hj Hm HK Hv Htruthy Hnot.
  destruct (install_settles self fuel config w Hfree) as (r & w' & Hi).
  destruct r as [[]|e].
  - exfalso. apply install_inv in Hi as (_ & _ & _ & (d' & dj & HT & _) & _).
    unfold settings_document in HT. rewrite Hj in HT.
    assert (Hh : js_or (default JUndefined (m !! lit "hooks")) (JObj ∅) = JObj h)
      by (by rewrite Hm).
    pose proof (install_settings_events_testable self m h d' Hh HT) as Htest.
    destruct (our_events_names self K HK) as (path & hook & Hin & _).
    destruct (Htest K path hook Hin) as [Hfalsy | (l & Hl & _)].
    + rewrite Hv in Hfalsy. cbn [default from_option id] in Hfalsy. congruence.
    + rewrite Hv in Hl. injection Hl as ->. by destruct (Hnot l).
  - exists e, w'. split; [done|].
    by apply install_inv in Hi as (_ & _ & Hsame).
Qed.

(** X23.  On a machine without a settings file and without a lock file,
    [install] resolves and creates a settings file that
    holds exactly a [hooks] object with, under each of the three events, a
    list of one matcher, this system's. *)
Theorem install_on_fresh_machine (self : HookService) (fuel : nat)
    (config : JsVal) (w : World) :
  settings_lock w = None ->
  settings_json w = Absent ->
  exists w',
    install self (S fuel) config w = Some (Ok tt, w') /\
    settings_json w' =
      Json (obj [(lit "hooks",
                  obj [(lit "Notification", JArr [notifyHook self]);
                       (lit "PermissionRequest", JArr [permissionHook self]);
                       (lit "Stop", JArr [stopHook self])])]).
Proof.
  intros Hfree Hj.
  assert (Hdoc : settings_document w = JObj ∅)
    by (unfold settings_document; by rewrite Hj).
  set (d1 := obj [(lit "hooks",
                   obj [(lit "Notification", JArr [notifyHook self]);
                        (lit "PermissionRequest", JArr [permissionHook self]);
                        (lit "Stop", JArr [stopHook self])])]).
  assert (Hd1 : install_settings self (JObj ∅) = Ok d1) by reflexivity.
  assert (Hex : json_exact d1).
  { apply (install_settings_exact self (JObj ∅)); [|done].
    apply json_exact_empty. }
  destruct (install_ok self fuel config w d1 d1) as [w' Hi];
    [done|by rewrite Hj|by rewrite Hdoc|done|].
  exists w'. split; [done|].
  apply install_inv in Hi as (_ & _ & _ & (d' & dj & HT & Hdj & Hw') & _).
  rewrite Hdoc, Hd1 in HT. injection HT as <-.
  unfold json_exact in Hex. congruence.
Qed.

End MoreMethods.


Lemma install_rejects_non_list_event_witness :
  exists e w',
    install (H := example_builtins) example_service 1 JUndefined
      (set_settings_json (Json bad_event_settings) empty_world)
      = Some (Throw e, w') /\
    settings_json w' = Json bad_event_settings.
Proof.
  apply (install_rejects_non_list_event (H := example_builtins) example_service
           0 JUndefined (set_settings_json (Json bad_event_settings) empty_world)
           (<[lit "hooks" := obj [(lit "Notification", JStr (lit "x"))]]> ∅)
           (<[lit "Notification" := JStr (lit "x")]> ∅)
           (lit "Notification") (JStr (lit "x")));
    [reflexivity | reflexivity | reflexivity
    | unfold our_event_names; by left | reflexivity | reflexivity | done].
Defined.

Lemma install_on_fresh_machine_witness :
  exists w',
    install (H := example_builtins) example_service 1 JUndefined empty_world
      = Some (Ok tt, w') /\
    settings_json w' =
      Json (obj [(lit "hooks",
                  obj [(lit "Notification", JArr [notifyHook example_service]);
                       (lit "PermissionRequest",
                        JArr [permissionHook example_service]);
                       (lit "Stop", JArr [stopHook example_service])])]).
Proof.
  apply (install_on_fresh_machine (H := example_builtins) example_service 0
           JUndefined empty_world); reflexivity.
Defined.


(** ** Saving what was saved *)

(** X25.  What [saveSettings] has written is stable: [loadSettings] reads
    back what [JSON.stringify] wrote of the document, and saving what was
    read leaves the file exactly as it is. *)
Theorem saved_settings_stable (d : JsVal) (w w1 : World) :
  saveSettings d w = Some (Ok tt, w1) ->
  exists d1, toJSON d = Some d1 /\
             loadSettings w1 = Some (Ok d1, w1) /\
             saveSettings d1 w1 = Some (Ok tt, w1).
Proof.
  unfold saveSettings. destruct (toJSON d) as [dj|] eqn:Hj; [|done].
  intros [= <-]. exists dj. split; [done|]. split; [reflexivity|].
  by rewrite (toJSON_exact d dj Hj).
Qed.

Lemma saved_settings_stable_witness :
  exists w1 d1,
    saveSettings overflow_settings empty_world = Some (Ok tt, w1) /\
    loadSettings w1 = Some (Ok d1, w1) /\
    field d1 (lit "fontSize") = Some JNull /\
    saveSettings d1 w1 = Some (Ok tt, w1).
Proof.
  destruct (saved_settings_stable overflow_settings empty_world
              (settings_world (obj [(lit "fontSize", JNull)])))
    as (d1 & Hd1 & Hl & Hs); [vm_compute; reflexivity|].
  exists (settings_world (obj [(lit "fontSize", JNull)])), d1.
  split; [vm_compute; reflexivity|]. split; [exact Hl|]. split; [|exact Hs].
  vm_compute in Hd1. injection Hd1 as <-. reflexivity.
Defined.
